(** * Zettelkasten automation: incremental note processing and linking

    A shallow embedding of [src/zettelkasten_automation.py] (class
    [ZettelkastenAutomation]) together with the properties of its processing
    ledger, related-note matcher, enrichment fallback, backlink persister and
    batch orchestrator.

    Conventions of the embedding
    - a Python [str] is a list of Unicode code points ([list N]), so that
      [len], slicing and [in] count characters the way Python does;
    - loosely typed payloads read from disk or from the analysis backend are
      values of the [JSON] type; Python's exceptions on ill-shaped values
      ([KeyError], [TypeError], [AttributeError]) are made explicit;
    - the instance and its external collaborators (document store, analysis
      backend, archive repository, log file, console) form one [World]
      record threaded through a state-and-exception monad. *)

From stdpp Require Import base option list strings gmap numbers sorting.
From Stdlib Require Import ZArith Lia.

Set Warnings "-register-all".

(** ** Python strings *)

Module Py.

(** A string is a sequence of code points. *)
Definition str : Type := list N.

(** String literals of the source are written as they are in the Python
    file; [lit] decodes their UTF-8 bytes into code points. *)
Fixpoint utf8_decode (bytes : list N) (pending : nat) (acc : N) : str :=
  match bytes with
  | [] => []
  | b :: rest =>
      match pending with
      | O =>
          if (b <? 128)%N then b :: utf8_decode rest 0 0%N
          else if (b <? 224)%N then utf8_decode rest 1 (b - 192)%N
          else if (b <? 240)%N then utf8_decode rest 2 (b - 224)%N
          else utf8_decode rest 3 (b - 240)%N
      | S n =>
          let acc' := (acc * 64 + (b - 128))%N in
          match n with
          | O => acc' :: utf8_decode rest 0 0%N
          | S _ => utf8_decode rest n acc'
          end
      end
  end.

Fixpoint bytes_of (s : string) : list N :=
  match s with
  | EmptyString => []
  | String a s' => Ascii.N_of_ascii a :: bytes_of s'
  end.

Definition lit (s : string) : str := utf8_decode (bytes_of s) 0 0%N.
Global Arguments lit : simpl never.

(** [s[:n]] for a non-negative literal [n]. *)
Definition slice_to (n : nat) (s : str) : str := take n s.

(** [l[:k]] for an arbitrary integer [k]: a negative bound counts from the
    end of the list. *)
Definition slice_to_Z {A} (k : Z) (l : list A) : list A :=
  if (0 <=? k)%Z then take (Z.to_nat k) l
  else take (length l - Z.to_nat (- k)) l.

(** [p] is a prefix of [s]. *)
Fixpoint startswith (s p : str) : bool :=
  match p, s with
  | [], _ => true
  | _ :: _, [] => false
  | a :: p', b :: s' => (a =? b)%N && startswith s' p'
  end.

(** [needle in hay] on strings: substring search. *)
Fixpoint contains (hay needle : str) : bool :=
  startswith hay needle ||
  match hay with
  | [] => false
  | _ :: hay' => contains hay' needle
  end.

(** [sep.join(parts)]. *)
Fixpoint join (sep : str) (parts : list str) : str :=
  match parts with
  | [] => []
  | [p] => p
  | p :: rest => p ++ sep ++ join sep rest
  end.

(** [s.replace(old, new)] for a one-character [old]. *)
Definition replace_char (old : N) (new : str) (s : str) : str :=
  concat (map (fun c => if (c =? old)%N then new else [c]) s).

(** The parts of the [str] type that are Unicode tables rather than code of
    this repository: case folding and the alphanumeric character class. *)
Class Unicode := {
  lower : str -> str;
  isalnum : N -> bool
}.

(** ASCII instance, used to evaluate the model on concrete inputs. *)
Definition ascii_lower_char (c : N) : N :=
  if ((65 <=? c) && (c <=? 90))%N then (c + 32)%N else c.

Definition ascii_isalnum (c : N) : bool :=
  ((48 <=? c) && (c <=? 57) || (65 <=? c) && (c <=? 90) ||
   (97 <=? c) && (c <=? 122))%N.

Definition ascii_unicode : Unicode :=
  {| lower := map ascii_lower_char; isalnum := ascii_isalnum |}.

End Py.

Abbreviation str := Py.str.

(** ** JSON values and Python's operations on them *)

Inductive JSON :=
  | JNull
  | JBool (b : bool)
  | JNum (z : Z)
  | JStr (s : str)
  | JList (l : list JSON)
  | JObj (m : gmap str JSON).

Inductive Exn :=
  | KeyError (key : str)
  | TypeError
  | AttributeError
  | JSONDecodeError
  | OSError (msg : str)
  | APIError (msg : str).

(** Outcome of running a piece of code: a value, a raised exception, or
    [Diverge] when a loop of the model has used up its iteration budget. *)
Inductive result (A : Type) :=
  | Ok (a : A)
  | Raise (e : Exn)
  | Diverge.
Arguments Ok {A} a.
Arguments Raise {A} e.
Arguments Diverge {A}.

Module Json.

(** [j == s] for a Python string [s]. *)
Definition eq_str (j : JSON) (s : str) : bool :=
  match j with
  | JStr t => bool_decide (t = s)
  | _ => false
  end.

(** [j[k]] with a string subscript. *)
Definition getitem (j : JSON) (k : str) : result JSON :=
  match j with
  | JObj m =>
      match m !! k with
      | Some v => Ok v
      | None => Raise (KeyError k)
      end
  | _ => Raise TypeError
  end.

(** [j[k] = v] with a string subscript. *)
Definition setitem (j : JSON) (k : str) (v : JSON) : result JSON :=
  match j with
  | JObj m => Ok (JObj (<[k := v]> m))
  | _ => Raise TypeError
  end.

(** [k in j]. *)
Definition mem (j : JSON) (k : str) : result bool :=
  match j with
  | JObj m => Ok (bool_decide (is_Some (m !! k)))
  | JList l => Ok (existsb (fun x => eq_str x k) l)
  | JStr s => Ok (Py.contains s k)
  | _ => Raise TypeError
  end.

(** [j.get(k)]: only dictionaries have the method. *)
Definition get (j : JSON) (k : str) : result (option JSON) :=
  match j with
  | JObj m => Ok (m !! k)
  | _ => Raise AttributeError
  end.

(** [j.get(k, d)]. *)
Definition get_default (j : JSON) (k : str) (d : JSON) : result JSON :=
  match j with
  | JObj m => Ok (default d (m !! k))
  | _ => Raise AttributeError
  end.

Definition as_str (j : JSON) : option str :=
  match j with
  | JStr s => Some s
  | _ => None
  end.

(** The strings produced by iterating over [j], for the values that
    [', '.join(j)] accepts: a list of strings, a string (its characters) or
    a dictionary (its keys). Every other value makes [join] raise
    [TypeError]. A dictionary is a finite map here, so its keys come in the
    order of the map, where Python has the order of the parsed text; the
    properties below that speak of the order of tags or keywords are about
    lists. *)
Definition iter_strs (j : JSON) : result (list str) :=
  match j with
  | JList l =>
      match mapM as_str l with
      | Some ss => Ok ss
      | None => Raise TypeError
      end
  | JStr s => Ok (map (fun c => [c]) s)
  | JObj m => Ok (map fst (map_to_list m))
  | _ => Raise TypeError
  end.

End Json.

(** ** Data model *)

(** A title-typed property of a page: [{'type': ..., 'title': [{'plain_text':
    ...}, ...]}]. *)
Record TitleProperty := {
  prop_type : str;
  title_items : list str
}.

(** A row of the document store, with the properties the code reads. *)
Record Page := {
  page_id : str;
  created_time : str;
  last_edited_time : str;
  prop_Name : option TitleProperty;   (* properties['Name'] *)
  prop_title : option TitleProperty;  (* properties['title'] *)
  prop_Tags : list str;               (* names in properties['Tags']['multi_select'] *)
  prop_Status : option str;           (* name of the Status select *)
  prop_AI : bool                      (* the processed-flag checkbox *)
}.

Inductive BlockType :=
  | paragraph
  | heading_1
  | heading_2
  | heading_3
  | bulleted_list_item
  | numbered_list_item
  | to_do
  | divider
  | other_block.

(** A content block: its kind, the [plain_text] of each inline item of its
    [rich_text] ([None] when the payload has no [rich_text] key), and the
    [checked] state of a to-do item. *)
Record Block := {
  block_type : BlockType;
  rich_text : option (list str);
  checked : bool
}.

(** An entry of the list returned by [find_related_pages]. *)
Record Related := {
  rel_id : str;
  rel_title : str;
  rel_score : nat
}.

(** What the chat-completion call of the analysis backend does: it raises,
    or it answers with a message whose content parses as JSON or does not. *)
Inductive Completion :=
  | BackendFailure (msg : str)
  | Content (parsed : option JSON).

(** State of the log file on disk: absent, present but unreadable (opening
    or [json.load] raises), or present with a content that parses. *)
Inductive LogFile :=
  | NoFile
  | Unreadable
  | Parses (j : JSON).

(** The messages of the console that mark the control flow. *)
Inductive Msg :=
  | MsgSkipTooShort
  | MsgDone (title : str)
  | MsgError (e : Exn)
  | MsgAIError (e : Exn)
  | MsgLogSaveError
  | MsgNotionUpdateError (e : Exn)
  | MsgGithubError (e : Exn)
  | MsgNoTargets
  | MsgLimit (limit : Z)
  | MsgSummary (success error total : nat).

(** What happens when the log file is written: [open(..., 'w')] can fail,
    which leaves the file as it is; once it has succeeded the file is
    truncated, and [json.dump] can still fail, which leaves a part of the
    text in the file. *)
Inductive LogWrite :=
  | WriteOk
  | OpenFails
  | DumpFails.

(** The calls made to the document store. *)
Inductive StoreOp :=
  | OpQuery
  | OpRetrieve
  | OpListBlocks
  | OpUpdate
  | OpAppend.

(** The behaviour of the external collaborators that the code cannot
    influence. *)
Record Env := {
  page_size : positive;             (* rows per response of a database query *)
  store_fails : StoreOp -> str -> bool; (* store calls that raise, per page *)
  mention_text : str -> str;        (* the store's rendering of a page mention *)
  backend : str -> str -> Completion; (* answer to (note text, existing tags) *)
  repo_rejects : str -> bool;       (* paths whose writes the archive refuses *)
  log_write : LogWrite;             (* how writing the log file ends *)
  now : str                         (* datetime.now().isoformat() *)
}.

(** The mutable state: the collaborators' contents and the attributes of the
    [ZettelkastenAutomation] instance. *)
Record World := {
  db : list Page;                   (* rows of the database, in query order *)
  children : gmap str (list Block); (* blocks of each page *)
  ai_requests : list (str * str);   (* requests received by the backend *)
  repo : gmap str str;              (* files of the archive repository *)
  log_file : LogFile;
  stdout : list Msg;
  all_pages_cache : list Page;      (* self.all_pages_cache *)
  processing_log : JSON             (* self.processing_log *)
}.

Definition set_db (f : list Page -> list Page) (w : World) : World :=
  {| db := f (db w); children := children w; ai_requests := ai_requests w;
     repo := repo w; log_file := log_file w; stdout := stdout w;
     all_pages_cache := all_pages_cache w; processing_log := processing_log w |}.

Definition set_children (f : gmap str (list Block) -> gmap str (list Block))
    (w : World) : World :=
  {| db := db w; children := f (children w); ai_requests := ai_requests w;
     repo := repo w; log_file := log_file w; stdout := stdout w;
     all_pages_cache := all_pages_cache w; processing_log := processing_log w |}.

Definition set_ai_requests (f : list (str * str) -> list (str * str))
    (w : World) : World :=
  {| db := db w; children := children w; ai_requests := f (ai_requests w);
     repo := repo w; log_file := log_file w; stdout := stdout w;
     all_pages_cache := all_pages_cache w; processing_log := processing_log w |}.

Definition set_repo (f : gmap str str -> gmap str str) (w : World) : World :=
  {| db := db w; children := children w; ai_requests := ai_requests w;
     repo := f (repo w); log_file := log_file w; stdout := stdout w;
     all_pages_cache := all_pages_cache w; processing_log := processing_log w |}.

Definition set_log_file (f : LogFile -> LogFile) (w : World) : World :=
  {| db := db w; children := children w; ai_requests := ai_requests w;
     repo := repo w; log_file := f (log_file w); stdout := stdout w;
     all_pages_cache := all_pages_cache w; processing_log := processing_log w |}.

Definition set_stdout (f : list Msg -> list Msg) (w : World) : World :=
  {| db := db w; children := children w; ai_requests := ai_requests w;
     repo := repo w; log_file := log_file w; stdout := f (stdout w);
     all_pages_cache := all_pages_cache w; processing_log := processing_log w |}.

Definition set_all_pages_cache (f : list Page -> list Page) (w : World) : World :=
  {| db := db w; children := children w; ai_requests := ai_requests w;
     repo := repo w; log_file := log_file w; stdout := stdout w;
     all_pages_cache := f (all_pages_cache w); processing_log := processing_log w |}.

Definition set_processing_log (f : JSON -> JSON) (w : World) : World :=
  {| db := db w; children := children w; ai_requests := ai_requests w;
     repo := repo w; log_file := log_file w; stdout := stdout w;
     all_pages_cache := all_pages_cache w; processing_log := f (processing_log w) |}.

(** ** The state-and-exception monad *)

Definition M (A : Type) : Type := World -> World * result A.

Definition ret {A} (a : A) : M A := fun w => (w, Ok a).

Definition raise {A} (e : Exn) : M A := fun w => (w, Raise e).

Definition diverge {A} : M A := fun w => (w, Diverge).

Definition bind {A B} (m : M A) (k : A -> M B) : M B :=
  fun w =>
    match m w with
    | (w', Ok a) => k a w'
    | (w', Raise e) => (w', Raise e)
    | (w', Diverge) => (w', Diverge)
    end.

(** [try: m except Exception as e: h e]. The handler runs in the state
    reached when the exception was raised. *)
Definition try_except {A} (m : M A) (h : Exn -> M A) : M A :=
  fun w =>
    match m w with
    | (w', Raise e) => h e w'
    | r => r
    end.

Definition lift {A} (r : result A) : M A := fun w => (w, r).

Definition gets {A} (f : World -> A) : M A := fun w => (w, Ok (f w)).

Definition modify (f : World -> World) : M unit := fun w => (f w, Ok tt).

Definition print (m : Msg) : M unit := modify (set_stdout (fun out => out ++ [m])).

Declare Scope py_scope.
Delimit Scope py_scope with py.
Notation "x <- m ;; k" := (bind m (fun x => k))
  (at level 100, m at next level, right associativity) : py_scope.
Notation "m ;; k" := (bind m (fun _ => k))
  (at level 100, right associativity) : py_scope.
Local Open Scope py_scope.

(** ** The code of [ZettelkastenAutomation] *)

Definition nl : str := [10%N].

Definition status_unprocessed : str := Py.lit "未処理".
Definition status_processed : str := Py.lit "処理済み".
Definition related_marker : str := Py.lit "関連メモ".
Definition related_heading : str := Py.lit "🔗 関連メモ".
Definition placeholder_title : str := Py.lit "無題".
Definition fallback_title : str := Py.lit "無題のメモ".
Definition fallback_tag : str := Py.lit "未分類".

Definition k_processed_pages : str := Py.lit "processed_pages".
Definition k_last_edited_time : str := Py.lit "last_edited_time".
Definition k_title : str := Py.lit "title".
Definition k_tags : str := Py.lit "tags".
Definition k_summary : str := Py.lit "summary".
Definition k_keywords : str := Py.lit "keywords".

Definition exn_str (e : Exn) : str :=
  match e with
  | KeyError k => Py.lit "'" ++ k ++ Py.lit "'"
  | TypeError => Py.lit "TypeError"
  | AttributeError => Py.lit "AttributeError"
  | JSONDecodeError => Py.lit "Expecting value"
  | OSError msg => msg
  | APIError msg => msg
  end.

Section Automation.

Context {U : Py.Unicode} (env : Env).

(** *** Processing ledger *)

(** The log returned when the file is missing or cannot be read. *)
Definition empty_log : JSON := JObj {[ k_processed_pages := JObj ∅ ]}.

Definition _load_log : M JSON :=
  f <- gets log_file;;
  match f with
  | NoFile => ret empty_log
  | Parses j => ret j
  | Unreadable => ret empty_log
  end.

(** [_save_log] is called with a dictionary in memory, whose text ends with
    its closing brace: what a failed [json.dump] leaves in the truncated file
    is a proper beginning of that text, which does not parse. *)
Definition _save_log : M unit :=
  try_except
    (match log_write env with
     | OpenFails => raise (OSError (Py.lit "Permission denied"))
     | DumpFails =>
         modify (set_log_file (fun _ => Unreadable));;
         raise (OSError (Py.lit "No space left on device"))
     | WriteOk =>
         log <- gets processing_log;;
         modify (set_log_file (fun _ => Parses log))
     end)
    (fun e => print MsgLogSaveError).

Definition _is_already_processed (page_id last_edited_time : str) : M bool :=
  log <- gets processing_log;;
  processed_pages <- lift (Json.getitem log k_processed_pages);;
  known <- lift (Json.mem processed_pages page_id);;
  if known : bool then
    log_entry <- lift (Json.getitem processed_pages page_id);;
    stored <- lift (Json.get log_entry k_last_edited_time);;
    ret (match stored with
         | Some j => Json.eq_str j last_edited_time
         | None => false
         end)
  else ret false.

Definition log_entry_json (title last_edited_time status : str) : JSON :=
  JObj (<[ k_title := JStr title ]>
       (<[ Py.lit "processed_at" := JStr (now env) ]>
       (<[ k_last_edited_time := JStr last_edited_time ]>
       (<[ Py.lit "status" := JStr status ]> ∅)))).

Definition _add_to_log (page_id title last_edited_time status : str) : M unit :=
  log <- gets processing_log;;
  processed_pages <- lift (Json.getitem log k_processed_pages);;
  processed_pages' <- lift (Json.setitem processed_pages page_id
                              (log_entry_json title last_edited_time status));;
  log' <- lift (Json.setitem log k_processed_pages processed_pages');;
  modify (set_processing_log (fun _ => log'));;
  _save_log.

(** *** Document store *)

Record Response := {
  results : list Page;
  has_more : bool;
  next_cursor : option nat
}.

(** [notion.databases.query]: the rows matching [flt], from the cursor on,
    one response page at a time. *)
Definition databases_query (flt : Page -> bool) (start_cursor : option nat)
    : M Response :=
  if store_fails env OpQuery [] then raise (APIError (Py.lit "query failed"))
  else
    rows <- gets (fun w => filter (fun p => flt p = true) (db w));;
    let offset := default 0 start_cursor in
    let size := Pos.to_nat (page_size env) in
    let rest := drop offset rows in
    let more := size <? length rest in
    ret {| results := take size rest;
           has_more := more;
           next_cursor := if more then Some (offset + size) else None |}.

(** The loop [while has_more: ...] shared by the two listing functions;
    [fuel] bounds the number of iterations. *)
Fixpoint query_loop (fuel : nat) (flt : Page -> bool) (start_cursor : option nat)
    (pages : list Page) : M (list Page) :=
  match fuel with
  | O => diverge
  | S fuel' =>
      response <- databases_query flt start_cursor;;
      let pages := pages ++ results response in
      if has_more response
      then query_loop fuel' flt (next_cursor response) pages
      else ret pages
  end.

(** One iteration per row and one more always suffices. *)
Definition query_all (flt : Page -> bool) : M (list Page) :=
  n <- gets (fun w => length (db w));;
  query_loop (S n) flt None [].

Definition unprocessed_filter (p : Page) : bool :=
  bool_decide (prop_Status p = Some status_unprocessed) || negb (prop_AI p).

Fixpoint filter_unprocessed (pages : list Page) : M (list Page) :=
  match pages with
  | [] => ret []
  | page :: rest =>
      done <- _is_already_processed (page_id page) (last_edited_time page);;
      unprocessed <- filter_unprocessed rest;;
      ret (if done : bool then unprocessed else page :: unprocessed)
  end.

Definition get_unprocessed_pages : M (list Page) :=
  pages <- query_all unprocessed_filter;;
  filter_unprocessed pages.

Definition get_all_pages : M (list Page) :=
  pages <- query_all (fun _ => true);;
  modify (set_all_pages_cache (fun _ => pages));;
  ret pages.

Definition find_page (page_id' : str) (rows : list Page) : option Page :=
  head (filter (fun p => page_id p = page_id') rows).

Definition pages_retrieve (page_id : str) : M Page :=
  if store_fails env OpRetrieve page_id
  then raise (APIError (Py.lit "retrieve failed"))
  else
    rows <- gets db;;
    match find_page page_id rows with
    | Some page => ret page
    | None => raise (APIError (Py.lit "object_not_found"))
    end.

(** [notion.blocks.children.list]: the ordered blocks of the page, all of
    them, as the code reads a single response. *)
Definition blocks_children_list (page_id : str) : M (list Block) :=
  if store_fails env OpListBlocks page_id
  then raise (APIError (Py.lit "list failed"))
  else
    rows <- gets db;;
    match find_page page_id rows with
    | Some _ => gets (fun w => default [] (children w !! page_id))
    | None => raise (APIError (Py.lit "object_not_found"))
    end.

(** *** Content extraction *)

Definition _extract_text (b : Block) : str :=
  match rich_text b with
  | None => []
  | Some items => concat items
  end.

Definition render_block (b : Block) : option str :=
  let text := _extract_text b in
  match block_type b with
  | paragraph =>
      if bool_decide (text = []) then None else Some text
  | heading_1 | heading_2 | heading_3 =>
      if bool_decide (text = []) then None
      else Some (nl ++ Py.lit "## " ++ text ++ nl)
  | bulleted_list_item =>
      if bool_decide (text = []) then None else Some (Py.lit "- " ++ text)
  | numbered_list_item =>
      if bool_decide (text = []) then None else Some (Py.lit "1. " ++ text)
  | to_do =>
      let mark := if checked b then Py.lit "✓" else Py.lit "☐" in
      if bool_decide (text = []) then None else Some (mark ++ Py.lit " " ++ text)
  | divider | other_block => None
  end.

Definition get_page_content (page_id : str) : M str :=
  blocks <- blocks_children_list page_id;;
  ret (Py.join nl (omap render_block blocks)).

(** *** Metadata enrichment *)

(** [openai_client.chat.completions.create(...)], returning the message
    content. The request carries the note text cut to 3000 characters and
    the rendering of the existing tags. *)
Definition chat_completions_create (text existing_tags_str : str)
    : M (option JSON) :=
  modify (set_ai_requests (fun reqs => reqs ++ [(text, existing_tags_str)]));;
  match backend env text existing_tags_str with
  | BackendFailure msg => raise (APIError msg)
  | Content parsed => ret parsed
  end.

Definition json_loads (content : option JSON) : M JSON :=
  match content with
  | Some j => ret j
  | None => raise JSONDecodeError
  end.

(** The dictionary built in the [except] branch of [analyze_with_ai]. *)
Definition fallback_analysis (content : str) (existing_tags : option (list str))
    : JSON :=
  let tags :=
    match existing_tags with
    | Some (t :: ts) => t :: ts
    | _ => [fallback_tag]
    end in
  JObj (<[ k_title := JStr fallback_title ]>
       (<[ k_tags := JList (JStr <$> tags) ]>
       (<[ k_summary := JStr (Py.slice_to 100 content) ]>
       (<[ k_keywords := JList [] ]> ∅)))).

(** [', '.join(existing_tags) if existing_tags else 'なし'] *)
Definition existing_tags_str (existing_tags : option (list str)) : str :=
  match existing_tags with
  | Some (t :: ts) => Py.join (Py.lit ", ") (t :: ts)
  | _ => Py.lit "なし"
  end.

Definition analyze_with_ai (content : str) (existing_tags : option (list str))
    : M JSON :=
  let existing_tags_str := existing_tags_str existing_tags in
  try_except
    (response <- chat_completions_create (Py.slice_to 3000 content)
                   existing_tags_str;;
     result <- json_loads response;;
     (* the three progress lines read the fields of the result *)
     _ <- lift (Json.getitem result k_title);;
     tags <- lift (Json.getitem result k_tags);;
     _ <- lift (Json.iter_strs tags);;
     keywords <- lift (Json.get_default result k_keywords (JList []));;
     _ <- lift (Json.iter_strs keywords);;
     ret result)
    (fun e =>
       print (MsgAIError e);;
       ret (fallback_analysis content existing_tags)).

(** *** Related-note matching *)

Definition _get_page_title (page : Page) : str :=
  let title_property :=
    match prop_Name page with
    | Some p => Some p
    | None => prop_title page
    end in
  match title_property with
  | Some p =>
      if bool_decide (prop_type p = Py.lit "title")
      then concat (title_items p)
      else []
  | None => []
  end.

Definition _get_page_tags (page : Page) : list str := prop_Tags page.

(** [sum(1 for kw in keywords if kw.lower() in text)]. *)
Definition keyword_matches (keywords : list str) (text : str) : nat :=
  length (filter (fun kw => Py.contains text (Py.lower kw) = true) keywords).

Definition page_score (keywords : list str) (page : Page) : nat :=
  let title_lower := Py.lower (_get_page_title page) in
  let tags_lower := Py.lower (Py.join (Py.lit " ") (_get_page_tags page)) in
  let title_matches := keyword_matches keywords title_lower in
  let tag_matches := keyword_matches keywords tags_lower in
  title_matches * 2 + tag_matches.

(** One iteration of the scan over the cache: the entry appended to
    [related], if any. *)
Definition related_entry (keywords : list str) (current_page_id : str)
    (page : Page) : option Related :=
  if bool_decide (page_id page = current_page_id) then None
  else
    let title := _get_page_title page in
    if bool_decide (title = []) || bool_decide (title = placeholder_title)
    then None
    else
      let score := page_score keywords page in
      if 0 <? score
      then Some {| rel_id := page_id page; rel_title := title; rel_score := score |}
      else None.

(** The list [related] before it is sorted. *)
Definition related_scan (cache : list Page) (keywords : list str)
    (current_page_id : str) : list Related :=
  omap (related_entry keywords current_page_id) cache.

(** [l.sort(key=..., reverse=True)]: Python's sort is stable, also with
    [reverse=True], so equal keys keep their order. *)
Fixpoint insert_desc {A} (key : A -> nat) (x : A) (l : list A) : list A :=
  match l with
  | [] => [x]
  | y :: l' =>
      if key x <? key y then y :: insert_desc key x l' else x :: y :: l'
  end.

Fixpoint sort_desc {A} (key : A -> nat) (l : list A) : list A :=
  match l with
  | [] => []
  | x :: l' => insert_desc key x (sort_desc key l')
  end.

Definition find_related_pages (cache : list Page) (keywords : list str)
    (current_page_id : str) (top_k : Z) : list Related :=
  match keywords with
  | [] => []
  | _ :: _ =>
      let related := related_scan cache keywords current_page_id in
      let related := sort_desc rel_score related in
      Py.slice_to_Z top_k related
  end.

(** *** Persistence *)

Definition mark_processed (title : str) (tags : list str) (p : Page) : Page :=
  {| page_id := page_id p;
     created_time := created_time p;
     last_edited_time := last_edited_time p;
     prop_Name := Some {| prop_type := Py.lit "title"; title_items := [title] |};
     prop_title := prop_title p;
     prop_Tags := tags;
     prop_Status := Some status_processed;
     prop_AI := true |}.

(** [notion.pages.update]: the store takes a string title and tag names. *)
Definition pages_update (page_id' : str) (title tags : JSON) : M unit :=
  names <- lift (Json.iter_strs tags);;
  if store_fails env OpUpdate page_id'
  then raise (APIError (Py.lit "update failed"))
  else
    rows <- gets db;;
    match find_page page_id' rows, title with
    | Some _, JStr t =>
        modify (set_db (map (fun p =>
          if bool_decide (page_id p = page_id') then mark_processed t names p
          else p)))
    | None, _ => raise (APIError (Py.lit "object_not_found"))
    | _, _ => raise (APIError (Py.lit "validation_error"))
    end.

Definition blocks_children_append (page_id : str) (blocks : list Block) : M unit :=
  if store_fails env OpAppend page_id
  then raise (APIError (Py.lit "append failed"))
  else
    modify (set_children (fun c =>
      <[ page_id := default [] (c !! page_id) ++ blocks ]> c)).

(** The scan of the existing blocks for a related-notes heading. *)
Definition is_related_heading (b : Block) : bool :=
  match block_type b with
  | heading_2 | heading_3 => Py.contains (_extract_text b) related_marker
  | _ => false
  end.

Definition has_related_section (existing_blocks : list Block) : bool :=
  existsb is_related_heading existing_blocks.

(** The blocks sent to the store, as the store keeps them. *)
Definition backlink_blocks (related_pages : list Related) : list Block :=
  {| block_type := divider; rich_text := None; checked := false |} ::
  {| block_type := heading_2; rich_text := Some [related_heading];
     checked := false |} ::
  map (fun rp =>
         {| block_type := paragraph;
            rich_text := Some [Py.lit "→ "; mention_text env (rel_id rp)];
            checked := false |})
      related_pages.

Definition update_notion_page (page_id : str) (title tags : JSON)
    (related_pages : list Related) : M unit :=
  try_except
    (pages_update page_id title tags;;
     match related_pages with
     | [] => ret tt
     | _ :: _ =>
         existing_blocks <- blocks_children_list page_id;;
         if has_related_section existing_blocks then ret tt
         else blocks_children_append page_id (backlink_blocks related_pages)
     end)
    (fun e => print (MsgNotionUpdateError e);; raise e).

Definition convert_to_markdown (page : Page) (content : str) (tags : JSON)
    (related_pages : list Related) : result str :=
  match Json.iter_strs tags with
  | Ok names =>
      let title := _get_page_title page in
      let created_time := Py.slice_to 10 (created_time page) in
      let yaml_tags :=
        match names with
        | [] => []
        | _ :: _ =>
            nl ++ Py.lit "tags:" ++ nl ++
            Py.join nl (map (fun tag =>
              Py.lit "  - " ++ Py.replace_char 35 [] tag) names)
        end in
      let md :=
        Py.lit "---" ++ nl ++
        Py.lit "title: " ++ title ++ nl ++
        Py.lit "date: " ++ created_time ++ yaml_tags ++ nl ++
        Py.lit "---" ++ nl ++ nl ++
        Py.lit "# " ++ title ++ nl ++ nl ++
        content ++ nl in
      Ok match related_pages with
         | [] => md
         | _ :: _ =>
             md ++ nl ++ Py.lit "---" ++ nl ++ nl ++
             Py.lit "## " ++ related_heading ++ nl ++ nl ++
             concat (map (fun rp =>
               Py.lit "- [[" ++ rel_title rp ++ Py.lit "]]" ++ nl) related_pages)
         end
  | Raise e => Raise e
  | Diverge => Diverge
  end.

Definition repo_get_contents (filename : str) : M str :=
  files <- gets repo;;
  match files !! filename with
  | Some file => ret file
  | None => raise (APIError (Py.lit "404"))
  end.

Definition repo_update_file (filename content : str) : M unit :=
  if repo_rejects env filename then raise (APIError (Py.lit "update refused"))
  else modify (set_repo (<[ filename := content ]>)).

Definition repo_create_file (filename content : str) : M unit :=
  files <- gets repo;;
  if repo_rejects env filename then raise (APIError (Py.lit "create refused"))
  else
    match files !! filename with
    | Some _ => raise (APIError (Py.lit "422"))
    | None => modify (set_repo (<[ filename := content ]>))
    end.

Definition save_to_github (filename content commit_message : str) : M unit :=
  try_except
    (try_except
       (_ <- repo_get_contents filename;;
        repo_update_file filename content)
       (fun _ => repo_create_file filename content))
    (fun e => print (MsgGithubError e);; raise e).

(** *** Orchestration *)

Definition target_dir : str := Py.lit "zettelkasten-vault".

(** Lines 497-499: the title made safe for a file name. *)
Definition safe_title (title : str) : str :=
  let safe_title :=
    Py.slice_to 50
      (Py.replace_char 92 (Py.lit "-") (Py.replace_char 47 (Py.lit "-") title)) in
  filter (fun c => Py.isalnum c || bool_decide (c ∈ [32%N; 45%N; 95%N]) = true)
         safe_title.

(** Line 502: the path of the archive file. *)
Definition archive_filename (page : Page) (title : str) : str :=
  target_dir ++ Py.lit "/" ++ Py.slice_to 10 (created_time page) ++
  Py.lit "_" ++ safe_title title ++ Py.lit ".md".

Definition process_page (page_id : str) : M unit :=
  page <- pages_retrieve page_id;;
  let existing_title := _get_page_title page in
  let last_edited_time := last_edited_time page in
  content <- get_page_content page_id;;
  if length content <? 20 then print MsgSkipTooShort
  else
    let existing_tags := _get_page_tags page in
    analysis <- analyze_with_ai content (Some existing_tags);;
    keywords <- lift (Json.get_default analysis k_keywords (JList []));;
    keywords <- lift (Json.iter_strs keywords);;
    cache <- gets all_pages_cache;;
    let related_pages := find_related_pages cache keywords page_id 5 in
    title <- lift (Json.getitem analysis k_title);;
    tags <- lift (Json.getitem analysis k_tags);;
    update_notion_page page_id title tags related_pages;;
    markdown <- lift (convert_to_markdown page content tags related_pages);;
    match title with
    | JStr title =>
        let filename := archive_filename page title in
        save_to_github filename markdown (Py.lit "✨ Add: " ++ title);;
        _add_to_log page_id title last_edited_time (Py.lit "success");;
        print (MsgDone title)
    | _ => raise AttributeError
    end.

Fixpoint process_pages (pages : list Page) (success_count error_count : nat)
    : M (nat * nat) :=
  match pages with
  | [] => ret (success_count, error_count)
  | page :: rest =>
      counts <-
        try_except
          (process_page (page_id page);;
           ret (S success_count, error_count))
          (fun e =>
             print (MsgError e);;
             let title := _get_page_title page in
             _add_to_log (page_id page)
               (if bool_decide (title = []) then Py.lit "タイトル取得失敗" else title)
               (last_edited_time page)
               (Py.lit "error: " ++ exn_str e);;
             ret (success_count, S error_count));;
      process_pages rest counts.1 counts.2
  end.

(** Lines 527-535: the pages a run works on, before the limit is applied. *)
Definition candidate_pages (force_reprocess : bool) : M (list Page) :=
  get_all_pages;;
  if force_reprocess then gets all_pages_cache else get_unprocessed_pages.

Definition run (limit : option Z) (force_reprocess : bool) : M unit :=
  pages <- candidate_pages force_reprocess;;
  match pages with
  | [] => print MsgNoTargets
  | _ :: _ =>
      pages <-
        match limit with
        | Some n =>
            if (n =? 0)%Z then ret pages
            else print (MsgLimit n);; ret (Py.slice_to_Z n pages)
        | None => ret pages
        end;;
      counts <- process_pages pages 0 0;;
      print (MsgSummary counts.1 counts.2 (length pages))
  end.

(** [__init__]: the cache starts empty and the log is read from disk. *)
Definition init : M unit :=
  modify (set_all_pages_cache (fun _ => []));;
  log <- _load_log;;
  modify (set_processing_log (fun _ => log)).

End Automation.

(** * Vocabulary of the properties *)

(** A log of the shape the code writes: a dictionary of entries, each a
    dictionary, under the key ["processed_pages"]. *)
Definition ledger_log (entries : gmap str (gmap str JSON)) : JSON :=
  JObj {[ k_processed_pages := JObj (JObj <$> entries) ]}.

Definition with_ledger (entries : gmap str (gmap str JSON)) (w : World) : World :=
  set_processing_log (fun _ => ledger_log entries) w.

(** Whether the ledger makes a page stale: no entry, or an entry whose
    stored revision is not the page's. *)
Definition stale (entries : gmap str (gmap str JSON)) (p : Page) : bool :=
  match entries !! page_id p with
  | Some e =>
      negb match e !! k_last_edited_time with
           | Some j => Json.eq_str j (last_edited_time p)
           | None => false
           end
  | None => true
  end.

(** Descending order of the keys. *)
Definition desc {A} (key : A -> nat) : relation A :=
  fun a b => key b <= key a.

(** The answers of the backend that the enrichment treats as unusable: the
    call fails; the message is not JSON; the JSON value is not an object;
    the object lacks ["title"] or ["tags"]; or ["tags"] (or ["keywords"],
    when present) is not a sequence of strings. *)
Inductive malformed : Completion -> Prop :=
  | malformed_failure msg :
      malformed (BackendFailure msg)
  | malformed_not_json :
      malformed (Content None)
  | malformed_not_object j :
      (forall m, j <> JObj m) ->
      malformed (Content (Some j))
  | malformed_no_title m :
      m !! k_title = None ->
      malformed (Content (Some (JObj m)))
  | malformed_no_tags m :
      m !! k_tags = None ->
      malformed (Content (Some (JObj m)))
  | malformed_tags m tags :
      m !! k_tags = Some tags ->
      (forall ss, Json.iter_strs tags <> Ok ss) ->
      malformed (Content (Some (JObj m)))
  | malformed_keywords m keywords :
      m !! k_keywords = Some keywords ->
      (forall ss, Json.iter_strs keywords <> Ok ss) ->
      malformed (Content (Some (JObj m))).

(** The shape of the state after a call of [analyze_with_ai]: one more
    request at the backend, and possibly the error line on the console. *)
Definition after_request (text tags_str : str) (out : list Msg) (w : World)
    : World :=
  set_stdout (fun o => o ++ out)
    (set_ai_requests (fun reqs => reqs ++ [(text, tags_str)]) w).

Definition page_blocks (w : World) (page_id : str) : list Block :=
  default [] (children w !! page_id).

(** A heading of any level whose text contains the marker. *)
Definition heading_with_marker (b : Block) : bool :=
  match block_type b with
  | heading_1 | heading_2 | heading_3 =>
      Py.contains (_extract_text b) related_marker
  | _ => false
  end.

(** A sequence of calls of [update_notion_page] on one page. *)
Fixpoint apply_updates (env : Env) (page_id : str)
    (calls : list (JSON * JSON * list Related)) (w : World) : World :=
  match calls with
  | [] => w
  | (title, tags, related_pages) :: rest =>
      apply_updates env page_id rest
        (update_notion_page env page_id title tags related_pages w).1
  end.

(** [m] leaves the component [f] of the state as it is. *)
Definition preserves {A F} (f : World -> F) (m : M A) : Prop :=
  forall w, f (m w).1 = f w.

(** The lines of the console that tell how a note fared. *)
Definition is_skipped (m : Msg) : bool :=
  match m with MsgSkipTooShort => true | _ => false end.

Definition is_done (m : Msg) : bool :=
  match m with MsgDone _ => true | _ => false end.

Definition is_error (m : Msg) : bool :=
  match m with MsgError _ => true | _ => false end.

Definition count (p : Msg -> bool) (out : list Msg) : nat :=
  length (filter (fun m => p m = true) out).

(** [m] appends lines to the console, none of them a per-note error line,
    and exactly [n] of them skip or completion lines when it returns, none
    when it does not. *)
Definition emits {A} (m : M A) (n : nat) : Prop :=
  forall w, exists out,
    stdout (m w).1 = stdout w ++ out /\
    count is_error out = 0 /\
    count is_skipped out + count is_done out =
      match (m w).2 with Ok _ => n | _ => 0 end.

(** The fields of the entry that [_add_to_log] writes. *)
Definition log_entry_fields (env : Env) (title last_edited_time status : str)
    : gmap str JSON :=
  <[ k_title := JStr title ]>
  (<[ Py.lit "processed_at" := JStr (now env) ]>
  (<[ k_last_edited_time := JStr last_edited_time ]>
  (<[ Py.lit "status" := JStr status ]> ∅))).

(** The state reached when [_add_to_log] has put the log [log'] in memory
    and [_save_log] has tried to write it. *)
Definition recorded (env : Env) (log' : JSON) (w : World) : World :=
  match log_write env with
  | WriteOk => set_log_file (fun _ => Parses log')
  | OpenFails => set_stdout (fun out => out ++ [MsgLogSaveError])
  | DumpFails =>
      fun w => set_stdout (fun out => out ++ [MsgLogSaveError])
                 (set_log_file (fun _ => Unreadable) w)
  end (set_processing_log (fun _ => log') w).

(** The rows of the database after [pages.update] accepted a title and tag
    names for a page. *)
Definition marked_rows (page_id' : str) (title : str) (names : list str)
    (rows : list Page) : list Page :=
  map (fun p => if bool_decide (page_id p = page_id')
                then mark_processed title names p else p) rows.

(** The checks that the progress lines of [analyze_with_ai] make on the
    object returned by the backend. *)
Definition usable (m : gmap str JSON) : bool :=
  match m !! k_title, m !! k_tags with
  | Some _, Some tags =>
      match Json.iter_strs tags,
            Json.iter_strs (default (JList []) (m !! k_keywords)) with
      | Ok _, Ok _ => true
      | _, _ => false
      end
  | _, _ => false
  end.

(** [m] leaves the component [f] of the state as it is whenever it does not
    return. *)
Definition keeps_on_failure {A F} (f : World -> F) (m : M A) : Prop :=
  forall w, (forall a, (m w).2 <> Ok a) -> f (m w).1 = f w.

(** The ledger, in memory and on disk. *)
Definition ledger_state (w : World) : JSON * LogFile :=
  (processing_log w, log_file w).

(** The log in memory has the shape that the code writes. *)
Definition has_ledger (w : World) : Prop :=
  exists entries, processing_log w = ledger_log entries.

(** [m] keeps the log in memory in shape and does not run out of
    iterations. *)
Definition safe {A} (m : M A) : Prop :=
  forall w, has_ledger w -> has_ledger (m w).1 /\ (m w).2 <> Diverge.

(** A keyword matches a text without regard to case when its lower-cased
    form occurs in the lower-cased text as a contiguous run of characters. *)
Definition matches_ci `{U : Py.Unicode} (kw text : str) : Prop :=
  exists pre post, Py.lower text = pre ++ Py.lower kw ++ post.

(** [match_count text keywords n]: [n] of the keywords of the list, each
    counted as often as it is listed, match the text. *)
Inductive match_count `{U : Py.Unicode} (text : str) : list str -> nat -> Prop :=
  | match_count_nil :
      match_count text [] 0
  | match_count_hit kw keywords n :
      matches_ci kw text -> match_count text keywords n ->
      match_count text (kw :: keywords) (S n)
  | match_count_miss kw keywords n :
      ~ matches_ci kw text -> match_count text keywords n ->
      match_count text (kw :: keywords) n.


(** The blocks that [update_notion_page] appends to a note: the backlink
    section, unless there is nothing to link or the note has one. *)
Definition appended_blocks (env : Env) (existing : list Block)
    (related_pages : list Related) : list Block :=
  match related_pages with
  | [] => []
  | _ :: _ =>
      if has_related_section existing then []
      else backlink_blocks env related_pages
  end.

(** The extracted body of a note. *)
Definition note_body (w : World) (page_id : str) : str :=
  Py.join nl (omap render_block (page_blocks w page_id)).

(** The note can be fetched: the store answers for it and holds a row with
    its id. *)
Definition fetchable (env : Env) (w : World) (page_id : str) : bool :=
  negb (store_fails env OpRetrieve page_id) &&
  negb (store_fails env OpListBlocks page_id) &&
  bool_decide (is_Some (find_page page_id (db w))).

(** The note can be fetched and its extracted body has fewer than 20
    characters. *)
Definition too_short (env : Env) (w : World) (p : Page) : bool :=
  fetchable env w (page_id p) && (length (note_body w (page_id p)) <? 20).

(** The body of the loop of [run], as [process_pages] has it: one note is
    attempted and counted. *)
Definition attempt `{U : Py.Unicode} (env : Env) (page : Page)
    (success_count error_count : nat) : M (nat * nat) :=
  try_except
    (process_page env (page_id page);;
     ret (S success_count, error_count))
    (fun e =>
       print (MsgError e);;
       let title := _get_page_title page in
       _add_to_log env (page_id page)
         (if bool_decide (title = []) then Py.lit "タイトル取得失敗" else title)
         (last_edited_time page)
         (Py.lit "error: " ++ exn_str e);;
       ret (success_count, S error_count)).

(** Lines 541-544: the candidates a run works on, once the limit is
    applied. *)
Definition batch (limit : option Z) (pages : list Page) : list Page :=
  match limit with
  | Some n => if (n =? 0)%Z then pages else Py.slice_to_Z n pages
  | None => pages
  end.

(** * Scenarios

    Concrete stores and backends on which the code is run. *)

Module Scenario.

Definition analysis_reply : JSON :=
  JObj (<[ k_title := JStr (Py.lit "Rust memory/model") ]>
       (<[ k_tags := JList [JStr (Py.lit "rust")] ]>
       (<[ k_summary := JStr (Py.lit "ownership and borrowing") ]>
       (<[ k_keywords := JList [JStr (Py.lit "Rust"); JStr (Py.lit "cache")] ]> ∅)))).

(** Every collaborator works; the backend answers [reply]. *)
Definition env_with (reply : Completion) : Env :=
  {| page_size := 2;
     store_fails := fun _ _ => false;
     mention_text := fun id => id;
     backend := fun _ _ => reply;
     repo_rejects := fun _ => false;
     log_write := WriteOk;
     now := Py.lit "2024-05-01T09:00:00" |}.

Definition env : Env := env_with (Content (Some analysis_reply)).

Definition note (id title : string) (tags : list string) (rev : string)
    (status : str) (flag : bool) : Page :=
  {| page_id := Py.lit id;
     created_time := Py.lit "2024-04-30T18:21:00.000Z";
     last_edited_time := Py.lit rev;
     prop_Name := Some {| prop_type := Py.lit "title"; title_items := [Py.lit title] |};
     prop_title := None;
     prop_Tags := Py.lit <$> tags;
     prop_Status := Some status;
     prop_AI := flag |}.

Definition text (kind : BlockType) (s : string) : Block :=
  {| block_type := kind; rich_text := Some [Py.lit s]; checked := false |}.

Definition world (rows : list Page) (blocks : list (str * list Block))
    (file : LogFile) : World :=
  {| db := rows;
     children := list_to_map blocks;
     ai_requests := [];
     repo := ∅;
     log_file := file;
     stdout := [];
     all_pages_cache := [];
     processing_log := JNull |}.

(** One unprocessed note with a body of 26 characters, and two older notes. *)
Definition rows : list Page :=
  [ note "n1" "draft" [] "2024-05-01T08:00:00.000Z" status_unprocessed false;
    note "n2" "Rust cache design" ["gc"] "2024-03-01T08:00:00.000Z"
      status_processed true;
    note "n3" "Garbage collection" ["cache"; "rust"] "2024-03-02T08:00:00.000Z"
      status_processed true ].

Definition start : World :=
  world rows [(Py.lit "n1", [text paragraph "Ownership rules in detail."])] NoFile.

(** First run on [start]: the note [n1] is enriched, linked to [n2] and
    [n3], archived and logged. *)
Definition after_first_run : World :=
  (bind init (fun _ => run (U:=Py.ascii_unicode) env None false) start).1.

Definition with_revision (rev : str) (p : Page) : Page :=
  {| page_id := page_id p; created_time := created_time p;
     last_edited_time := rev; prop_Name := prop_Name p;
     prop_title := prop_title p; prop_Tags := prop_Tags p;
     prop_Status := prop_Status p; prop_AI := prop_AI p |}.

(** The note [n1] is edited after the first run. *)
Definition after_edit : World :=
  set_db (map (fun p => if bool_decide (page_id p = Py.lit "n1")
                        then with_revision (Py.lit "2024-06-01T10:00:00.000Z") p
                        else p))
         after_first_run.

Definition ledger_entry (rev status : string) : gmap str JSON :=
  <[ k_title := JStr (Py.lit "draft") ]>
  (<[ Py.lit "processed_at" := JStr (Py.lit "2024-04-01T00:00:00") ]>
  (<[ k_last_edited_time := JStr (Py.lit rev) ]>
  (<[ Py.lit "status" := JStr (Py.lit status) ]> ∅))).

(** A store holding one unprocessed note [n] with a one-paragraph body. *)
Definition single (body : string) : World :=
  world [note "n" "draft" ["idea"] "2024-05-01T08:00:00.000Z"
           status_unprocessed false]
        [(Py.lit "n", [text paragraph body])] NoFile.

Definition one_related : list Related :=
  [ {| rel_id := Py.lit "n2"; rel_title := Py.lit "Rust cache design";
       rel_score := 4 |} ].

Definition linked : World :=
  world rows [(Py.lit "n1", [text paragraph "Ownership rules in detail.";
                             text heading_3 "関連メモ (manual)"])] NoFile.

(** A store with a too-short note and a note that is processed. *)
Definition mixed : World :=
  world [note "s" "stub" [] "2024-05-01T08:00:00.000Z" status_unprocessed false;
         note "n1" "draft" [] "2024-05-01T08:00:00.000Z" status_unprocessed false]
        [(Py.lit "s", [text paragraph "too short"]);
         (Py.lit "n1", [text paragraph "Ownership rules in detail."])]
        NoFile.

(** The store refuses one kind of call, for every page. *)
Definition env_refusing (op : StoreOp) : Env :=
  {| page_size := 2;
     store_fails := fun op' _ =>
       match op, op' with
       | OpQuery, OpQuery | OpRetrieve, OpRetrieve
       | OpListBlocks, OpListBlocks | OpUpdate, OpUpdate
       | OpAppend, OpAppend => true
       | _, _ => false
       end;
     mention_text := fun id => id;
     backend := fun _ _ => Content (Some analysis_reply);
     repo_rejects := fun _ => false;
     log_write := WriteOk;
     now := Py.lit "2024-05-01T09:00:00" |}.

(** Every collaborator works, but writing the log file ends as [how]. *)
Definition env_losing_log (how : LogWrite) : Env :=
  {| page_size := 2;
     store_fails := fun _ _ => false;
     mention_text := fun id => id;
     backend := fun _ _ => Content (Some analysis_reply);
     repo_rejects := fun _ => false;
     log_write := how;
     now := Py.lit "2024-05-01T09:00:00" |}.

(** [start] after [__init__]. *)
Definition ready : World := (init start).1.

(** A note whose only block is a divider. *)
Definition blank : World :=
  world [note "n" "draft" [] "2024-05-01T08:00:00.000Z" status_unprocessed false]
        [(Py.lit "n", [{| block_type := divider; rich_text := None;
                          checked := false |}])] NoFile.

End Scenario.

(** * Properties *)

(** Running a computation of the monad: unfold its combinators. *)
Ltac mrun :=
  repeat (progress (cbv beta iota delta
    [bind ret raise lift gets modify print try_except diverge] in *; simpl in *)).

Lemma bind_Ok {A B} (m : M A) (k : A -> M B) w w' a :
  m w = (w', Ok a) -> bind m k w = k a w'.
Proof. unfold bind. by intros ->. Qed.

Lemma bind_Diverge {A B} (m : M A) (k : A -> M B) w w' :
  m w = (w', Diverge) -> bind m k w = (w', Diverge).
Proof. unfold bind. by intros ->. Qed.

Lemma bind_Raise {A B} (m : M A) (k : A -> M B) w w' e :
  m w = (w', Raise e) -> bind m k w = (w', Raise e).
Proof. unfold bind. by intros ->. Qed.

(** ** Strings and lists *)

Lemma startswith_prefix (s p : str) :
  Py.startswith s p = true <-> p `prefix_of` s.
Proof.
  revert s. induction p as [|a p IH]; intros s.
  - destruct s; simpl; (split; [intros _; apply prefix_nil|done]).
  - destruct s as [|b s]; simpl.
    + split; [done|]. intros H. by apply prefix_nil_not in H.
    + rewrite andb_true_iff, N.eqb_eq, IH. split.
      * intros [-> Hp]. by apply prefix_cons.
      * intros H. split; [by apply prefix_cons_inv_1 in H|].
        by apply prefix_cons_inv_2 in H.
Qed.

(** [needle in hay] holds exactly when [needle] occurs in [hay] as a
    contiguous run of characters. *)
Lemma contains_infix (hay needle : str) :
  Py.contains hay needle = true <->
  exists pre post, hay = pre ++ needle ++ post.
Proof.
  induction hay as [|a hay IH].
  - change (Py.contains [] needle) with (Py.startswith [] needle || false).
    rewrite orb_false_r, startswith_prefix. split.
    + intros H. apply prefix_nil_inv in H. subst. by exists [], [].
    + intros (pre & post & H). symmetry in H.
      apply app_eq_nil in H as [_ H]. apply app_eq_nil in H as [-> _].
      apply prefix_nil.
  - change (Py.contains (a :: hay) needle)
      with (Py.startswith (a :: hay) needle || Py.contains hay needle).
    rewrite orb_true_iff, startswith_prefix, IH. split.
    + intros [[post ->] | (pre & post & ->)].
      * by exists [], post.
      * by exists (a :: pre), post.
    + intros ([|b pre] & post & H).
      * left. exists post. done.
      * right. injection H as -> ->. by exists pre, post.
Qed.

Lemma replace_char_removes (old : N) (new s : str) :
  old ∉ new -> old ∉ Py.replace_char old new s.
Proof.
  intros Hnew. unfold Py.replace_char.
  induction s as [|c s IH]; simpl.
  - apply not_elem_of_nil.
  - rewrite elem_of_app. intros [Hin | Hin]; [|by apply IH].
    destruct (c =? old)%N eqn:Hc.
    + by apply Hnew.
    + apply list_elem_of_singleton in Hin. subst c.
      by rewrite N.eqb_refl in Hc.
Qed.

Lemma replace_char_keeps_absent (c old : N) (new s : str) :
  c ∉ new -> c ∉ s -> c ∉ Py.replace_char old new s.
Proof.
  intros Hnew. unfold Py.replace_char.
  induction s as [|d s IH]; simpl; intros Hs.
  - apply not_elem_of_nil.
  - apply not_elem_of_cons in Hs as [Hd Hs].
    rewrite elem_of_app. intros [Hin | Hin]; [|by apply IH].
    destruct (d =? old)%N.
    + by apply Hnew.
    + apply list_elem_of_singleton in Hin. by subst.
Qed.

(** ** Ledger *)

Lemma is_already_processed_ledger entries w page_id rev :
  _is_already_processed page_id rev (with_ledger entries w) =
    (with_ledger entries w,
     Ok (match entries !! page_id with
         | Some e =>
             match e !! k_last_edited_time with
             | Some j => Json.eq_str j rev
             | None => false
             end
         | None => false
         end)).
Proof.
  unfold _is_already_processed, bind, gets, lift, ret. simpl.
  rewrite lookup_singleton_eq. simpl.
  rewrite lookup_fmap.
  destruct (entries !! page_id) as [e|] eqn:He; simpl; reflexivity.
Qed.

Lemma eq_str_true j s : Json.eq_str j s = true <-> j = JStr s.
Proof.
  destruct j; simpl; try (split; [discriminate|intros [=]]).
  rewrite bool_decide_eq_true. split; [by intros ->|by intros [=]].
Qed.

(** C2. The staleness check [not _is_already_processed(id, revision)] on a
    ledger of entries holds exactly when the ledger has no entry for the
    note, or the entry's stored revision is not the current one. The check
    never fails, leaves the state alone, and does not read the entry's
    stored outcome: rewriting the ["status"] of every entry changes
    nothing. *)
Theorem staleness_check_iff (entries : gmap str (gmap str JSON)) (w : World)
    (page_id rev : str) :
  exists processed : bool,
    _is_already_processed page_id rev (with_ledger entries w) =
      (with_ledger entries w, Ok processed) /\
    (negb processed = true <->
       entries !! page_id = None \/
       exists e, entries !! page_id = Some e /\
                 e !! k_last_edited_time <> Some (JStr rev)) /\
    forall outcome : JSON,
      _is_already_processed page_id rev
        (with_ledger (<[ Py.lit "status" := outcome ]> <$> entries) w) =
      (with_ledger (<[ Py.lit "status" := outcome ]> <$> entries) w, Ok processed).
Proof.
  eexists. split; [apply is_already_processed_ledger|]. split.
  - destruct (entries !! page_id) as [e|] eqn:He.
    + destruct (e !! k_last_edited_time) as [j|] eqn:Hj.
      * rewrite negb_true_iff. split.
        -- intros Hne. right. exists e. split; [done|].
           rewrite Hj. intros [= ->]. simpl in Hne.
           by rewrite bool_decide_eq_true_2 in Hne.
        -- intros [[=] | (e' & [= <-] & Hne)].
           destruct (Json.eq_str j rev) eqn:Heq; [|done].
           apply eq_str_true in Heq. subst j. by rewrite Hj in Hne.
      * simpl. split; [|done]. intros _. right. exists e. split; [done|].
        by rewrite Hj.
    + simpl. split; [by left|done].
  - intros outcome. rewrite is_already_processed_ledger.
    rewrite lookup_fmap. destruct (entries !! page_id) as [e|]; simpl; [|done].
    rewrite lookup_insert_ne; [done|]. by vm_compute.
Qed.

(** ** Stable descending sort *)

Section SortDesc.
Context {A : Type} (key : A -> nat).

Lemma insert_desc_Permutation x l : insert_desc key x l ≡ₚ x :: l.
Proof.
  induction l as [|y l IH]; simpl; [done|].
  destruct (key x <? key y); [|done].
  rewrite IH. apply Permutation_swap.
Qed.

Lemma sort_desc_Permutation l : sort_desc key l ≡ₚ l.
Proof.
  induction l as [|x l IH]; simpl; [done|].
  by rewrite insert_desc_Permutation, IH.
Qed.

Lemma insert_desc_sorted x l :
  StronglySorted (desc key) l -> StronglySorted (desc key) (insert_desc key x l).
Proof.
  induction l as [|y l IH]; simpl; intros Hs.
  - repeat constructor.
  - apply StronglySorted_inv in Hs as [Hl Hy].
    destruct (key x <? key y) eqn:Hxy.
    + apply Nat.ltb_lt in Hxy. constructor; [by apply IH|].
      rewrite insert_desc_Permutation. constructor; [unfold desc; lia|done].
    + apply Nat.ltb_ge in Hxy. constructor; [by constructor|].
      constructor; [done|].
      eapply Forall_impl; [exact Hy|]. unfold desc. intros z Hz. lia.
Qed.

Lemma sort_desc_sorted l : StronglySorted (desc key) (sort_desc key l).
Proof.
  induction l as [|x l IH]; simpl; [constructor|by apply insert_desc_sorted].
Qed.

(** Stability: elements of equal key keep their relative order. *)
Lemma insert_desc_filter s x l :
  filter (fun a => key a = s) (insert_desc key x l) =
  filter (fun a => key a = s) (x :: l).
Proof.
  induction l as [|y l IH]; simpl; [done|].
  destruct (key x <? key y) eqn:Hxy; [|done].
  apply Nat.ltb_lt in Hxy.
  rewrite (filter_cons _ y), IH, !filter_cons.
  destruct (decide (key y = s)), (decide (key x = s)); try done; lia.
Qed.

Lemma sort_desc_filter s l :
  filter (fun a => key a = s) (sort_desc key l) = filter (fun a => key a = s) l.
Proof.
  induction l as [|x l IH]; simpl; [done|].
  by rewrite insert_desc_filter, !filter_cons, IH.
Qed.

Lemma StronglySorted_take n l :
  StronglySorted (desc key) l -> StronglySorted (desc key) (take n l).
Proof.
  intros Hs. revert n. induction Hs as [|x l Hs IH Hx]; intros [|n]; simpl;
    try constructor; [by apply IH|].
  eapply Forall_forall. intros y Hy.
  eapply Forall_forall; [exact Hx|].
  eapply sublist_subseteq; [apply sublist_take|exact Hy].
Qed.
End SortDesc.

Lemma filter_take_prefix {A} (P : A -> Prop) `{!forall x, Decision (P x)}
    (n : nat) (l : list A) :
  filter P (take n l) `prefix_of` filter P l.
Proof.
  rewrite <- (take_drop n l) at 2. rewrite filter_app. by apply prefix_app_r.
Qed.

Lemma prefix_sublist {A} (l1 l2 : list A) :
  l1 `prefix_of` l2 -> l1 `sublist_of` l2.
Proof. intros [k ->]. by apply sublist_inserts_r. Qed.

Lemma sublist_filter_mono {A} (P : A -> Prop) `{!forall x, Decision (P x)}
    (l1 l2 : list A) :
  l1 `sublist_of` l2 -> filter P l1 `sublist_of` filter P l2.
Proof.
  induction 1 as [|x l1 l2 _ IH|x l1 l2 _ IH]; [done| |].
  - rewrite !filter_cons. destruct (decide (P x)); [by constructor|done].
  - rewrite filter_cons. destruct (decide (P x)); [by constructor|done].
Qed.

Lemma sublist_pair_omap {A B} (f : A -> option B) (l : list A) (b1 b2 : B) :
  [b1; b2] `sublist_of` omap f l ->
  exists a1 a2, [a1; a2] `sublist_of` l /\ f a1 = Some b1 /\ f a2 = Some b2.
Proof.
  induction l as [|a l IH]; simpl.
  - intros H. apply sublist_nil_r in H. discriminate.
  - destruct (f a) as [b|] eqn:Hfa.
    + rewrite sublist_cons_r. intros [H|(l' & [= <- <-] & H)].
      * destruct (IH H) as (a1 & a2 & ? & ? & ?).
        exists a1, a2. split; [by constructor|done].
      * assert (b2 ∈ omap f l) as Hin.
        { eapply sublist_subseteq; [exact H|]. apply list_elem_of_singleton. done. }
        apply list_elem_of_omap in Hin as (a2 & Ha2 & Hf2).
        exists a, a2. split; [|done].
        apply sublist_skip. apply list_elem_of_split in Ha2 as (k1 & k2 & ->).
        apply sublist_inserts_l. apply sublist_skip. apply sublist_nil_l.
    + intros H. destruct (IH H) as (a1 & a2 & ? & ? & ?).
      exists a1, a2. split; [by constructor|done].
Qed.

(** ** Related-note matcher *)

Section Matcher.
Context {U : Py.Unicode}.

Lemma length_omap_le {A B} (f : A -> option B) (l : list A) :
  length (omap f l) <= length l.
Proof.
  induction l as [|a l IH]; csimpl; [done|]. destruct (f a); csimpl; lia.
Qed.

Lemma related_entry_Some keywords current page c :
  related_entry keywords current page = Some c <->
    page_id page <> current /\
    _get_page_title page <> [] /\
    _get_page_title page <> placeholder_title /\
    c = {| rel_id := page_id page;
           rel_title := _get_page_title page;
           rel_score :=
             2 * keyword_matches keywords (Py.lower (_get_page_title page)) +
             keyword_matches keywords
               (Py.lower (Py.join (Py.lit " ") (_get_page_tags page))) |} /\
    rel_score c <> 0.
Proof.
  unfold related_entry, page_score.
  replace (keyword_matches keywords (Py.lower (_get_page_title page)) * 2)
    with (2 * keyword_matches keywords (Py.lower (_get_page_title page)))
    by lia.
  repeat case_bool_decide; simpl.
  all: try (split; [discriminate|]; intros (? & ? & ? & ? & ?); congruence).
  match goal with |- context [0 <? ?s] => destruct (0 <? s) eqn:Hs end.
  - apply Nat.ltb_lt in Hs. split.
    + intros [= <-]. simpl. repeat split; try done. lia.
    + intros (_ & _ & _ & -> & _). done.
  - apply Nat.ltb_ge in Hs. split; [discriminate|].
    intros (_ & _ & _ & -> & Hne). simpl in Hne. lia.
Qed.

Lemma find_related_pages_unfold cache kw keywords current top_k :
  find_related_pages cache (kw :: keywords) current top_k =
  Py.slice_to_Z top_k
    (sort_desc rel_score (related_scan cache (kw :: keywords) current)).
Proof. reflexivity. Qed.

Lemma slice_to_Z_sublist {A} k (l : list A) : Py.slice_to_Z k l `sublist_of` l.
Proof. unfold Py.slice_to_Z. destruct (0 <=? k)%Z; apply sublist_take. Qed.

Lemma find_related_pages_sublist cache keywords current top_k :
  find_related_pages cache keywords current top_k `sublist_of`
    sort_desc rel_score (related_scan cache keywords current).
Proof.
  destruct keywords; [apply sublist_nil_l|apply slice_to_Z_sublist].
Qed.

Lemma keyword_matches_cons kw keywords text :
  keyword_matches (kw :: keywords) text =
    (if Py.contains text (Py.lower kw) then 1 else 0) +
    keyword_matches keywords text.
Proof.
  unfold keyword_matches. rewrite filter_cons.
  destruct (Py.contains text (Py.lower kw)); [by rewrite decide_True|].
  by rewrite decide_False.
Qed.

Lemma match_count_keyword_matches text keywords n :
  match_count text keywords n <-> n = keyword_matches keywords (Py.lower text).
Proof.
  split.
  - induction 1 as [|kw keywords n Hkw _ IH|kw keywords n Hkw _ IH];
      [done| |]; rewrite keyword_matches_cons, <- IH.
    + apply contains_infix in Hkw. by rewrite Hkw.
    + destruct (Py.contains _ _) eqn:Hc; [|done].
      apply contains_infix in Hc. by destruct Hkw.
  - intros ->. induction keywords as [|kw keywords IH]; [constructor|].
    rewrite keyword_matches_cons.
    destruct (Py.contains _ _) eqn:Hc.
    + apply match_count_hit; [by apply contains_infix|done].
    + apply match_count_miss; [|done]. intros Hkw.
      apply contains_infix in Hkw. congruence.
Qed.

(** C3. [find_related_pages] returns nothing for an empty keyword list.
    Otherwise the scan of the cache keeps exactly the pages other than the
    current one whose title is neither empty nor the placeholder and whose
    score is not zero. The score is twice the number of keywords that match
    the title plus the number of keywords that match the tags joined by
    spaces, where a keyword matches a text when its lower-cased form occurs
    in the lower-cased text as a contiguous run of characters. Every entry
    returned comes from this scan, and the whole scan is returned when
    [top_k] is at least the size of the cache. *)
Theorem find_related_scoring (cache : list Page) (keywords : list str)
    (current_page_id : str) (top_k : Z) :
  find_related_pages cache [] current_page_id top_k = [] /\
  (forall c,
     c ∈ related_scan cache keywords current_page_id <->
     exists page title_matches tag_matches,
       page ∈ cache /\
       page_id page <> current_page_id /\
       _get_page_title page <> [] /\
       _get_page_title page <> placeholder_title /\
       match_count (_get_page_title page) keywords title_matches /\
       match_count (Py.join (Py.lit " ") (_get_page_tags page)) keywords
         tag_matches /\
       c = {| rel_id := page_id page;
              rel_title := _get_page_title page;
              rel_score := 2 * title_matches + tag_matches |} /\
       2 * title_matches + tag_matches <> 0) /\
  (forall c,
     c ∈ find_related_pages cache keywords current_page_id top_k ->
     c ∈ related_scan cache keywords current_page_id) /\
  (forall c,
     keywords <> [] -> (Z.of_nat (length cache) <= top_k)%Z ->
     c ∈ related_scan cache keywords current_page_id ->
     c ∈ find_related_pages cache keywords current_page_id top_k).
Proof.
  split; [reflexivity|]. split; [|split].
  - intros c. unfold related_scan. rewrite list_elem_of_omap.
    split.
    + intros (page & Hin & Hc). apply related_entry_Some in Hc
        as (Hid & Ht & Hp & -> & Hs).
      eexists page, _, _. repeat split; try done.
      * by apply match_count_keyword_matches.
      * by apply match_count_keyword_matches.
    + intros (page & t & g & Hin & Hid & Ht & Hp & Hmt & Hmg & -> & Hs).
      apply match_count_keyword_matches in Hmt, Hmg. subst t g.
      exists page. split; [done|]. by apply related_entry_Some.
  - intros c Hc.
    rewrite <- (sort_desc_Permutation rel_score).
    eapply sublist_subseteq; [apply find_related_pages_sublist|exact Hc].
  - intros c Hkw Hk Hc. destruct keywords as [|kw keywords]; [done|].
    rewrite find_related_pages_unfold. unfold Py.slice_to_Z.
    replace (0 <=? top_k)%Z with true by (symmetry; apply Z.leb_le; lia).
    rewrite take_ge.
    + by rewrite sort_desc_Permutation.
    + rewrite sort_desc_Permutation. unfold related_scan.
      pose proof (length_omap_le (related_entry (kw :: keywords) current_page_id)
                    cache). lia.
Qed.
(** C4. For a non-negative [top_k], the list returned by
    [find_related_pages] is in descending order of score and has at most
    [top_k] entries. Among the entries of any one score it is a prefix of
    the scan of the cache, so two returned entries of equal score stand in
    the order of the pages of the cache they were made from. *)
Theorem find_related_ranking (cache : list Page) (keywords : list str)
    (current_page_id : str) (top_k : Z) :
  (0 <= top_k)%Z ->
  let found := find_related_pages cache keywords current_page_id top_k in
  StronglySorted (fun a b => rel_score b <= rel_score a) found /\
  length found <= Z.to_nat top_k /\
  (forall s,
     filter (fun c => rel_score c = s) found `prefix_of`
     filter (fun c => rel_score c = s)
            (related_scan cache keywords current_page_id)) /\
  (forall c1 c2,
     [c1; c2] `sublist_of` found -> rel_score c1 = rel_score c2 ->
     exists p1 p2,
       [p1; p2] `sublist_of` cache /\
       related_entry keywords current_page_id p1 = Some c1 /\
       related_entry keywords current_page_id p2 = Some c2).
Proof.
  intros Hk found.
  assert (forall s,
     filter (fun c => rel_score c = s) found `prefix_of`
     filter (fun c => rel_score c = s)
            (related_scan cache keywords current_page_id)) as Hstable.
  { intros s. subst found. destruct keywords as [|kw keywords].
    - apply prefix_nil.
    - rewrite find_related_pages_unfold. unfold Py.slice_to_Z.
      replace (0 <=? top_k)%Z with true by (symmetry; by apply Z.leb_le).
      rewrite <- (sort_desc_filter rel_score s (related_scan _ _ _)).
      apply filter_take_prefix. }
  split; [|split; [|split; [exact Hstable|]]].
  - subst found. destruct keywords as [|kw keywords]; [constructor|].
    rewrite find_related_pages_unfold. unfold Py.slice_to_Z.
    destruct (0 <=? top_k)%Z;
      apply (StronglySorted_take rel_score), sort_desc_sorted.
  - subst found. destruct keywords as [|kw keywords]; simpl; [lia|].
    unfold Py.slice_to_Z.
    replace (0 <=? top_k)%Z with true by (symmetry; by apply Z.leb_le).
    rewrite length_take. lia.
  - intros c1 c2 Hsub Heq.
    apply (sublist_pair_omap (related_entry keywords current_page_id)).
    fold (related_scan cache keywords current_page_id).
    etransitivity;
      [|apply (sublist_filter (fun c => rel_score c = rel_score c1))].
    etransitivity; [|apply prefix_sublist, Hstable].
    apply (sublist_filter_mono (fun c => rel_score c = rel_score c1)) in Hsub.
    rewrite !filter_cons, filter_nil in Hsub.
    rewrite decide_True in Hsub by done.
    rewrite decide_True in Hsub by done. exact Hsub.
Qed.
End Matcher.

(** ** Archive file name *)

Section FileName.
Context {U : Py.Unicode}.

Lemma replace_char_single (old new : N) (s : str) :
  Py.replace_char old [new] s = map (fun c => if (c =? old)%N then new else c) s.
Proof.
  unfold Py.replace_char. induction s as [|c s IH]; simpl; [done|].
  rewrite IH. by destruct (c =? old)%N.
Qed.

(** C9. The archive path is the directory ["zettelkasten-vault"], a slash,
    the first 10 characters of the creation time, an underscore, the
    sanitized title and [".md"]. The sanitized title is obtained from the
    title by turning every ['/'] and ['\'] into ['-'], keeping the first 50
    characters, and then dropping every character that is neither
    alphanumeric nor a space, hyphen or underscore; so it has at most 50
    characters, all of them of these kinds, and no ['/'] or ['\']. *)
Theorem archive_filename_policy (page : Page) (title : str) :
  archive_filename page title =
    Py.lit "zettelkasten-vault" ++ Py.lit "/" ++
    take 10 (created_time page) ++ Py.lit "_" ++
    safe_title title ++ Py.lit ".md" /\
  length (take 10 (created_time page)) = min 10 (length (created_time page)) /\
  safe_title title =
    filter (fun c => Py.isalnum c || bool_decide (c ∈ [32%N; 45%N; 95%N]) = true)
      (take 50 (map (fun c => if bool_decide (c = 47%N \/ c = 92%N)
                              then 45%N else c) title)) /\
  length (safe_title title) <= 50 /\
  (forall c, c ∈ safe_title title ->
     Py.isalnum c = true \/ c = 32%N \/ c = 45%N \/ c = 95%N) /\
  (47%N ∉ safe_title title) /\
  (92%N ∉ safe_title title).
Proof.
  assert (safe_title title =
    filter (fun c => Py.isalnum c || bool_decide (c ∈ [32%N; 45%N; 95%N]) = true)
      (take 50 (map (fun c => if bool_decide (c = 47%N \/ c = 92%N)
                              then 45%N else c) title))) as Hsafe.
  { unfold safe_title, Py.slice_to. do 2 f_equal.
    change (Py.lit "-") with [45%N]. rewrite !replace_char_single.
    rewrite map_map. apply map_ext. intros c.
    destruct (c =? 47)%N eqn:H47.
    - apply N.eqb_eq in H47. subst c. simpl. done.
    - apply N.eqb_neq in H47. destruct (c =? 92)%N eqn:H92.
      + apply N.eqb_eq in H92. subst c. done.
      + apply N.eqb_neq in H92. rewrite bool_decide_eq_false_2; [done|].
        intros [?|?]; done. }
  split; [reflexivity|]. split; [apply length_take|]. split; [exact Hsafe|].
  split; [|split; [|split]].
  - rewrite Hsafe. etransitivity; [apply length_filter|].
    rewrite length_take. lia.
  - intros c Hc. unfold safe_title in Hc.
    apply list_elem_of_filter in Hc as [Hc _].
    apply orb_true_iff in Hc as [Hc|Hc]; [by left|right].
    apply bool_decide_eq_true in Hc.
    rewrite !elem_of_cons in Hc. rewrite elem_of_nil in Hc. tauto.
  - unfold safe_title, Py.slice_to. intros Hin.
    apply list_elem_of_filter in Hin as [_ Hin].
    apply elem_of_take in Hin as (i & Hin & _).
    apply list_elem_of_lookup_2 in Hin. revert Hin.
    apply replace_char_keeps_absent.
    + change (Py.lit "-") with [45%N]. by rewrite list_elem_of_singleton.
    + apply replace_char_removes.
      change (Py.lit "-") with [45%N]. by rewrite list_elem_of_singleton.
  - unfold safe_title, Py.slice_to. intros Hin.
    apply list_elem_of_filter in Hin as [_ Hin].
    apply elem_of_take in Hin as (i & Hin & _).
    apply list_elem_of_lookup_2 in Hin. revert Hin.
    apply replace_char_removes.
    change (Py.lit "-") with [45%N]. by rewrite list_elem_of_singleton.
Qed.
End FileName.

(** ** Enrichment fallback *)

Lemma iter_strs_cases j :
  (exists ss, Json.iter_strs j = Ok ss) \/ Json.iter_strs j = Raise TypeError.
Proof.
  destruct j; simpl; eauto. destruct (mapM _ _); eauto.
Qed.

(** [analyze_with_ai] never raises: whatever the backend does, it returns a
    dictionary. *)
Lemma analyze_with_ai_returns env content existing_tags w :
  exists out j,
    analyze_with_ai env content existing_tags w =
      (after_request (Py.slice_to 3000 content)
         (existing_tags_str existing_tags) out w, Ok j) /\
    (out = [] \/ exists e, out = [MsgAIError e] /\
                           j = fallback_analysis content existing_tags).
Proof.
  unfold analyze_with_ai, try_except, bind, chat_completions_create, modify,
    json_loads, lift, ret, raise, print, after_request. simpl.
  destruct (backend env _ _) as [msg|[j|]]; simpl.
  - eexists [_], _. split; [reflexivity|]. right. eauto.
  - destruct (Json.getitem j k_title) eqn:Ht; simpl;
      try (eexists [_], _; split; [reflexivity|]; right; eauto; fail).
    2:{ destruct j; simpl in Ht; try done. by destruct (m !! k_title). }
    destruct (Json.getitem j k_tags) as [tags| |] eqn:Hg; simpl;
      try (eexists [_], _; split; [reflexivity|]; right; eauto; fail).
    2:{ destruct j; simpl in Hg; try done. by destruct (m !! k_tags). }
    destruct (iter_strs_cases tags) as [[ss Hss]|Hss]; rewrite Hss; simpl;
      try (eexists [_], _; split; [reflexivity|]; right; eauto; fail).
    destruct (Json.get_default j k_keywords (JList [])) as [kws| |] eqn:Hk;
      simpl;
      try (eexists [_], _; split; [reflexivity|]; right; eauto; fail).
    2:{ destruct j; simpl in Hk; done. }
    destruct (iter_strs_cases kws) as [[ks Hks]|Hks]; rewrite Hks; simpl;
      try (eexists [_], _; split; [reflexivity|]; right; eauto; fail).
    exists [], j. split; [|by left].
    f_equal. destruct w; unfold set_stdout, set_ai_requests; simpl.
    by rewrite app_nil_r.
  - eexists [_], _. split; [reflexivity|]. right. eauto.
Qed.

Lemma iter_strs_of_strs (l : list str) : Json.iter_strs (JList (JStr <$> l)) = Ok l.
Proof.
  simpl. replace (mapM Json.as_str (JStr <$> l)) with (Some l); [done|].
  symmetry. apply mapM_Some. induction l; constructor; done.
Qed.

Lemma fallback_analysis_usable content existing_tags :
  exists m, fallback_analysis content existing_tags = JObj m /\ usable m = true.
Proof.
  eexists. split; [reflexivity|]. unfold usable.
  rewrite lookup_insert_eq.
  rewrite lookup_insert_ne by (by vm_compute). rewrite lookup_insert_eq.
  rewrite iter_strs_of_strs.
  rewrite !lookup_insert_ne by (by vm_compute). by rewrite lookup_insert_eq.
Qed.

(** The two ways [analyze_with_ai] ends: with the backend's object, when it
    passes the checks, and with the default metadata otherwise. *)
Lemma analyze_with_ai_cases env content existing_tags w :
  (exists m,
     backend env (Py.slice_to 3000 content) (existing_tags_str existing_tags) =
       Content (Some (JObj m)) /\
     usable m = true /\
     analyze_with_ai env content existing_tags w =
       (after_request (Py.slice_to 3000 content)
          (existing_tags_str existing_tags) [] w, Ok (JObj m))) \/
  (malformed (backend env (Py.slice_to 3000 content)
                (existing_tags_str existing_tags)) /\
   exists e,
     analyze_with_ai env content existing_tags w =
       (after_request (Py.slice_to 3000 content)
          (existing_tags_str existing_tags) [MsgAIError e] w,
        Ok (fallback_analysis content existing_tags))).
Proof.
  unfold analyze_with_ai, try_except, bind, chat_completions_create, modify,
    json_loads, lift, ret, raise, print, after_request, usable.
  cbn [fst snd].
  destruct (backend env _ _) as [msg|[j|]]; cbn.
  - right. split; [constructor|eauto].
  - destruct j as [| | | | |m]; cbn;
      try (right; split; [by apply malformed_not_object|eauto]; fail).
    destruct (m !! k_title) eqn:Ht; cbn;
      [|right; split; [by apply malformed_no_title|eauto]].
    destruct (m !! k_tags) as [tags|] eqn:Hg; cbn;
      [|right; split; [by apply malformed_no_tags|eauto]].
    destruct (iter_strs_cases tags) as [[ss Hss]|Hss]; rewrite Hss; cbn;
      [|right; split; [|eauto];
        eapply malformed_tags; [done|]; intros ss; by rewrite Hss].
    destruct (m !! k_keywords) as [kws|] eqn:Hk; cbn.
    + destruct (iter_strs_cases kws) as [[ks Hks]|Hks]; rewrite Hks; cbn.
      * left. exists m. split; [done|].
        split; [rewrite Ht, Hg, Hss, Hk; cbn; by rewrite Hks|].
        f_equal. destruct w; unfold set_stdout, set_ai_requests; cbn.
        by rewrite app_nil_r.
      * right. split; [|eauto].
        eapply malformed_keywords; [done|]. intros ks. by rewrite Hks.
    + left. exists m. split; [done|].
      split; [by rewrite Ht, Hg, Hss, Hk|].
      f_equal. destruct w; unfold set_stdout, set_ai_requests; cbn.
      by rewrite app_nil_r.
  - right. split; [constructor|eauto].
Qed.



(** ** Backlink section *)

Lemma update_notion_page_keeps_blocks env page_id title tags related_pages w :
  has_related_section (page_blocks w page_id) = true ->
  children (update_notion_page env page_id title tags related_pages w).1 =
  children w.
Proof.
  intros Hsec.
  unfold update_notion_page, pages_update, blocks_children_list. mrun.
  destruct (Json.iter_strs tags) as [names|e|]; mrun; [|done..].
  destruct (store_fails env OpUpdate page_id); mrun; [done|].
  destruct (find_page page_id (db w)) as [p|] eqn:Hp; mrun; [|done].
  destruct title; mrun; try done.
  destruct related_pages as [|rp related_pages]; mrun; [done|].
  destruct (store_fails env OpListBlocks page_id); mrun; [done|].
  match goal with |- context [find_page ?i ?d] => destruct (find_page i d) end;
    mrun; [|done].
  fold (page_blocks w page_id). by rewrite Hsec.
Qed.

(** Without such a section a successful call with related pages appends the
    section, after which the guard holds. *)
Lemma update_notion_page_adds_section env page_id title tags related_pages w w' :
  related_pages <> [] ->
  has_related_section (page_blocks w page_id) = false ->
  update_notion_page env page_id title tags related_pages w = (w', Ok tt) ->
  page_blocks w' page_id = page_blocks w page_id ++ backlink_blocks env related_pages /\
  has_related_section (page_blocks w' page_id) = true.
Proof.
  intros Hrel Hsec.
  unfold update_notion_page, pages_update, blocks_children_list. mrun.
  destruct (Json.iter_strs tags) as [names|e|]; mrun; [|done..].
  destruct (store_fails env OpUpdate page_id); mrun; [done|].
  destruct (find_page page_id (db w)) as [p|] eqn:Hp; mrun; [|done].
  destruct title; mrun; try done.
  destruct related_pages as [|rp related_pages]; mrun; [done|].
  destruct (store_fails env OpListBlocks page_id); mrun; [done|].
  match goal with |- context [find_page ?i ?d] => destruct (find_page i d) end;
    mrun; [|done].
  fold (page_blocks w page_id). rewrite Hsec.
  unfold blocks_children_append.
  destruct (store_fails env OpAppend page_id); mrun; [done|].
  intros [= <-]. unfold page_blocks at 1 3. simpl.
  rewrite lookup_insert_eq. simpl. split; [done|].
  unfold has_related_section. rewrite existsb_app. simpl.
  by rewrite orb_true_r.
Qed.

(** C8 (amended). If the blocks of a note already contain a level-2 or
    level-3 heading whose text contains ["関連メモ"], any sequence of calls of
    [update_notion_page] on the note leaves its blocks as they are: no
    backlink section is added, and the number of such headings stays what it
    was. *)
Theorem backlink_append_once env (w : World) (page_id : str)
    (calls : list (JSON * JSON * list Related)) :
  has_related_section (page_blocks w page_id) = true ->
  children (apply_updates env page_id calls w) = children w /\
  page_blocks (apply_updates env page_id calls w) page_id = page_blocks w page_id /\
  length (filter (fun b => is_related_heading b = true)
            (page_blocks (apply_updates env page_id calls w) page_id)) =
  length (filter (fun b => is_related_heading b = true) (page_blocks w page_id)).
Proof.
  intros Hsec.
  assert (children (apply_updates env page_id calls w) = children w) as Hc.
  { revert w Hsec. induction calls as [|[[title tags] related] calls IH];
      intros w Hsec; simpl; [done|].
    pose proof (update_notion_page_keeps_blocks env page_id title tags related w
                  Hsec) as Hstep.
    rewrite IH; [done|]. unfold page_blocks. by rewrite Hstep. }
  unfold page_blocks. by rewrite Hc.
Qed.

(** ** Candidate set *)

Lemma query_loop_collects env flt w fuel cursor pages :
  store_fails env OpQuery [] = false ->
  length (drop (default 0 cursor) (filter (fun p => flt p = true) (db w))) < fuel ->
  query_loop env fuel flt cursor pages w =
    (w, Ok (pages ++ drop (default 0 cursor) (filter (fun p => flt p = true) (db w)))).
Proof.
  intros Hok. revert cursor pages.
  induction fuel as [|fuel IH]; intros cursor pages Hlen; [lia|].
  simpl. unfold databases_query. rewrite Hok. mrun.
  set (rest := drop (default 0 cursor) (filter (fun p => flt p = true) (db w))) in *.
  destruct (Pos.to_nat (page_size env) <? length rest) eqn:Hmore.
  - apply Nat.ltb_lt in Hmore.
    rewrite IH; simpl.
    + subst rest. rewrite <- drop_drop, <- app_assoc, take_drop. done.
    + subst rest. rewrite <- drop_drop, length_drop.
      pose proof (Pos2Nat.is_pos (page_size env)). lia.
  - apply Nat.ltb_ge in Hmore. by rewrite take_ge.
Qed.

Lemma query_all_ok env flt w :
  store_fails env OpQuery [] = false ->
  query_all env flt w = (w, Ok (filter (fun p => flt p = true) (db w))).
Proof.
  intros Hok. unfold query_all, bind, gets.
  rewrite query_loop_collects; [done|done|].
  cbn [default]. rewrite drop_0.
  pose proof (length_filter (fun p => flt p = true) (db w)). lia.
Qed.

Lemma list_filter_True {A} (P : A -> Prop) `{!forall x, Decision (P x)}
    (l : list A) :
  (forall x, P x) -> filter P l = l.
Proof.
  intros HP. induction l as [|x l IH]; [done|].
  by rewrite filter_cons_True, IH.
Qed.

Lemma get_all_pages_ok env w :
  store_fails env OpQuery [] = false ->
  get_all_pages env w = (set_all_pages_cache (fun _ => db w) w, Ok (db w)).
Proof.
  intros Hok. unfold get_all_pages.
  rewrite (bind_Ok _ _ _ _ _ (query_all_ok env _ w Hok)). mrun.
  rewrite list_filter_True; done.
Qed.

Lemma stale_true entries p :
  stale entries p = true <->
  entries !! page_id p = None \/
  exists e, entries !! page_id p = Some e /\
            e !! k_last_edited_time <> Some (JStr (last_edited_time p)).
Proof.
  unfold stale. destruct (entries !! page_id p) as [e|]; [|by intuition].
  destruct (e !! k_last_edited_time) as [j|] eqn:Hj.
  - rewrite negb_true_iff. split.
    + intros Hne. right. exists e. split; [done|]. rewrite Hj. intros [= ->].
      simpl in Hne. by rewrite bool_decide_eq_true_2 in Hne.
    + intros [[=]|(e' & [= <-] & Hne)].
      destruct (Json.eq_str j (last_edited_time p)) eqn:Heq; [|done].
      apply eq_str_true in Heq. subst j. by rewrite Hj in Hne.
  - split; [|done]. intros _. right. exists e. split; [done|]. by rewrite Hj.
Qed.

Lemma filter_unprocessed_ledger entries w pages :
  filter_unprocessed pages (with_ledger entries w) =
    (with_ledger entries w, Ok (filter (fun p => stale entries p = true) pages)).
Proof.
  induction pages as [|p pages IH]; simpl; [done|].
  rewrite (bind_Ok _ _ _ _ _ (is_already_processed_ledger entries w _ _)).
  rewrite (bind_Ok _ _ _ _ _ IH). mrun.
  rewrite filter_cons.
  assert (match entries !! page_id p with
          | Some e =>
              match e !! k_last_edited_time with
              | Some j => Json.eq_str j (last_edited_time p)
              | None => false
              end
          | None => false
          end = negb (stale entries p)) as ->.
  { unfold stale. destruct (entries !! page_id p); [|done].
    by rewrite negb_involutive. }
  by destruct (stale entries p).
Qed.

Lemma candidate_pages_ledger (env : Env) entries w force_reprocess :
  store_fails env OpQuery [] = false ->
  exists w',
    candidate_pages env force_reprocess (with_ledger entries w) =
      (w', Ok (filter (fun p => force_reprocess ||
                                unprocessed_filter p && stale entries p = true)
                      (db w))).
Proof.
  intros Hok. unfold candidate_pages.
  rewrite (bind_Ok _ _ _ _ _ (get_all_pages_ok env _ Hok)).
  destruct force_reprocess; simpl.
  - eexists. unfold gets. simpl. by rewrite list_filter_True.
  - unfold get_unprocessed_pages.
    rewrite (bind_Ok _ _ _ _ _ (query_all_ok env _ _ Hok)). simpl.
    change (set_all_pages_cache (fun _ => db w) (with_ledger entries w))
      with (with_ledger entries (set_all_pages_cache (fun _ => db w) w)).
    rewrite filter_unprocessed_ledger. eexists. do 2 f_equal.
    rewrite list_filter_filter. apply list_filter_iff. intros p.
    rewrite andb_true_iff. tauto.
Qed.

(** A missing or unreadable log file gives the empty ledger, on which every
    page the store lists is a candidate. *)
Lemma load_log_fail_open (env : Env) w force_reprocess :
  log_file w = NoFile \/ log_file w = Unreadable ->
  store_fails env OpQuery [] = false ->
  exists w',
    bind init (fun _ => candidate_pages env force_reprocess) w =
      (w', Ok (filter (fun p => force_reprocess || unprocessed_filter p = true)
                      (db w))).
Proof.
  intros Hfile Hok.
  assert (init w = (with_ledger ∅ (set_all_pages_cache (fun _ => []) w), Ok tt))
    as Hinit.
  { unfold init, _load_log. mrun.
    destruct Hfile as [-> | ->]; mrun; unfold with_ledger, ledger_log;
      by rewrite fmap_empty. }
  rewrite (bind_Ok _ _ _ _ _ Hinit).
  destruct (candidate_pages_ledger env ∅ (set_all_pages_cache (fun _ => []) w)
              force_reprocess Hok) as [w' Hrun].
  exists w'. rewrite Hrun. do 2 f_equal. apply list_filter_iff. intros p.
  unfold stale. rewrite lookup_empty. by rewrite andb_true_r.
Qed.

(** C1 (amended). On a ledger of entries and with the store answering, the
    candidate set of a run is, in database order, every page when
    reprocessing is forced, and otherwise the pages that the store lists as
    unprocessed (status ["未処理"], or processed-flag unset) and that the
    ledger makes stale. So a page whose revision differs from the one in the
    ledger is a candidate exactly when the store still lists it, whatever
    outcome the ledger holds for it. *)
Theorem candidate_pages_edit_detection (env : Env)
    (entries : gmap str (gmap str JSON)) (w : World) (force_reprocess : bool) :
  store_fails env OpQuery [] = false ->
  exists w' pages,
    candidate_pages env force_reprocess (with_ledger entries w) = (w', Ok pages) /\
    pages = filter (fun p => force_reprocess ||
                             unprocessed_filter p && stale entries p = true)
                   (db w) /\
    forall p,
      p ∈ pages <->
      p ∈ db w /\
      (force_reprocess = true \/
       (prop_Status p = Some (Py.lit "未処理") \/ prop_AI p = false) /\
       (entries !! page_id p = None \/
        exists e, entries !! page_id p = Some e /\
                  e !! Py.lit "last_edited_time" <>
                    Some (JStr (last_edited_time p)))).
Proof.
  intros Hok.
  destruct (candidate_pages_ledger env entries w force_reprocess Hok)
    as [w' Hrun].
  exists w'. eexists. split; [exact Hrun|]. split; [done|].
  intros p. rewrite list_elem_of_filter.
  rewrite orb_true_iff, andb_true_iff, stale_true.
  unfold unprocessed_filter.
  rewrite orb_true_iff, bool_decide_eq_true, negb_true_iff. tauto.
Qed.

(** * Effects of the computations *)

(** ** Components of the state left alone *)

Section Preserves.
Context {F : Type} (f : World -> F).

Lemma preserves_ret {A} (a : A) : preserves f (ret a).
Proof. done. Qed.

Lemma preserves_raise {A} e : preserves f (raise (A:=A) e).
Proof. done. Qed.

Lemma preserves_diverge {A} : preserves f (diverge (A:=A)).
Proof. done. Qed.

Lemma preserves_lift {A} (r : result A) : preserves f (lift r).
Proof. done. Qed.

Lemma preserves_gets {A} (g : World -> A) : preserves f (gets g).
Proof. done. Qed.

Lemma preserves_modify g : (forall w, f (g w) = f w) -> preserves f (modify g).
Proof. intros Hg w. apply Hg. Qed.

Lemma preserves_bind {A B} (m : M A) (k : A -> M B) :
  preserves f m -> (forall a, preserves f (k a)) -> preserves f (bind m k).
Proof.
  intros Hm Hk w. unfold bind. specialize (Hm w).
  destruct (m w) as [w' [a| |]]; simpl in *; [|done..].
  by rewrite Hk.
Qed.

Lemma preserves_try_except {A} (m : M A) h :
  preserves f m -> (forall e, preserves f (h e)) -> preserves f (try_except m h).
Proof.
  intros Hm Hh w. unfold try_except. specialize (Hm w).
  destruct (m w) as [w' [a|e|]]; simpl in *; [done| |done].
  by rewrite Hh.
Qed.
End Preserves.

(** Decompose a goal [preserves f m] along the structure of [m]. *)
Ltac preserves_step :=
  lazymatch goal with
  | |- preserves _ (bind _ _) => apply preserves_bind; [|intros ?]
  | |- preserves _ (try_except _ _) => apply preserves_try_except; [|intros ?]
  | |- preserves _ (ret _) => apply preserves_ret
  | |- preserves _ (raise _) => apply preserves_raise
  | |- preserves _ diverge => apply preserves_diverge
  | |- preserves _ (lift _) => apply preserves_lift
  | |- preserves _ (gets _) => apply preserves_gets
  | |- preserves _ (modify _) => apply preserves_modify; intros []; reflexivity
  | |- preserves _ (print _) => apply preserves_modify; intros []; reflexivity
  | |- preserves _ (if ?b then _ else _) => destruct b
  | |- preserves _ (match ?x with _ => _ end) => destruct x
  end.

Ltac preserves_tac := repeat preserves_step.

Lemma query_loop_preserves {F} (f : World -> F) env fuel flt cursor pages :
  preserves f (query_loop env fuel flt cursor pages).
Proof.
  revert cursor pages. induction fuel as [|fuel IH]; intros cursor pages; simpl.
  - apply preserves_diverge.
  - unfold databases_query. preserves_tac. apply IH.
Qed.

Lemma query_all_preserves {F} (f : World -> F) env flt :
  preserves f (query_all env flt).
Proof. unfold query_all. preserves_tac. apply query_loop_preserves. Qed.

Lemma is_already_processed_preserves {F} (f : World -> F) page_id rev :
  preserves f (_is_already_processed page_id rev).
Proof. unfold _is_already_processed. preserves_tac. Qed.

Lemma filter_unprocessed_preserves {F} (f : World -> F) pages :
  preserves f (filter_unprocessed pages).
Proof.
  induction pages as [|p pages IH]; simpl; preserves_tac; [|done].
  apply is_already_processed_preserves.
Qed.

Lemma update_notion_page_preserves_ai env page_id title tags related :
  preserves ai_requests (update_notion_page env page_id title tags related).
Proof.
  unfold update_notion_page, pages_update, blocks_children_list,
    blocks_children_append. preserves_tac.
Qed.

Lemma save_to_github_preserves_ai env filename content message :
  preserves ai_requests (save_to_github env filename content message).
Proof.
  unfold save_to_github, repo_get_contents, repo_update_file, repo_create_file.
  preserves_tac.
Qed.

Lemma add_to_log_preserves_ai env page_id title rev status :
  preserves ai_requests (_add_to_log env page_id title rev status).
Proof. unfold _add_to_log, _save_log. preserves_tac. Qed.

(** ** Lines written to the console *)

Lemma count_app p out1 out2 : count p (out1 ++ out2) = count p out1 + count p out2.
Proof. unfold count. by rewrite filter_app, length_app. Qed.

Lemma count_cons p m out :
  count p (m :: out) = (if p m then 1 else 0) + count p out.
Proof. unfold count. rewrite filter_cons. by destruct (p m). Qed.

Lemma emits_preserves {A} (m : M A) : preserves stdout m -> emits m 0.
Proof.
  intros Hm w. exists []. rewrite Hm, app_nil_r. by destruct (m w).2.
Qed.

Lemma emits_raise {A} e n : emits (raise (A:=A) e) n.
Proof. intros w. exists []. by rewrite app_nil_r. Qed.

Lemma emits_print_quiet msg :
  is_error msg = false -> is_skipped msg = false -> is_done msg = false ->
  emits (print msg) 0.
Proof.
  intros He Hs Hd w. exists [msg]. unfold count. simpl.
  rewrite !filter_cons, !filter_nil, He, Hs, Hd. done.
Qed.

Lemma emits_print_skipped : emits (print MsgSkipTooShort) 1.
Proof. intros w. by exists [MsgSkipTooShort]. Qed.

Lemma emits_print_done title : emits (print (MsgDone title)) 1.
Proof. intros w. by exists [MsgDone title]. Qed.

Lemma emits_bind {A B} (m : M A) (k : A -> M B) n :
  emits m 0 -> (forall a, emits (k a) n) -> emits (bind m k) n.
Proof.
  intros Hm Hk w. unfold bind. destruct (Hm w) as (out1 & Ho1 & He1 & Hs1).
  destruct (m w) as [w' [a|e|]]; simpl in *.
  - destruct (Hk a w') as (out2 & Ho2 & He2 & Hs2).
    exists (out1 ++ out2). rewrite Ho2, Ho1, app_assoc, !count_app.
    split; [done|]. split; lia.
  - by exists out1.
  - by exists out1.
Qed.

Lemma emits_try_except {A} (m : M A) h :
  emits m 0 -> (forall e, emits (h e) 0) -> emits (try_except m h) 0.
Proof.
  intros Hm Hh w. unfold try_except. destruct (Hm w) as (out1 & Ho1 & He1 & Hs1).
  destruct (m w) as [w' [a|e|]]; simpl in *.
  - by exists out1.
  - destruct (Hh e w') as (out2 & Ho2 & He2 & Hs2).
    exists (out1 ++ out2). rewrite Ho2, Ho1, app_assoc, !count_app.
    split; [done|]. split; [lia|]. destruct (h e w').2; lia.
  - by exists out1.
Qed.

Ltac emits_step :=
  lazymatch goal with
  | |- emits (bind _ _) _ => apply emits_bind; [|intros ?]
  | |- emits (try_except _ _) 0 => apply emits_try_except; [|intros ?]
  | |- emits (raise _) _ => apply emits_raise
  | |- emits (print MsgSkipTooShort) 1 => apply emits_print_skipped
  | |- emits (print (MsgDone _)) 1 => apply emits_print_done
  | |- emits (print _) 0 => apply emits_print_quiet; reflexivity
  | |- emits (if ?b then _ else _) _ => destruct b
  | |- emits (match ?x with _ => _ end) _ => destruct x
  | |- emits (ret _) 0 => apply emits_preserves, preserves_ret
  | |- emits (lift _) 0 => apply emits_preserves, preserves_lift
  | |- emits (gets _) 0 => apply emits_preserves, preserves_gets
  | |- emits (modify _) 0 =>
      apply emits_preserves, preserves_modify; intros []; reflexivity
  end.

Ltac emits_tac := repeat emits_step.

Lemma add_to_log_emits env page_id title rev status :
  emits (_add_to_log env page_id title rev status) 0.
Proof. unfold _add_to_log, _save_log. emits_tac. Qed.

Section Orchestrator.
Context {U : Py.Unicode} (env : Env).

Lemma process_page_emits page_id : emits (process_page env page_id) 1.
Proof.
  unfold process_page, pages_retrieve, get_page_content, analyze_with_ai,
    chat_completions_create, json_loads, update_notion_page, pages_update,
    blocks_children_list, blocks_children_append, save_to_github,
    repo_get_contents, repo_update_file, repo_create_file.
  emits_tac; apply add_to_log_emits.
Qed.

Lemma process_pages_counts pages :
  forall success_count error_count w w' success_count' error_count',
    process_pages env pages success_count error_count w =
      (w', Ok (success_count', error_count')) ->
    exists out,
      stdout w' = stdout w ++ out /\
      success_count' = success_count + count is_skipped out + count is_done out /\
      error_count' = error_count + count is_error out /\
      success_count' + error_count' = success_count + error_count + length pages.
Proof.
  induction pages as [|page pages IH];
    intros success_count error_count w w' s' e'; simpl.
  - intros [= <- <- <-]. exists []. rewrite app_nil_r. unfold count. simpl.
    repeat split; lia.
  - unfold bind at 1, try_except at 1, bind at 1.
    destruct (process_page_emits (page_id page) w) as (out1 & Ho1 & He1 & Hs1).
    destruct (process_page env (page_id page) w) as [w1 [[]|e|]];
      simpl in *; [| |done].
    + intros Hrest. apply IH in Hrest as (out2 & Ho2 & -> & -> & Hlen).
      exists (out1 ++ out2). rewrite Ho2, Ho1, app_assoc, !count_app.
      repeat split; lia.
    + unfold bind at 1, print at 1, modify at 1, bind at 1.
      match goal with
      | |- context [_add_to_log env ?a ?b ?c ?d ?w0] =>
          destruct (add_to_log_emits env a b c d w0) as (out2 & Ho2 & He2 & Hs2);
          destruct (_add_to_log env a b c d w0) as [w2 [[]|e2|]];
          simpl in *; [|done..]
      end.
      intros Hrest. apply IH in Hrest as (out3 & Ho3 & -> & -> & Hlen).
      exists (out1 ++ MsgError e :: out2 ++ out3).
      rewrite Ho3, Ho2, Ho1, <- !app_assoc.
      rewrite !count_app, !count_cons, !count_app. simpl.
      repeat split; lia.
Qed.
End Orchestrator.

(** ** Per-note processing and the batch run *)

Section Pipeline.
Context {U : Py.Unicode} (env : Env).

Lemma pages_retrieve_ok page_id page w :
  store_fails env OpRetrieve page_id = false ->
  find_page page_id (db w) = Some page ->
  pages_retrieve env page_id w = (w, Ok page).
Proof. intros Hok Hp. unfold pages_retrieve. rewrite Hok. mrun. by rewrite Hp. Qed.

Lemma get_page_content_ok page_id page w :
  store_fails env OpListBlocks page_id = false ->
  find_page page_id (db w) = Some page ->
  get_page_content env page_id w =
    (w, Ok (Py.join nl (omap render_block (page_blocks w page_id)))).
Proof.
  intros Hok Hp. unfold get_page_content, blocks_children_list. rewrite Hok.
  mrun. by rewrite Hp.
Qed.

Lemma process_page_skips page_id page w :
  store_fails env OpRetrieve page_id = false ->
  store_fails env OpListBlocks page_id = false ->
  find_page page_id (db w) = Some page ->
  length (Py.join nl (omap render_block (page_blocks w page_id))) < 20 ->
  process_page env page_id w =
    (set_stdout (fun out => out ++ [MsgSkipTooShort]) w, Ok tt).
Proof.
  intros Hret Hlist Hpage Hshort. apply Nat.ltb_lt in Hshort.
  unfold process_page.
  rewrite (bind_Ok _ _ _ _ _ (pages_retrieve_ok _ _ _ Hret Hpage)).
  rewrite (bind_Ok _ _ _ _ _ (get_page_content_ok _ _ _ Hlist Hpage)).
  by rewrite Hshort.
Qed.

(** A batch of notes that are all too short: every one of them is counted
    as a success, and only the console changes. *)
Lemma process_pages_all_skipped pages :
  forall success_count error_count w,
    (forall p, p ∈ pages ->
       store_fails env OpRetrieve (page_id p) = false /\
       store_fails env OpListBlocks (page_id p) = false /\
       is_Some (find_page (page_id p) (db w)) /\
       length (Py.join nl (omap render_block (page_blocks w (page_id p)))) < 20) ->
    process_pages env pages success_count error_count w =
      (set_stdout (fun out => out ++ replicate (length pages) MsgSkipTooShort) w,
       Ok (success_count + length pages, error_count)).
Proof.
  induction pages as [|p pages IH]; intros success_count error_count w Hall.
  - simpl. unfold ret. f_equal; [|do 2 f_equal; lia].
    destruct w; unfold set_stdout; simpl. by rewrite app_nil_r.
  - destruct (Hall p) as (Hret & Hlist & [page Hpage] & Hshort);
      [by left|].
    cbn [process_pages]. unfold bind at 1, try_except, bind at 1.
    rewrite (process_page_skips _ _ _ Hret Hlist Hpage Hshort). cbn [ret fst snd].
    rewrite IH.
    + f_equal; [|do 2 f_equal; simpl; lia].
      destruct w; unfold set_stdout; simpl. by rewrite <- app_assoc.
    + intros q Hq. apply (Hall q). by right.
Qed.

(** C5. When the note can be fetched, [process_page] compares the length of
    the extracted body with 20. Below 20 (so at 19) it only prints the skip
    line and returns: nothing is raised, the ledger in memory and on disk is
    unchanged and the backend is not called. From 20 on it goes on to the
    enrichment: the backend receives one request, carrying the first 3000
    characters of the body and the note's existing tags. *)
Theorem skip_boundary (page_id : str) (page : Page) (w : World) :
  store_fails env OpRetrieve page_id = false ->
  store_fails env OpListBlocks page_id = false ->
  find_page page_id (db w) = Some page ->
  let content := Py.join nl (omap render_block (page_blocks w page_id)) in
  (length content < 20 ->
     process_page env page_id w =
       (set_stdout (fun out => out ++ [MsgSkipTooShort]) w, Ok tt) /\
     processing_log (process_page env page_id w).1 = processing_log w /\
     log_file (process_page env page_id w).1 = log_file w /\
     ai_requests (process_page env page_id w).1 = ai_requests w) /\
  (20 <= length content ->
     ai_requests (process_page env page_id w).1 =
       ai_requests w ++
         [(take 3000 content, existing_tags_str (Some (prop_Tags page)))]).
Proof.
  intros Hret Hlist Hpage content.
  split.
  - intros Hshort.
    by rewrite (process_page_skips _ _ _ Hret Hlist Hpage Hshort).
  - intros Hlong. apply Nat.ltb_ge in Hlong.
    unfold process_page.
    rewrite (bind_Ok _ _ _ _ _ (pages_retrieve_ok _ _ _ Hret Hpage)).
    rewrite (bind_Ok _ _ _ _ _ (get_page_content_ok _ _ _ Hlist Hpage)).
    fold content. rewrite Hlong.
    destruct (analyze_with_ai_returns env content (Some (_get_page_tags page)) w)
      as (out & j & Hj & _).
    rewrite (bind_Ok _ _ _ _ _ Hj).
    match goal with
    | |- ai_requests (?m ?w0).1 = _ =>
        assert (preserves ai_requests m) as Hm
    end.
    { preserves_tac;
        auto using update_notion_page_preserves_ai,
          save_to_github_preserves_ai, add_to_log_preserves_ai. }
    rewrite Hm. reflexivity.
Qed.

End Pipeline.

(** * The code on concrete inputs *)

Section Examples.
Import Scenario.
Local Existing Instance Py.ascii_unicode.

(** The spec's scoring example: title ["Rust memory model"] and tags
    ["cache"], ["gc"] against the keywords ["rust"], ["cache"] score
    2 * 1 + 1 = 3, and a note without any occurrence is left out. *)
Example scoring_example :
  find_related_pages
    [ note "a" "Rust memory model" ["cache"; "gc"] "r" status_processed true;
      note "b" "Gardening" ["plants"] "r" status_processed true ]
    [Py.lit "rust"; Py.lit "cache"] (Py.lit "x") 5 =
  [ {| rel_id := Py.lit "a"; rel_title := Py.lit "Rust memory model";
       rel_score := 3 |} ].
Proof. vm_compute. reflexivity. Qed.

(** C1, as stated, fails. After a successful run the note [n1] has status
    ["処理済み"] and its processed-flag set, and the ledger holds its old
    revision. When its revision then changes the ledger makes it stale, but
    the store no longer lists it, and the candidate set of the next run is
    empty. *)
Lemma edited_processed_note_not_candidate :
  stdout after_first_run =
    [MsgDone (Py.lit "Rust memory/model"); MsgSummary 1 0 1] /\
  (_is_already_processed (Py.lit "n1") (Py.lit "2024-05-01T08:00:00.000Z")
     after_first_run).2 = Ok true /\
  find_page (Py.lit "n1") (db after_edit) =
    Some (note "n1" "Rust memory/model" ["rust"] "2024-06-01T10:00:00.000Z"
            status_processed true) /\
  (_is_already_processed (Py.lit "n1") (Py.lit "2024-06-01T10:00:00.000Z")
     after_edit).2 = Ok false /\
  (candidate_pages env false after_edit).2 = Ok [].
Proof. vm_compute. repeat split. Qed.

Lemma candidate_pages_edit_detection_witness :
  exists w' pages,
    candidate_pages env false
      (with_ledger {[ Py.lit "n1" := ledger_entry "2024-04-01T08:00:00.000Z"
                                       "error: update failed" ]} start) =
      (w', Ok pages) /\
    pages = filter (fun p => false ||
                unprocessed_filter p &&
                stale {[ Py.lit "n1" := ledger_entry "2024-04-01T08:00:00.000Z"
                                          "error: update failed" ]} p = true)
              (db start) /\
    forall p,
      p ∈ pages <->
      p ∈ db start /\
      (false = true \/
       (prop_Status p = Some (Py.lit "未処理") \/ prop_AI p = false) /\
       (({[ Py.lit "n1" := ledger_entry "2024-04-01T08:00:00.000Z"
                             "error: update failed" ]} : gmap str (gmap str JSON))
          !! page_id p = None \/
        exists e,
          ({[ Py.lit "n1" := ledger_entry "2024-04-01T08:00:00.000Z"
                               "error: update failed" ]} : gmap str (gmap str JSON))
            !! page_id p = Some e /\
          e !! Py.lit "last_edited_time" <> Some (JStr (last_edited_time p)))).
Proof.
  apply (candidate_pages_edit_detection env
           {[ Py.lit "n1" := ledger_entry "2024-04-01T08:00:00.000Z"
                               "error: update failed" ]} start false).
  reflexivity.
Defined.

Lemma find_related_ranking_witness :
  let found := find_related_pages rows [Py.lit "Rust"; Py.lit "cache"]
                 (Py.lit "n1") 1 in
  StronglySorted (fun a b => rel_score b <= rel_score a) found /\
  length found <= Z.to_nat 1 /\
  (forall s,
     filter (fun c => rel_score c = s) found `prefix_of`
     filter (fun c => rel_score c = s)
            (related_scan rows [Py.lit "Rust"; Py.lit "cache"] (Py.lit "n1"))) /\
  (forall c1 c2,
     [c1; c2] `sublist_of` found -> rel_score c1 = rel_score c2 ->
     exists p1 p2,
       [p1; p2] `sublist_of` rows /\
       related_entry [Py.lit "Rust"; Py.lit "cache"] (Py.lit "n1") p1 = Some c1 /\
       related_entry [Py.lit "Rust"; Py.lit "cache"] (Py.lit "n1") p2 = Some c2).
Proof.
  apply (find_related_ranking rows [Py.lit "Rust"; Py.lit "cache"]
           (Py.lit "n1") 1).
  lia.
Defined.

(** Equal scores keep the order of the cache, here against the order of the
    ids and of the titles. *)
Example ranking_example :
  map rel_id
    (find_related_pages
       [ note "z" "cache" [] "r" status_processed true;
         note "m" "Rust cache" [] "r" status_processed true;
         note "a" "a cache" [] "r" status_processed true ]
       [Py.lit "rust"; Py.lit "cache"] (Py.lit "x") 5) =
  [Py.lit "m"; Py.lit "z"; Py.lit "a"].
Proof. vm_compute. reflexivity. Qed.

Lemma skip_boundary_witness :
  (process_page env (Py.lit "n") (single "nineteen characters") =
     (set_stdout (fun out => out ++ [MsgSkipTooShort])
        (single "nineteen characters"), Ok tt) /\
   processing_log (process_page env (Py.lit "n") (single "nineteen characters")).1
     = processing_log (single "nineteen characters") /\
   log_file (process_page env (Py.lit "n") (single "nineteen characters")).1
     = log_file (single "nineteen characters") /\
   ai_requests (process_page env (Py.lit "n") (single "nineteen characters")).1
     = ai_requests (single "nineteen characters")) /\
  ai_requests (process_page env (Py.lit "n") (single "exactly 20 character")).1 =
    ai_requests (single "exactly 20 character") ++
      [(take 3000
          (Py.join nl (omap render_block
             (page_blocks (single "exactly 20 character") (Py.lit "n")))),
        existing_tags_str (Some [Py.lit "idea"]))].
Proof.
  split.
  - apply (skip_boundary env (Py.lit "n")
             (note "n" "draft" ["idea"] "2024-05-01T08:00:00.000Z"
                status_unprocessed false)
             (single "nineteen characters"));
      [reflexivity|reflexivity|reflexivity|vm_compute; lia].
  - apply (skip_boundary env (Py.lit "n")
             (note "n" "draft" ["idea"] "2024-05-01T08:00:00.000Z"
                status_unprocessed false)
             (single "exactly 20 character"));
      [reflexivity|reflexivity|reflexivity|vm_compute; lia].
Defined.

(** The two bodies of the boundary have 19 and 20 characters, and the
    second one reaches the backend, the archive and the ledger. *)
Example boundary_bodies_example :
  length (Py.lit "nineteen characters") = 19 /\
  length (Py.lit "exactly 20 character") = 20 /\
  (run env None false (bind init (fun _ => ret tt)
                         (single "nineteen characters")).1).2 = Ok tt /\
  stdout (run env None false (bind init (fun _ => ret tt)
                                (single "exactly 20 character")).1).1 =
    [MsgDone (Py.lit "Rust memory/model"); MsgSummary 1 0 1].
Proof. vm_compute. repeat split. Qed.


(** A reply with a title and tags but neither summary nor keywords is
    accepted as it is. *)
Example analyze_with_ai_partial_reply :
  let reply := JObj (<[ k_title := JStr (Py.lit "T") ]>
                    (<[ k_tags := JList [JStr (Py.lit "t")] ]> ∅)) in
  (analyze_with_ai (env_with (Content (Some reply)))
     (Py.lit "Ownership rules in detail.") (Some []) start).2 = Ok reply.
Proof. vm_compute. reflexivity. Qed.


(** C7 fails on the code for a log file that parses to another shape than
    the code writes: with the file holding the empty object, [__init__]
    takes it as the ledger, and the first staleness check of the run raises
    [KeyError]; nothing catches it, so the run aborts. A log holding a list
    under ["processed_pages"] passes the staleness checks and aborts the run
    when the first outcome is recorded. *)
Lemma ledger_unexpected_shape_raises :
  (bind init (fun _ => candidate_pages env false)
     (world rows [] (Parses (JObj ∅)))).2 =
    Raise (KeyError (Py.lit "processed_pages")) /\
  (bind init (fun _ => run env None false)
     (world rows [] (Parses (JObj ∅)))).2 =
    Raise (KeyError (Py.lit "processed_pages")) /\
  (bind init (fun _ => run env None false)
     (world rows [] (Parses (JList [])))).2 = Raise TypeError /\
  (bind init (fun _ => run env None false)
     (world rows [(Py.lit "n1", [text paragraph "Ownership rules in detail."])]
        (Parses (JObj {[ k_processed_pages := JList [] ]})))).2 = Raise TypeError.
Proof. vm_compute. repeat split. Qed.

(** C8, as stated, fails for a level-1 heading: the note has a heading whose
    text contains the marker, and the call still appends a backlink section,
    after which the note has two such headings. *)
Lemma backlink_append_ignores_heading_1 :
  let w := world rows [(Py.lit "n1", [text heading_1 "関連メモ"])] NoFile in
  let w' := (update_notion_page env (Py.lit "n1") (JStr (Py.lit "T"))
               (JList []) one_related w).1 in
  existsb heading_with_marker (page_blocks w (Py.lit "n1")) = true /\
  length (filter (fun b => heading_with_marker b = true)
            (page_blocks w (Py.lit "n1"))) = 1 /\
  page_blocks w' (Py.lit "n1") =
    page_blocks w (Py.lit "n1") ++ backlink_blocks env one_related /\
  length (filter (fun b => heading_with_marker b = true)
            (page_blocks w' (Py.lit "n1"))) = 2.
Proof. vm_compute. repeat split. Qed.

Lemma backlink_append_once_witness :
  children (apply_updates env (Py.lit "n1")
              [(JStr (Py.lit "T"), JList [], one_related);
               (JStr (Py.lit "T2"), JList [JStr (Py.lit "t")], one_related)]
              linked) = children linked /\
  page_blocks (apply_updates env (Py.lit "n1")
                 [(JStr (Py.lit "T"), JList [], one_related);
                  (JStr (Py.lit "T2"), JList [JStr (Py.lit "t")], one_related)]
                 linked) (Py.lit "n1") = page_blocks linked (Py.lit "n1") /\
  length (filter (fun b => is_related_heading b = true)
            (page_blocks (apply_updates env (Py.lit "n1")
               [(JStr (Py.lit "T"), JList [], one_related);
                (JStr (Py.lit "T2"), JList [JStr (Py.lit "t")], one_related)]
               linked) (Py.lit "n1"))) =
  length (filter (fun b => is_related_heading b = true)
            (page_blocks linked (Py.lit "n1"))).
Proof.
  apply (backlink_append_once env linked (Py.lit "n1")
           [(JStr (Py.lit "T"), JList [], one_related);
            (JStr (Py.lit "T2"), JList [JStr (Py.lit "t")], one_related)]).
  vm_compute. reflexivity.
Defined.

(** The section written by a first call is found by the second one. *)
Example backlink_append_twice :
  page_blocks (apply_updates env (Py.lit "n1")
                 [(JStr (Py.lit "T"), JList [], one_related);
                  (JStr (Py.lit "T"), JList [], one_related)] start)
              (Py.lit "n1") =
  [text paragraph "Ownership rules in detail."] ++ backlink_blocks env one_related.
Proof. vm_compute. reflexivity. Qed.

(** On [mixed] the summary counts two successes although only [n1] was
    sent to the backend and entered in the ledger. *)
Example run_counts_example :
  let w := (run env None false (init mixed).1).1 in
  stdout w = [MsgSkipTooShort; MsgDone (Py.lit "Rust memory/model");
              MsgSummary 2 0 2] /\
  length (ai_requests w) = 1 /\
  (_is_already_processed (Py.lit "s") (Py.lit "2024-05-01T08:00:00.000Z") w).2
    = Ok false /\
  (_is_already_processed (Py.lit "n1") (Py.lit "2024-05-01T08:00:00.000Z") w).2
    = Ok true.
Proof. vm_compute. repeat split. Qed.
End Examples.

(** * Further properties of the code *)

(** ** Inversion of the monad's combinators *)

Lemma bind_Ok_inv {A B} (m : M A) (k : A -> M B) w w' b :
  bind m k w = (w', Ok b) ->
  exists w1 a, m w = (w1, Ok a) /\ k a w1 = (w', Ok b).
Proof.
  unfold bind. destruct (m w) as [w1 [a|e|]]; [eauto|done..].
Qed.


(** ** The ledger in memory and on disk *)

(** What [_add_to_log] does, by the shape of the log in memory. *)
Lemma add_to_log_cases env page_id title rev status w :
  _add_to_log env page_id title rev status w =
    match processing_log w with
    | JObj m =>
        match m !! k_processed_pages with
        | Some (JObj e) =>
            (recorded env
               (JObj (<[ k_processed_pages :=
                           JObj (<[ page_id := log_entry_json env title rev status ]> e) ]>
                        m)) w,
             Ok tt)
        | Some _ => (w, Raise TypeError)
        | None => (w, Raise (KeyError k_processed_pages))
        end
    | _ => (w, Raise TypeError)
    end.
Proof.
  unfold _add_to_log, _save_log, recorded. mrun.
  destruct (processing_log w) as [| | | | |m]; try done. mrun.
  destruct (m !! k_processed_pages) as [[| | | | |e]|]; try done. mrun.
  by destruct (log_write env).
Qed.

Lemma add_to_log_ledger env page_id title rev status entries w :
  _add_to_log env page_id title rev status (with_ledger entries w) =
    (recorded env
       (ledger_log (<[ page_id := log_entry_fields env title rev status ]> entries))
       (with_ledger entries w),
     Ok tt).
Proof.
  rewrite add_to_log_cases. cbn [processing_log with_ledger set_processing_log
    ledger_log].
  rewrite lookup_singleton_eq. do 2 f_equal.
  unfold ledger_log. rewrite insert_singleton_eq, fmap_insert. done.
Qed.

Lemma recorded_with_ledger env entries w :
  recorded env (ledger_log entries) w =
  with_ledger entries
    (match log_write env with
     | WriteOk => set_log_file (fun _ => Parses (ledger_log entries))
     | OpenFails => set_stdout (fun out => out ++ [MsgLogSaveError])
     | DumpFails =>
         fun w => set_stdout (fun out => out ++ [MsgLogSaveError])
                    (set_log_file (fun _ => Unreadable) w)
     end w).
Proof. unfold recorded, with_ledger. by destruct (log_write env). Qed.

Lemma is_already_processed_recorded env pid title rev status e m w :
  processing_log w =
    JObj (<[ k_processed_pages :=
               JObj (<[ pid := log_entry_json env title rev status ]> e) ]> m) ->
  (_is_already_processed pid rev w).2 = Ok true.
Proof.
  intros Hlog. unfold _is_already_processed. mrun. rewrite Hlog. mrun.
  rewrite lookup_insert_eq. mrun. rewrite lookup_insert_eq.
  rewrite bool_decide_eq_true_2 by eauto. mrun.
  rewrite lookup_insert_ne by (by vm_compute).
  rewrite lookup_insert_ne by (by vm_compute).
  rewrite lookup_insert_eq. mrun. by rewrite bool_decide_eq_true_2.
Qed.

(** X1. Recording an outcome and then asking the ledger: on a ledger of
    entries [_add_to_log] never fails, afterwards the note counts as
    processed at exactly the revision that was recorded (whatever was stored
    for it before), and the answers for all other notes are as before. *)
Theorem ledger_record_then_lookup (env : Env) (entries : gmap str (gmap str JSON))
    (w : World) (page_id title rev status : str) :
  (_add_to_log env page_id title rev status (with_ledger entries w)).2 = Ok tt /\
  (forall rev',
     (_is_already_processed page_id rev'
        (_add_to_log env page_id title rev status (with_ledger entries w)).1).2 =
     Ok (bool_decide (rev' = rev))) /\
  (forall page_id' rev',
     page_id' <> page_id ->
     (_is_already_processed page_id' rev'
        (_add_to_log env page_id title rev status (with_ledger entries w)).1).2 =
     (_is_already_processed page_id' rev' (with_ledger entries w)).2).
Proof.
  rewrite add_to_log_ledger. cbn [fst snd]. rewrite recorded_with_ledger.
  split; [done|]. split.
  - intros rev'. rewrite is_already_processed_ledger. cbn [snd].
    rewrite lookup_insert_eq. unfold log_entry_fields.
    rewrite lookup_insert_ne by (by vm_compute).
    rewrite lookup_insert_ne by (by vm_compute).
    rewrite lookup_insert_eq. simpl. f_equal.
    apply bool_decide_ext. split; congruence.
  - intros page_id' rev' Hne. rewrite !is_already_processed_ledger. cbn [snd].
    by rewrite lookup_insert_ne.
Qed.

(** X2. The ledger is written through, and a failed write can cost the
    ledger on disk. When [_add_to_log] returns, the entry is in the log in
    memory whatever happened to the file. If the file was written, it holds
    the log that is in memory, so that a restart ([__init__]) reads back the
    same ledger. If the file could not be opened, it is left as it was. If
    it was opened and the dump failed, the file is left truncated: it no
    longer parses, and a restart begins with the empty ledger. Both failures
    are only reported on the console. *)
Theorem ledger_write_through (env : Env) (page_id title rev status : str) (w w' : World) :
  _add_to_log env page_id title rev status w = (w', Ok tt) ->
  (_is_already_processed page_id rev w').2 = Ok true /\
  match log_write env with
  | WriteOk =>
      log_file w' = Parses (processing_log w') /\
      processing_log (init w').1 = processing_log w' /\
      stdout w' = stdout w
  | OpenFails =>
      log_file w' = log_file w /\
      stdout w' = stdout w ++ [MsgLogSaveError]
  | DumpFails =>
      log_file w' = Unreadable /\
      processing_log (init w').1 = empty_log /\
      stdout w' = stdout w ++ [MsgLogSaveError]
  end.
Proof.
  rewrite add_to_log_cases.
  destruct (processing_log w) as [| | | | |m] eqn:Hlog; try done.
  destruct (m !! k_processed_pages) as [[| | | | |e]|] eqn:He; try done.
  intros [= <-]. split.
  - eapply is_already_processed_recorded. unfold recorded.
    destruct (log_write env); reflexivity.
  - unfold recorded, init, _load_log. destruct (log_write env); mrun; done.
Qed.

(** X3. A log file that is missing, or that cannot be opened or parsed, is
    no obstacle: [__init__] starts from the empty ledger, on which no note
    counts as processed and outcomes can be recorded. *)
Theorem unreadable_log_starts_empty (env : Env) (w : World) :
  log_file w = NoFile \/ log_file w = Unreadable ->
  init w = (with_ledger ∅ (set_all_pages_cache (fun _ => []) w), Ok tt) /\
  (forall page_id rev,
     (_is_already_processed page_id rev (init w).1).2 = Ok false) /\
  (forall page_id title rev status,
     (_add_to_log env page_id title rev status (init w).1).2 = Ok tt).
Proof.
  intros Hfile.
  assert (init w = (with_ledger ∅ (set_all_pages_cache (fun _ => []) w), Ok tt))
    as Hinit.
  { unfold init, _load_log. mrun.
    destruct Hfile as [-> | ->]; mrun; unfold with_ledger, ledger_log;
      by rewrite fmap_empty. }
  rewrite Hinit. cbn [fst]. split; [done|]. split.
  - intros page_id rev. rewrite is_already_processed_ledger. cbn [snd].
    by rewrite lookup_empty.
  - intros page_id title rev status. by rewrite add_to_log_ledger.
Qed.

(** ** Listing the database *)

Lemma query_all_raises env flt w :
  store_fails env OpQuery [] = true ->
  query_all env flt w = (w, Raise (APIError (Py.lit "query failed"))).
Proof.
  intros Hf. unfold query_all, bind, gets. cbn [query_loop].
  unfold bind, databases_query. by rewrite Hf.
Qed.

(** X4. The listing loop follows the cursors to the end: whatever the size
    of the store's response pages, [get_all_pages] returns every row of the
    database once, in the store's order, and keeps this list as the cache;
    the loop always terminates. *)
Theorem get_all_pages_complete (env : Env) (w : World) :
  store_fails env OpQuery [] = false ->
  get_all_pages env w = (set_all_pages_cache (fun _ => db w) w, Ok (db w)) /\
  all_pages_cache (get_all_pages env w).1 = db w /\
  forall flt, query_all env flt w = (w, Ok (filter (fun p => flt p = true) (db w))).
Proof.
  intros Hok. rewrite get_all_pages_ok by done.
  split; [done|]. split; [done|]. intros flt. by apply query_all_ok.
Qed.

(** X5. When the listing of the database fails, [run] fails with the
    store's error before any side effect: no note is touched and nothing is
    sent or recorded. The rows and the blocks of the store, the archive, the
    requests received by the backend, the cache, and the ledger in memory
    and on disk are as they were. *)
Theorem run_fails_fast `{U : Py.Unicode} (env : Env) (limit : option Z)
    (force_reprocess : bool) (w : World) :
  store_fails env OpQuery [] = true ->
  exists w',
    run env limit force_reprocess w =
      (w', Raise (APIError (Py.lit "query failed"))) /\
    db w' = db w /\ children w' = children w /\ repo w' = repo w /\
    ai_requests w' = ai_requests w /\
    all_pages_cache w' = all_pages_cache w /\
    processing_log w' = processing_log w /\ log_file w' = log_file w.
Proof.
  intros Hf. exists w. split; [|done].
  unfold run, candidate_pages, get_all_pages.
  erewrite bind_Raise; [reflexivity|].
  erewrite bind_Raise; [reflexivity|].
  erewrite bind_Raise; [reflexivity|].
  by apply query_all_raises.
Qed.

(** Whatever the ledger, the pages kept by the staleness filter are among
    the pages listed, in their order. *)
Lemma filter_unprocessed_sublist pages w w' kept :
  filter_unprocessed pages w = (w', Ok kept) ->
  w' = w /\ kept `sublist_of` pages.
Proof.
  revert w' kept. induction pages as [|p pages IH]; intros w' kept; simpl.
  - intros [= <- <-]. done.
  - intros H. apply bind_Ok_inv in H as (w1 & done & Hd & H).
    apply bind_Ok_inv in H as (w2 & rest & Hr & H).
    pose proof (is_already_processed_preserves (fun w => w) (page_id p)
                  (last_edited_time p) w) as Hw. rewrite Hd in Hw. simpl in Hw.
    subst w1. apply IH in Hr as [-> Hsub].
    unfold ret in H. injection H as <- <-. split; [done|].
    destruct done; by constructor.
Qed.

(** ** Writing to the archive and to the store *)

Lemma save_to_github_cases env filename content message w :
  save_to_github env filename content message w =
    (if repo_rejects env filename
     then (set_stdout (fun out =>
             out ++ [MsgGithubError (APIError (Py.lit "create refused"))]) w,
           Raise (APIError (Py.lit "create refused")))
     else (set_repo (<[ filename := content ]>) w, Ok tt)).
Proof.
  unfold save_to_github, repo_get_contents, repo_update_file, repo_create_file.
  mrun. destruct (repo w !! filename) eqn:Hf; mrun;
    destruct (repo_rejects env filename); mrun; rewrite ?Hf; done.
Qed.

(** X6. [save_to_github] is an upsert. When the archive accepts the write,
    the file holds the new content afterwards whether or not it existed
    before, every other file is untouched, and a second write replaces the
    first. When the archive refuses, the repository is unchanged, the error
    is printed and raised again. *)
Theorem save_to_github_upsert (env : Env) (filename content message : str)
    (w : World) :
  save_to_github env filename content message w =
    (if repo_rejects env filename
     then (set_stdout (fun out =>
             out ++ [MsgGithubError (APIError (Py.lit "create refused"))]) w,
           Raise (APIError (Py.lit "create refused")))
     else (set_repo (<[ filename := content ]>) w, Ok tt)) /\
  (repo_rejects env filename = false ->
   repo (save_to_github env filename content message w).1 !! filename =
     Some content /\
   (forall other, other <> filename ->
      repo (save_to_github env filename content message w).1 !! other =
      repo w !! other) /\
   (forall content' message',
      repo (save_to_github env filename content' message'
              (save_to_github env filename content message w).1).1 =
      <[ filename := content' ]> (repo w))).
Proof.
  pose proof (save_to_github_cases env filename) as Hsave.
  split; [apply Hsave|]. intros Hok. rewrite !Hsave, Hok. cbn [fst repo set_repo].
  split; [apply lookup_insert_eq|]. split.
  - intros other Hne. by rewrite lookup_insert_ne.
  - intros c' m'. rewrite Hsave, Hok. cbn [fst repo set_repo].
    apply insert_insert_eq.
Qed.

Lemma find_page_map (f : Page -> Page) pid rows :
  (forall p, page_id (f p) = page_id p) ->
  find_page pid (map f rows) = f <$> find_page pid rows.
Proof.
  intros Hf. unfold find_page.
  induction rows as [|p rows IH]; [done|].
  cbn [map]. rewrite !filter_cons, Hf.
  destruct (decide (page_id p = pid)); [done|apply IH].
Qed.

Lemma marked_rows_processed pid title names rows p :
  p ∈ marked_rows pid title names rows ->
  page_id p = pid ->
  unprocessed_filter p = false.
Proof.
  unfold marked_rows. intros Hin Hid.
  apply list_elem_of_fmap in Hin as (q & -> & _).
  case_bool_decide as Hq; [done|]. by destruct Hq.
Qed.

Lemma find_page_marked pid title names rows :
  find_page pid (marked_rows pid title names rows) =
  mark_processed title names <$> find_page pid rows.
Proof.
  unfold marked_rows. rewrite find_page_map.
  - unfold find_page. destruct (filter _ rows) as [|p l] eqn:Hf; [done|].
    assert (p ∈ filter (fun p => page_id p = pid) rows) as Hp
      by (rewrite Hf; by left).
    apply list_elem_of_filter in Hp as [Hp _]. simpl.
    by rewrite bool_decide_eq_true_2.
  - intros p. by case_bool_decide.
Qed.

(** What a call of [update_notion_page] that returns has done. *)
Lemma update_notion_page_Ok env pid title tags related w w' :
  update_notion_page env pid title tags related w = (w', Ok tt) ->
  exists t names,
    title = JStr t /\ Json.iter_strs tags = Ok names /\
    db w' = marked_rows pid t names (db w) /\
    processing_log w' = processing_log w /\ log_file w' = log_file w /\
    repo w' = repo w /\ stdout w' = stdout w /\
    all_pages_cache w' = all_pages_cache w.
Proof.
  unfold update_notion_page, pages_update, blocks_children_list,
    blocks_children_append. mrun.
  destruct (Json.iter_strs tags) as [names|e|]; mrun; [|done..].
  destruct (store_fails env OpUpdate pid); mrun; [done|].
  destruct (find_page pid (db w)) as [p|] eqn:Hp; mrun; [|done].
  destruct title as [| | |t| |]; mrun; try done.
  destruct related as [|rp related]; mrun.
  { intros [= <-]. by exists t, names. }
  destruct (store_fails env OpListBlocks pid); mrun; [done|].
  match goal with |- context [find_page ?i ?d] => destruct (find_page i d) end;
    mrun; [|done].
  destruct (has_related_section _); mrun.
  { intros [= <-]. by exists t, names. }
  destruct (store_fails env OpAppend pid); mrun; [done|].
  intros [= <-]. by exists t, names.
Qed.

Lemma update_notion_page_Ok_blocks env pid title tags related w w' :
  update_notion_page env pid title tags related w = (w', Ok tt) ->
  page_blocks w' pid =
    page_blocks w pid ++ appended_blocks env (page_blocks w pid) related /\
  ai_requests w' = ai_requests w.
Proof.
  unfold update_notion_page, pages_update, blocks_children_list,
    blocks_children_append, appended_blocks. mrun.
  destruct (Json.iter_strs tags) as [names|e|]; mrun; [|done..].
  destruct (store_fails env OpUpdate pid); mrun; [done|].
  destruct (find_page pid (db w)) as [p|] eqn:Hp; mrun; [|done].
  destruct title as [| | |t| |]; mrun; try done.
  destruct related as [|rp related]; mrun.
  { intros [= <-]. by rewrite app_nil_r. }
  destruct (store_fails env OpListBlocks pid); mrun; [done|].
  match goal with |- context [find_page ?i ?d] => destruct (find_page i d) end;
    mrun; [|done].
  fold (page_blocks w pid).
  destruct (has_related_section _); mrun.
  { intros [= <-]. by rewrite app_nil_r. }
  destruct (store_fails env OpAppend pid); mrun; [done|].
  intros [= <-]. unfold page_blocks. cbn. by rewrite lookup_insert_eq.
Qed.

(** X7. The two writes of [update_notion_page] are not one transaction: when
    the store accepts the property update and then refuses the appended
    blocks, the call raises, the blocks are as before, and the note is
    already marked as processed in the store, so that the store's filter no
    longer lists it. *)
Theorem update_notion_page_partial_failure (env : Env) (pid t : str)
    (tags : JSON) (names : list str) (related : list Related) (w : World) :
  store_fails env OpUpdate pid = false ->
  store_fails env OpListBlocks pid = false ->
  store_fails env OpAppend pid = true ->
  is_Some (find_page pid (db w)) ->
  Json.iter_strs tags = Ok names ->
  related <> [] ->
  has_related_section (page_blocks w pid) = false ->
  exists w' e,
    update_notion_page env pid (JStr t) tags related w = (w', Raise e) /\
    children w' = children w /\
    db w' = marked_rows pid t names (db w) /\
    stdout w' = stdout w ++ [MsgNotionUpdateError e] /\
    forall p, p ∈ db w' -> page_id p = pid ->
              unprocessed_filter p = false.
Proof.
  intros Hup Hlist Happ [p Hp] Htags Hrel Hsec.
  destruct related as [|rp related]; [done|].
  unfold update_notion_page, pages_update, blocks_children_list,
    blocks_children_append. mrun.
  rewrite Htags, Hup. mrun. rewrite Hp, Hlist. mrun.
  fold (marked_rows pid t names (db w)).
  rewrite find_page_marked, Hp. mrun.
  fold (page_blocks w pid). rewrite Hsec, Happ. mrun.
  eexists _, _. split; [reflexivity|]. cbn. repeat split.
  intros q Hq Hid. by eapply marked_rows_processed.
Qed.

(** ** Enrichment *)

Lemma usable_fields m :
  usable m = true ->
  exists title tags names keywords,
    m !! k_title = Some title /\ m !! k_tags = Some tags /\
    Json.iter_strs tags = Ok names /\
    Json.iter_strs (default (JList []) (m !! k_keywords)) = Ok keywords.
Proof.
  unfold usable. intros Hu.
  destruct (m !! k_title) as [title|]; [|done].
  destruct (m !! k_tags) as [tags|]; [|done].
  destruct (Json.iter_strs tags) as [names| |] eqn:Hn; [|done..].
  destruct (Json.iter_strs (default (JList []) (m !! k_keywords)))
    as [keywords| |] eqn:Hk; [|done..].
  by exists title, tags, names, keywords.
Qed.

(** X8. [analyze_with_ai] never raises, whatever the backend does, and what
    it returns can always be used by [process_page]: a dictionary that has a
    ["title"] and a ["tags"] entry, whose tags are a sequence of strings,
    and whose keywords (none, when the entry is missing) are one too. Each
    call sends one request, with the first 3000 characters of the text. *)
Theorem analyze_with_ai_result_usable (env : Env) (content : str)
    (existing_tags : option (list str)) (w : World) :
  exists w' m title tags names keywords,
    analyze_with_ai env content existing_tags w = (w', Ok (JObj m)) /\
    m !! Py.lit "title" = Some title /\
    m !! Py.lit "tags" = Some tags /\
    Json.iter_strs tags = Ok names /\
    Json.iter_strs (default (JList []) (m !! Py.lit "keywords")) = Ok keywords /\
    ai_requests w' =
      ai_requests w ++ [(take 3000 content, existing_tags_str existing_tags)].
Proof.
  destruct (analyze_with_ai_cases env content existing_tags w)
    as [(m & _ & Hu & Hrun) | (_ & e & Hrun)].
  - destruct (usable_fields m Hu) as (title & tags & names & kws & ? & ? & ? & ?).
    eexists _, m, title, tags, names, kws. split; [exact Hrun|]. done.
  - destruct (fallback_analysis_usable content existing_tags) as (m & Hm & Hu).
    destruct (usable_fields m Hu) as (title & tags & names & kws & ? & ? & ? & ?).
    eexists _, m, title, tags, names, kws. rewrite <- Hm.
    split; [exact Hrun|]. done.
Qed.


(** ** Which notes a later run takes up again *)

Lemma is_already_processed_log w1 w2 pid rev :
  processing_log w1 = processing_log w2 ->
  (_is_already_processed pid rev w1).2 = (_is_already_processed pid rev w2).2.
Proof.
  intros Hlog. unfold _is_already_processed. mrun. rewrite Hlog.
  repeat match goal with
         | |- context [match ?x with _ => _ end] => destruct x; mrun
         end; done.
Qed.

(** After [_add_to_log] returned, the note counts as processed at the
    recorded revision, and only the ledger and the console have changed. *)
Lemma add_to_log_Ok env pid title rev status w w' :
  _add_to_log env pid title rev status w = (w', Ok tt) ->
  (_is_already_processed pid rev w').2 = Ok true /\
  db w' = db w /\ repo w' = repo w /\ children w' = children w /\
  (stdout w' = stdout w \/ stdout w' = stdout w ++ [MsgLogSaveError]).
Proof.
  rewrite add_to_log_cases.
  destruct (processing_log w) as [| | | | |m]; try done.
  destruct (m !! k_processed_pages) as [[| | | | |e]|]; try done.
  intros [= <-]. split.
  - eapply is_already_processed_recorded. unfold recorded.
    destruct (log_write env); reflexivity.
  - unfold recorded. destruct (log_write env); cbn; auto.
Qed.


Lemma candidate_pages_listed env w w' pages :
  candidate_pages env false w = (w', Ok pages) ->
  forall p, p ∈ pages ->
    p ∈ db w /\ unprocessed_filter p = true.
Proof.
  unfold candidate_pages. intros H.
  apply bind_Ok_inv in H as (w1 & all & Hall & H). cbn in H.
  destruct (store_fails env OpQuery []) eqn:Hq.
  { unfold get_all_pages in Hall.
    erewrite bind_Raise in Hall; [done|]. by apply query_all_raises. }
  rewrite get_all_pages_ok in Hall by done. injection Hall as <- <-.
  unfold get_unprocessed_pages in H.
  rewrite (bind_Ok _ _ _ _ _ (query_all_ok env _ _ Hq)) in H.
  apply filter_unprocessed_sublist in H as [_ Hsub].
  intros p Hp. eapply sublist_subseteq in Hp; [|exact Hsub].
  apply list_elem_of_filter in Hp as [Hf Hp]. done.
Qed.

Section RetryPolicy.
Context {U : Py.Unicode} (env : Env).

Lemma pages_retrieve_Ok_inv pid w w' page :
  pages_retrieve env pid w = (w', Ok page) ->
  w' = w /\ find_page pid (db w) = Some page.
Proof.
  unfold pages_retrieve. destruct (store_fails env OpRetrieve pid); mrun; [done|].
  destruct (find_page pid (db w)); mrun; [|done]. by intros [= <- <-].
Qed.

Lemma get_page_content_Ok_inv pid w w' content :
  get_page_content env pid w = (w', Ok content) -> w' = w.
Proof.
  unfold get_page_content, blocks_children_list.
  destruct (store_fails env OpListBlocks pid); mrun; [done|].
  destruct (find_page pid (db w)); mrun; [|done]. by intros [= <- _].
Qed.

Lemma process_page_Ok_inv (pid : str) (w w' : World) :
  process_page env pid w = (w', Ok tt) ->
  w' = set_stdout (fun out => out ++ [MsgSkipTooShort]) w \/
  exists page title names content tags related markdown,
    find_page pid (db w) = Some page /\
    db w' = marked_rows pid title names (db w) /\
    (forall p, p ∈ db w' -> page_id p = pid ->
       prop_Status p = Some status_processed /\ prop_AI p = true) /\
    convert_to_markdown page content tags related = Ok markdown /\
    repo w' = <[ archive_filename page title := markdown ]> (repo w) /\
    (_is_already_processed pid (last_edited_time page) w').2 = Ok true /\
    last (stdout w') = Some (MsgDone title).
Proof.
  unfold process_page. intros H.
  apply bind_Ok_inv in H as (w1 & page & Hpage & H).
  apply pages_retrieve_Ok_inv in Hpage as [-> Hpage].
  apply bind_Ok_inv in H as (w1 & content & Hcontent & H).
  apply get_page_content_Ok_inv in Hcontent as ->.
  destruct (length content <? 20).
  { left. unfold print, modify in H. by injection H as <-. }
  right.
  apply bind_Ok_inv in H as (w1 & analysis & Han & H).
  destruct (analyze_with_ai_returns env content (Some (_get_page_tags page)) w)
    as (out & j & Hj & _).
  rewrite Hj in Han. injection Han as <- <-.
  apply bind_Ok_inv in H as (w2 & kws & Hk & H).
  unfold lift in Hk. injection Hk as <- Hk.
  apply bind_Ok_inv in H as (w2 & keywords & Hk2 & H).
  unfold lift in Hk2. injection Hk2 as <- Hk2.
  apply bind_Ok_inv in H as (w2 & cache & Hc & H).
  unfold gets in Hc. injection Hc as <- Hc.
  apply bind_Ok_inv in H as (w2 & title & Ht & H).
  unfold lift in Ht. injection Ht as <- Ht.
  apply bind_Ok_inv in H as (w2 & tags & Hg & H).
  unfold lift in Hg. injection Hg as <- Hg.
  apply bind_Ok_inv in H as (w2 & [] & Hup & H).
  apply update_notion_page_Ok in Hup
    as (t & names & -> & Hnames & Hdb & Hlog & Hfile & Hrepo & Hout & Hcache).
  apply bind_Ok_inv in H as (w3 & markdown & Hmd & H).
  unfold lift in Hmd. injection Hmd as <- Hmd.
  apply bind_Ok_inv in H as (w3 & [] & Hsave & H).
  rewrite save_to_github_cases in Hsave.
  destruct (repo_rejects env _); [done|]. injection Hsave as <-.
  apply bind_Ok_inv in H as (w4 & [] & Hadd & H).
  apply add_to_log_Ok in Hadd as (Hproc & Hdb4 & Hrepo4 & _ & _).
  unfold print, modify in H. injection H as <-.
  eexists page, t, names, content, tags, _, markdown.
  split; [done|]. cbn [db repo stdout set_stdout set_repo] in *.
  split; [by rewrite Hdb4, Hdb|]. split.
  { rewrite Hdb4, Hdb. unfold marked_rows. intros p Hp Hid.
    apply list_elem_of_fmap in Hp as (q & -> & _).
    case_bool_decide as Hq; [done|]. by destruct Hq. }
  split; [exact Hmd|]. split; [by rewrite Hrepo4, Hrepo|]. split.
  - rewrite <- Hproc. by apply is_already_processed_log.
  - by rewrite last_snoc.
Qed.

(** What a call of [process_page] that returned has done, step by step. *)
Lemma process_page_Ok_trace (pid : str) (w w' : World) :
  process_page env pid w = (w', Ok tt) ->
  exists page,
    store_fails env OpRetrieve pid = false /\
    store_fails env OpListBlocks pid = false /\
    find_page pid (db w) = Some page /\
    (length (note_body w pid) < 20 /\
     w' = set_stdout (fun out => out ++ [MsgSkipTooShort]) w \/
     20 <= length (note_body w pid) /\
     exists w1 analysis title tags names kws keywords markdown,
       analyze_with_ai env (note_body w pid) (Some (_get_page_tags page)) w =
         (w1, Ok analysis) /\
       Json.getitem analysis k_title = Ok (JStr title) /\
       Json.getitem analysis k_tags = Ok tags /\
       Json.iter_strs tags = Ok names /\
       Json.get_default analysis k_keywords (JList []) = Ok kws /\
       Json.iter_strs kws = Ok keywords /\
       convert_to_markdown page (note_body w pid) tags
         (find_related_pages (all_pages_cache w) keywords pid 5) = Ok markdown /\
       db w' = marked_rows pid title names (db w) /\
       page_blocks w' pid =
         page_blocks w pid ++
         appended_blocks env (page_blocks w pid)
           (find_related_pages (all_pages_cache w) keywords pid 5) /\
       repo w' = <[ archive_filename page title := markdown ]> (repo w) /\
       ai_requests w' = ai_requests w1 /\
       (_is_already_processed pid (last_edited_time page) w').2 = Ok true /\
       exists out, stdout w' = stdout w1 ++ out ++ [MsgDone title] /\
                   (out = [] \/ out = [MsgLogSaveError])).
Proof.
  unfold process_page. intros H.
  apply bind_Ok_inv in H as (w1 & page & Hpage & H).
  assert (store_fails env OpRetrieve pid = false) as Hret.
  { unfold pages_retrieve in Hpage.
    destruct (store_fails env OpRetrieve pid); [done|done]. }
  apply pages_retrieve_Ok_inv in Hpage as [-> Hpage].
  apply bind_Ok_inv in H as (w1 & content & Hcontent & H).
  assert (store_fails env OpListBlocks pid = false) as Hlist.
  { unfold get_page_content, blocks_children_list in Hcontent.
    destruct (store_fails env OpListBlocks pid); [done|done]. }
  rewrite (get_page_content_ok env pid page w Hlist Hpage) in Hcontent.
  injection Hcontent as <- <-. fold (note_body w pid) in H.
  exists page. do 3 (split; [done|]).
  destruct (length (note_body w pid) <? 20) eqn:Hlen.
  { left. apply Nat.ltb_lt in Hlen. split; [done|].
    unfold print, modify in H. by injection H as <-. }
  right. apply Nat.ltb_ge in Hlen. split; [done|].
  apply bind_Ok_inv in H as (w1 & analysis & Han & H).
  assert (all_pages_cache w1 = all_pages_cache w /\ db w1 = db w /\
          children w1 = children w /\ repo w1 = repo w) as (Hc1 & Hd1 & Hch1 & Hr1).
  { destruct (analyze_with_ai_returns env (note_body w pid)
                (Some (_get_page_tags page)) w) as (out & j & Hj & _).
    rewrite Hj in Han. by injection Han as <- <-. }
  apply bind_Ok_inv in H as (w2 & kws & Hk & H).
  unfold lift in Hk. injection Hk as <- Hk.
  apply bind_Ok_inv in H as (w2 & keywords & Hk2 & H).
  unfold lift in Hk2. injection Hk2 as <- Hk2.
  apply bind_Ok_inv in H as (w2 & cache & Hc & H).
  unfold gets in Hc. injection Hc as <- Hc. subst cache. rewrite Hc1 in H.
  apply bind_Ok_inv in H as (w2 & title & Ht & H).
  unfold lift in Ht. injection Ht as <- Ht.
  apply bind_Ok_inv in H as (w2 & tags & Hg & H).
  unfold lift in Hg. injection Hg as <- Hg.
  apply bind_Ok_inv in H as (w2 & [] & Hup & H).
  pose proof (update_notion_page_Ok_blocks _ _ _ _ _ _ _ Hup) as [Hblocks Hai].
  apply update_notion_page_Ok in Hup
    as (t & names & -> & Hnames & Hdb & Hlog & Hfile & Hrepo & Hout & Hcache).
  apply bind_Ok_inv in H as (w3 & markdown & Hmd & H).
  unfold lift in Hmd. injection Hmd as <- Hmd.
  apply bind_Ok_inv in H as (w3 & [] & Hsave & H).
  rewrite save_to_github_cases in Hsave.
  destruct (repo_rejects env _); [done|]. injection Hsave as <-.
  apply bind_Ok_inv in H as (w4 & [] & Hadd & H).
  pose proof (add_to_log_preserves_ai env pid t (last_edited_time page)
                (Py.lit "success") (set_repo (<[archive_filename page t:=markdown]>) w2))
    as Hai4.
  rewrite Hadd in Hai4. cbn in Hai4.
  apply add_to_log_Ok in Hadd as (Hproc & Hdb4 & Hrepo4 & Hch4 & Hout4).
  unfold print, modify in H. injection H as <-.
  exists w1, analysis, t, tags, names, kws, keywords, markdown.
  cbn [db repo stdout ai_requests set_stdout set_repo] in *.
  do 7 (split; [done|]).
  split; [by rewrite Hdb4, Hdb, Hd1|].
  split.
  { unfold page_blocks in *. cbn. rewrite Hch4. cbn. rewrite Hblocks.
    by rewrite Hch1. }
  split; [by rewrite Hrepo4, Hrepo, Hr1|].
  split; [by rewrite Hai4, Hai|].
  split; [rewrite <- Hproc; by apply is_already_processed_log|].
  destruct Hout4 as [Ho | Ho]; rewrite Ho; cbn; rewrite Hout.
  - exists []. split; [done|by left].
  - exists [MsgLogSaveError]. split; [by rewrite <- app_assoc|by right].
Qed.

(** X11. A completed note is not taken up again. After [process_page]
    completed a note, no run without forced reprocessing has it among its
    candidates, and no later edit brings it back as long as the edit leaves
    the note's status and processed-flag alone; a changed revision in
    particular does not. *)
Theorem completed_note_not_retried (pid : str) (w w' : World)
    (edit : Page -> Page) :
  process_page env pid w = (w', Ok tt) ->
  last (stdout w') <> Some MsgSkipTooShort ->
  (forall p, page_id (edit p) = page_id p /\
             prop_Status (edit p) = prop_Status p /\
             prop_AI (edit p) = prop_AI p) ->
  forall w'' pages,
    candidate_pages env false (set_db (map edit) w') = (w'', Ok pages) ->
    forall p, p ∈ pages -> page_id p <> pid.
Proof.
  intros Hrun Hlast Hedit w'' pages Hcand p Hp Hid.
  apply process_page_Ok_inv in Hrun
    as [-> | (page & title & names & _ & _ & _ & _ & _ & _ & Hmarked & _)].
  { cbn in Hlast. by rewrite last_snoc in Hlast. }
  eapply candidate_pages_listed in Hp as [Hin Hfilter]; [|exact Hcand].
  cbn in Hin. apply list_elem_of_fmap in Hin as (q & -> & Hq).
  destruct (Hedit q) as (Hi & Hs & Ha). rewrite Hi in Hid.
  destruct (Hmarked q Hq Hid) as [Hst Hai].
  unfold unprocessed_filter in Hfilter. rewrite Hs, Ha, Hst, Hai in Hfilter.
  by vm_compute in Hfilter.
Qed.

End RetryPolicy.

(** ** The ledger during an attempt *)

Lemma keeps_preserves {A F} (f : World -> F) (m : M A) :
  preserves f m -> keeps_on_failure f m.
Proof. intros Hm w _. apply Hm. Qed.

Lemma keeps_returns {A F} (f : World -> F) (m : M A) :
  (forall w, exists a, (m w).2 = Ok a) -> keeps_on_failure f m.
Proof. intros Hm w Hfail. destruct (Hm w) as [a Ha]. by destruct (Hfail a). Qed.

Lemma keeps_bind {A B F} (f : World -> F) (m : M A) (k : A -> M B) :
  preserves f m -> (forall a, keeps_on_failure f (k a)) ->
  keeps_on_failure f (bind m k).
Proof.
  intros Hm Hk w. unfold bind. specialize (Hm w).
  destruct (m w) as [w1 [a|e|]]; cbn in *; intros Hfail; [|done..].
  rewrite <- Hm. by apply Hk.
Qed.

Lemma keeps_add_to_log_then_print env pid title rev status msg :
  keeps_on_failure ledger_state
    (bind (_add_to_log env pid title rev status) (fun _ => print msg)).
Proof.
  intros w. unfold bind. rewrite add_to_log_cases.
  destruct (processing_log w) as [| | | | |m]; try done.
  destruct (m !! k_processed_pages) as [[| | | | |e]|]; try done.
  cbn. intros Hfail. by destruct (Hfail tt).
Qed.

Ltac keeps_step :=
  lazymatch goal with
  | |- keeps_on_failure _ (bind (_add_to_log _ _ _ _ _) _) =>
      apply keeps_add_to_log_then_print
  | |- keeps_on_failure _ (bind _ _) => apply keeps_bind; [|intros ?]
  | |- keeps_on_failure _ (print _) =>
      apply keeps_returns; intros ?; by eexists
  | |- keeps_on_failure _ (raise _) => apply keeps_preserves, preserves_raise
  | |- keeps_on_failure _ (if ?b then _ else _) => destruct b
  | |- keeps_on_failure _ (match ?x with _ => _ end) => destruct x
  | |- preserves _ _ => preserves_tac
  end.

Section Attempt.
Context {U : Py.Unicode} (env : Env).

Lemma process_page_keeps_ledger pid :
  keeps_on_failure ledger_state (process_page env pid).
Proof.
  unfold process_page, pages_retrieve, get_page_content, analyze_with_ai,
    chat_completions_create, json_loads, update_notion_page, pages_update,
    blocks_children_list, blocks_children_append, save_to_github,
    repo_get_contents, repo_update_file, repo_create_file.
  repeat keeps_step.
Qed.

(** X13. The ledger is written last. An attempt on a note that does not
    return (whatever raised, in the store, the archive or the code) has left
    the ledger as it was, in memory and on disk; only the handler of [run]
    then records the failure. *)
Theorem failed_attempt_leaves_ledger (pid : str) (w : World) (e : Exn) :
  (process_page env pid w).2 = Raise e ->
  processing_log (process_page env pid w).1 = processing_log w /\
  log_file (process_page env pid w).1 = log_file w.
Proof.
  intros Hfail.
  assert (ledger_state (process_page env pid w).1 = ledger_state w) as H.
  { apply process_page_keeps_ledger. intros a. by rewrite Hfail. }
  unfold ledger_state in H. by injection H.
Qed.

(** X14. A note that is skipped as too short leaves no trace besides the
    line on the console, so the next run has exactly the same candidates,
    the skipped note among them if it was one. *)
Theorem skipped_note_stays_candidate (pid : str) (page : Page)
    (entries : gmap str (gmap str JSON)) (w : World) (force_reprocess : bool) :
  store_fails env OpQuery [] = false ->
  store_fails env OpRetrieve pid = false ->
  store_fails env OpListBlocks pid = false ->
  find_page pid (db w) = Some page ->
  length (Py.join nl (omap render_block (page_blocks w pid))) < 20 ->
  (process_page env pid (with_ledger entries w)).2 = Ok tt /\
  (candidate_pages env force_reprocess
     (process_page env pid (with_ledger entries w)).1).2 =
  (candidate_pages env force_reprocess (with_ledger entries w)).2.
Proof.
  intros Hq Hret Hlist Hpage Hshort.
  rewrite (process_page_skips env pid page (with_ledger entries w));
    [|done..].
  split; [done|]. cbn [fst].
  change (set_stdout (fun out => out ++ [MsgSkipTooShort]) (with_ledger entries w))
    with (with_ledger entries (set_stdout (fun out => out ++ [MsgSkipTooShort]) w)).
  destruct (candidate_pages_ledger env entries w force_reprocess Hq) as [w1 ->].
  destruct (candidate_pages_ledger env entries
              (set_stdout (fun out => out ++ [MsgSkipTooShort]) w)
              force_reprocess Hq) as [w2 ->].
  done.
Qed.

(** X15. A note without text is never processed: when none of its blocks
    renders to text (no blocks at all, blocks without text, dividers or
    kinds the code does not know), [process_page] skips it. *)
Theorem textless_note_is_skipped (pid : str) (page : Page) (w : World) :
  store_fails env OpRetrieve pid = false ->
  store_fails env OpListBlocks pid = false ->
  find_page pid (db w) = Some page ->
  (forall b, b ∈ page_blocks w pid ->
     _extract_text b = [] \/ block_type b = divider \/ block_type b = other_block) ->
  process_page env pid w =
    (set_stdout (fun out => out ++ [MsgSkipTooShort]) w, Ok tt).
Proof.
  intros Hret Hlist Hpage Hblocks.
  apply (process_page_skips env pid page w); [done..|].
  replace (omap render_block (page_blocks w pid)) with (@nil str); [cbn; lia|].
  symmetry. induction (page_blocks w pid) as [|b l IH]; [done|].
  cbn [omap list_omap].
  assert (render_block b = None) as ->.
  { destruct (Hblocks b) as [Ht | [Hd | Hd]]; [by left| | |];
      unfold render_block; [rewrite Ht|rewrite Hd..]; by destruct (block_type b). }
  apply IH. intros b' Hb'. apply Hblocks. by right.
Qed.
End Attempt.

(** ** Completion of the batch *)

Lemma safe_preserves {A} (m : M A) :
  preserves processing_log m -> (forall w, (m w).2 <> Diverge) -> safe m.
Proof.
  intros Hm Hd w [entries Hw]. split; [|apply Hd].
  exists entries. by rewrite Hm.
Qed.

Lemma safe_bind {A B} (m : M A) (k : A -> M B) :
  safe m -> (forall a, safe (k a)) -> safe (bind m k).
Proof.
  intros Hm Hk w Hw. unfold bind. destruct (Hm w Hw) as [Hw1 Hd].
  destruct (m w) as [w1 [a|e|]]; cbn in *; [by apply Hk|done..].
Qed.

Lemma safe_try_except {A} (m : M A) h :
  safe m -> (forall e, safe (h e)) -> safe (try_except m h).
Proof.
  intros Hm Hh w Hw. unfold try_except. destruct (Hm w Hw) as [Hw1 Hd].
  destruct (m w) as [w1 [a|e|]]; cbn in *; [done|by apply Hh|done].
Qed.

Lemma safe_lift {A} (r : result A) : r <> Diverge -> safe (lift r).
Proof. intros Hr. apply safe_preserves; [apply preserves_lift|done]. Qed.

Lemma safe_add_to_log env pid title rev status :
  safe (_add_to_log env pid title rev status).
Proof.
  intros w [entries Hw].
  assert (w = with_ledger entries w) as ->.
  { destruct w. cbn in Hw. subst. reflexivity. }
  rewrite add_to_log_ledger, recorded_with_ledger. split; [|done].
  eexists. reflexivity.
Qed.

Lemma getitem_returns j k : Json.getitem j k <> Diverge.
Proof. destruct j; cbn; try done. by destruct (m !! k). Qed.

Lemma get_default_returns j k d : Json.get_default j k d <> Diverge.
Proof. by destruct j. Qed.

Lemma iter_strs_returns j : Json.iter_strs j <> Diverge.
Proof. destruct (iter_strs_cases j) as [[ss ->] | ->]; done. Qed.

Lemma convert_to_markdown_returns page content tags related :
  convert_to_markdown page content tags related <> Diverge.
Proof.
  unfold convert_to_markdown.
  destruct (iter_strs_cases tags) as [[ss ->] | ->]; done.
Qed.

Ltac safe_step :=
  lazymatch goal with
  | |- safe (bind _ _) => apply safe_bind; [|intros ?]
  | |- safe (try_except _ _) => apply safe_try_except; [|intros ?]
  | |- safe (_add_to_log _ _ _ _ _) => apply safe_add_to_log
  | |- safe (lift _) =>
      apply safe_lift;
      auto using getitem_returns, get_default_returns, iter_strs_returns,
        convert_to_markdown_returns
  | |- safe (if ?b then _ else _) => destruct b
  | |- safe (match ?x with _ => _ end) => destruct x
  | |- safe _ => apply safe_preserves; [preserves_tac|done]
  end.

Section Completion.
Context {U : Py.Unicode} (env : Env).

Lemma process_page_safe pid : safe (process_page env pid).
Proof.
  unfold process_page, pages_retrieve, get_page_content, analyze_with_ai,
    chat_completions_create, json_loads, update_notion_page, pages_update,
    blocks_children_list, blocks_children_append, save_to_github,
    repo_get_contents, repo_update_file, repo_create_file.
  repeat safe_step.
Qed.

(** On a ledger of entries the loop attempts every note and returns:
    neither a failing note nor its bookkeeping stops the batch. *)
Lemma process_pages_returns pages :
  forall success_count error_count w,
    has_ledger w ->
    exists w' success_count' error_count',
      process_pages env pages success_count error_count w =
        (w', Ok (success_count', error_count')) /\
      has_ledger w' /\
      success_count' + error_count' = success_count + error_count + length pages.
Proof.
  induction pages as [|page pages IH]; intros s e w Hw.
  - exists w, s, e. cbn. repeat split; [done|lia].
  - cbn [process_pages]. unfold bind at 1, try_except, bind at 1.
    destruct (process_page_safe (page_id page) w Hw) as [Hw1 Hd].
    destruct (process_page env (page_id page) w) as [w1 [[]|err|]];
      cbn in *; [| |done].
    + destruct (IH (S s) e w1 Hw1) as (w' & s' & e' & -> & Hw' & Hlen).
      exists w', s', e'. repeat split; [done|lia].
    + unfold bind at 1.
      match goal with
      | |- context [_add_to_log env ?a ?b ?c ?d ?w0] =>
          destruct (safe_add_to_log env a b c d w0) as [Hw2 _];
          [destruct Hw1 as [en He]; by exists en|];
          pose proof (add_to_log_cases env a b c d w0) as Hcases;
          destruct (_add_to_log env a b c d w0) as [w2 [[]|err2|]] eqn:Hadd
      end; cbn in *.
      * destruct (IH s (S e) w2 Hw2) as (w' & s' & e' & -> & Hw' & Hlen).
        exists w', s', e'. repeat split; [done|lia].
      * destruct Hw1 as [en He]. rewrite He in Hcases. cbn in Hcases.
        rewrite lookup_singleton_eq in Hcases. done.
      * destruct Hw1 as [en He]. rewrite He in Hcases. cbn in Hcases.
        rewrite lookup_singleton_eq in Hcases. done.
Qed.

End Completion.

(** ** The batch, note by note *)

Lemma preserves_skip_lines_print msg :
  is_skipped msg = false ->
  preserves (fun w => count is_skipped (stdout w)) (print msg).
Proof.
  intros Hmsg w. unfold print, modify. cbn [fst stdout set_stdout].
  rewrite count_app, count_cons, Hmsg. unfold count. cbn. lia.
Qed.

Ltac quiet_tac :=
  preserves_tac;
  try (apply preserves_skip_lines_print; reflexivity).

Lemma find_page_Some pid rows p :
  find_page pid rows = Some p -> page_id p = pid /\ p ∈ rows.
Proof.
  unfold find_page. intros H. apply head_Some_elem_of in H.
  apply list_elem_of_filter in H as [? ?]. done.
Qed.

Lemma find_page_marked_other q pid title names rows :
  q <> pid ->
  find_page q (map (fun p => if bool_decide (page_id p = pid)
                             then mark_processed title names p else p) rows) =
  find_page q rows.
Proof.
  intros Hne. rewrite find_page_map.
  - destruct (find_page q rows) as [r|] eqn:Hr; [|done]. cbn.
    apply find_page_Some in Hr as [Hr _].
    rewrite bool_decide_eq_false_2; [done|]. congruence.
  - intros p. by case_bool_decide.
Qed.

Lemma add_to_log_other env pid title rev status q rev' :
  q <> pid ->
  preserves (fun w => (_is_already_processed q rev' w).2)
    (_add_to_log env pid title rev status).
Proof.
  intros Hne w. rewrite add_to_log_cases.
  destruct (processing_log w) as [| | | | |m] eqn:Hlog; try done.
  destruct (m !! k_processed_pages) as [[| | | | |e]|] eqn:He; try done.
  cbn [fst]. unfold _is_already_processed. mrun.
  assert (processing_log (recorded env
            (JObj (<[k_processed_pages:=JObj (<[pid:=log_entry_json env title rev status]> e)]> m)) w)
          = JObj (<[k_processed_pages:=JObj (<[pid:=log_entry_json env title rev status]> e)]> m)) as ->.
  { unfold recorded. by destruct (log_write env). }
  rewrite Hlog. mrun. rewrite lookup_insert_eq, He. mrun.
  rewrite lookup_insert_ne by done.
  destruct (e !! q) as [j|]; cbn; [|done].
  by destruct (Json.get j k_last_edited_time).
Qed.

Lemma list_filter_ext_in {A} (P Q : A -> Prop) `{!forall x, Decision (P x)}
    `{!forall x, Decision (Q x)} (l : list A) :
  (forall x, x ∈ l -> P x <-> Q x) -> filter P l = filter Q l.
Proof.
  induction l as [|x l IH]; intros Hext; [done|].
  rewrite !filter_cons, IH by (intros y Hy; apply Hext; by right).
  destruct (decide (P x)) as [Hp|Hp], (decide (Q x)) as [Hq|Hq]; try done.
  - destruct Hq. apply Hext; [by left|done].
  - destruct Hp. apply Hext; [by left|done].
Qed.

Lemma find_page_NoDup rows p :
  NoDup (page_id <$> rows) -> p ∈ rows -> find_page (page_id p) rows = Some p.
Proof.
  unfold find_page. induction rows as [|r rows IH]; intros Hnd Hp.
  { by apply elem_of_nil in Hp. }
  rewrite fmap_cons in Hnd. apply NoDup_cons in Hnd as [Hfresh Hnd].
  rewrite filter_cons. apply elem_of_cons in Hp as [-> | Hp].
  - by rewrite decide_True.
  - rewrite decide_False; [by apply IH|].
    intros Heq. apply Hfresh. rewrite Heq. apply list_elem_of_fmap. eauto.
Qed.

Section Batch.
Context {U : Py.Unicode} (env : Env).

Lemma process_pages_cons page rest s e :
  process_pages env (page :: rest) s e =
  bind (attempt env page s e) (fun counts => process_pages env rest counts.1 counts.2).
Proof. reflexivity. Qed.

(** An attempt on a note leaves the rows and the blocks of the other notes
    alone. *)
Lemma process_page_frame_db pid q :
  q <> pid -> preserves (fun w => find_page q (db w)) (process_page env pid).
Proof.
  intros Hne.
  unfold process_page, pages_retrieve, get_page_content, analyze_with_ai,
    chat_completions_create, json_loads, update_notion_page, pages_update,
    blocks_children_list, blocks_children_append, save_to_github,
    repo_get_contents, repo_update_file, repo_create_file, _add_to_log, _save_log.
  preserves_tac.
  all: apply preserves_modify; intros w0; cbn; by apply find_page_marked_other.
Qed.

Lemma process_page_frame_blocks pid q :
  q <> pid -> preserves (fun w => children w !! q) (process_page env pid).
Proof.
  intros Hne.
  unfold process_page, pages_retrieve, get_page_content, analyze_with_ai,
    chat_completions_create, json_loads, update_notion_page, pages_update,
    blocks_children_list, blocks_children_append, save_to_github,
    repo_get_contents, repo_update_file, repo_create_file, _add_to_log, _save_log.
  preserves_tac.
  all: apply preserves_modify; intros w0; cbn; by rewrite lookup_insert_ne.
Qed.

Lemma process_page_frame_ledger pid q rev :
  q <> pid ->
  preserves (fun w => (_is_already_processed q rev w).2) (process_page env pid).
Proof.
  intros Hne.
  unfold process_page, pages_retrieve, get_page_content, analyze_with_ai,
    chat_completions_create, json_loads, update_notion_page, pages_update,
    blocks_children_list, blocks_children_append, save_to_github,
    repo_get_contents, repo_update_file, repo_create_file.
  preserves_tac.
  all: try by apply add_to_log_other.
  all: intros w0; apply is_already_processed_log; by destruct w0.
Qed.

Lemma attempt_frame page s e q :
  q <> page_id page ->
  preserves (fun w => find_page q (db w)) (attempt env page s e) /\
  preserves (fun w => children w !! q) (attempt env page s e) /\
  forall rev,
    preserves (fun w => (_is_already_processed q rev w).2) (attempt env page s e).
Proof.
  intros Hne. unfold attempt. split; [|split; [|intros rev]].
  - preserves_tac; [by apply process_page_frame_db|].
    unfold _add_to_log, _save_log. preserves_tac.
  - preserves_tac; [by apply process_page_frame_blocks|].
    unfold _add_to_log, _save_log. preserves_tac.
  - preserves_tac; [by apply process_page_frame_ledger| |by apply add_to_log_other].
    intros w0. apply is_already_processed_log. by destruct w0.
Qed.

Lemma too_short_frame page w w1 :
  find_page (page_id page) (db w1) = find_page (page_id page) (db w) ->
  children w1 !! page_id page = children w !! page_id page ->
  too_short env w1 page = too_short env w page.
Proof.
  intros Hdb Hch. unfold too_short, fetchable, note_body, page_blocks.
  by rewrite Hdb, Hch.
Qed.

Lemma pages_retrieve_preserves_ai pid : preserves ai_requests (pages_retrieve env pid).
Proof. unfold pages_retrieve. preserves_tac. Qed.

Lemma get_page_content_preserves_ai pid : preserves ai_requests (get_page_content env pid).
Proof. unfold get_page_content, blocks_children_list. preserves_tac. Qed.

(** A note that is not too short gets no skip line. *)
Lemma process_page_no_skip_line page w :
  too_short env w page = false ->
  count is_skipped (stdout (process_page env (page_id page) w).1) =
  count is_skipped (stdout w).
Proof.
  unfold too_short, fetchable. intros Hlong.
  unfold process_page.
  destruct (store_fails env OpRetrieve (page_id page)) eqn:Hret.
  { erewrite bind_Raise; [done|]. unfold pages_retrieve. by rewrite Hret. }
  destruct (find_page (page_id page) (db w)) as [p|] eqn:Hp.
  2:{ erewrite bind_Raise; [done|]. unfold pages_retrieve. rewrite Hret. mrun.
      by rewrite Hp. }
  rewrite (bind_Ok _ _ _ _ _ (pages_retrieve_ok env _ _ _ Hret Hp)).
  destruct (store_fails env OpListBlocks (page_id page)) eqn:Hlist.
  { erewrite bind_Raise; [done|]. unfold get_page_content, blocks_children_list.
    by rewrite Hlist. }
  rewrite (bind_Ok _ _ _ _ _ (get_page_content_ok env _ _ _ Hlist Hp)).
  rewrite bool_decide_eq_true_2 in Hlong by eauto. cbn [negb andb] in Hlong.
  unfold note_body in Hlong. rewrite Hlong.
  match goal with
  | |- count is_skipped (stdout (?m ?w0).1) = _ =>
      assert (preserves (fun w => count is_skipped (stdout w)) m) as Hm
  end.
  { unfold analyze_with_ai, chat_completions_create, json_loads,
      update_notion_page, pages_update, blocks_children_list,
      blocks_children_append, save_to_github, repo_get_contents,
      repo_update_file, repo_create_file, _add_to_log, _save_log.
    quiet_tac. }
  apply Hm.
Qed.

(** An attempt sends at most one request to the backend. *)
Lemma process_page_requests pid w :
  length (ai_requests (process_page env pid w).1) <= S (length (ai_requests w)).
Proof.
  unfold process_page.
  destruct (pages_retrieve env pid w) as [w1 [page| |]] eqn:Hpage.
  2:{ pose proof (pages_retrieve_preserves_ai pid w) as Hp. rewrite Hpage in Hp.
      rewrite (bind_Raise _ _ _ _ _ Hpage). cbn [fst] in *. rewrite Hp. lia. }
  2:{ pose proof (pages_retrieve_preserves_ai pid w) as Hp. rewrite Hpage in Hp.
      rewrite (bind_Diverge _ _ _ _ Hpage). cbn [fst] in *. rewrite Hp. lia. }
  pose proof (pages_retrieve_preserves_ai pid w) as Hp. rewrite Hpage in Hp.
  cbn [fst] in Hp.
  rewrite (bind_Ok _ _ _ _ _ Hpage).
  destruct (get_page_content env pid w1) as [w2 [content| |]] eqn:Hcontent.
  2:{ pose proof (get_page_content_preserves_ai pid w1) as Hc. rewrite Hcontent in Hc.
      rewrite (bind_Raise _ _ _ _ _ Hcontent). cbn [fst] in *.
      rewrite Hc, Hp. lia. }
  2:{ pose proof (get_page_content_preserves_ai pid w1) as Hc. rewrite Hcontent in Hc.
      rewrite (bind_Diverge _ _ _ _ Hcontent). cbn [fst] in *.
      rewrite Hc, Hp. lia. }
  pose proof (get_page_content_preserves_ai pid w1) as Hc. rewrite Hcontent in Hc.
  cbn [fst] in Hc.
  rewrite (bind_Ok _ _ _ _ _ Hcontent).
  destruct (length content <? 20); [cbn; rewrite Hc, Hp; lia|].
  destruct (analyze_with_ai_returns env content (Some (_get_page_tags page)) w2)
    as (out & j & Hj & _).
  rewrite (bind_Ok _ _ _ _ _ Hj).
  match goal with
  | |- length (ai_requests (?m ?w0).1) <= _ =>
      assert (preserves ai_requests m) as Hm
  end.
  { preserves_tac;
      auto using update_notion_page_preserves_ai,
        save_to_github_preserves_ai, add_to_log_preserves_ai. }
  rewrite Hm. cbn [fst ai_requests after_request set_stdout set_ai_requests].
  rewrite length_app, Hc, Hp. cbn. lia.
Qed.

Lemma process_page_too_short page w :
  too_short env w page = true ->
  process_page env (page_id page) w =
    (set_stdout (fun out => out ++ [MsgSkipTooShort]) w, Ok tt).
Proof.
  unfold too_short, fetchable. rewrite !andb_true_iff, !negb_true_iff.
  intros [[[Hret Hlist] Hp] Hlen].
  apply bool_decide_eq_true in Hp as [p Hp]. apply Nat.ltb_lt in Hlen.
  by apply (process_page_skips env _ p).
Qed.

(** What one turn of the loop does, when it returns. *)
Lemma attempt_Ok page s e w w1 s1 e1 :
  attempt env page s e w = (w1, Ok (s1, e1)) ->
  (too_short env w page = true ->
     w1 = set_stdout (fun out => out ++ [MsgSkipTooShort]) w /\
     s1 = S s /\ e1 = e) /\
  (too_short env w page = false ->
     count is_skipped (stdout w1) = count is_skipped (stdout w) /\
     (find_page (page_id page) (db w) = Some page ->
      (_is_already_processed (page_id page) (last_edited_time page) w1).2 =
        Ok true)).
Proof.
  unfold attempt. intros H. split.
  - intros Hshort. unfold try_except, bind in H.
    rewrite (process_page_too_short _ _ Hshort) in H. cbn in H.
    by injection H as <- <- <-.
  - intros Hlong.
    pose proof (process_page_no_skip_line page w Hlong) as Hquiet.
    unfold try_except, bind at 1 in H.
    destruct (process_page env (page_id page) w) as [w2 [[]|err|]] eqn:Hrun;
      cbn in H, Hquiet; [| |done].
    + injection H as <- <- <-.
      split; [done|]. intros Hpage.
      apply process_page_Ok_trace in Hrun
        as (p & Hret & Hlist & Hp & [[Hlen Hw] | [Hlen Hdone]]).
      * unfold too_short, fetchable in Hlong.
        rewrite Hret, Hlist, Hp in Hlong.
        rewrite bool_decide_eq_true_2 in Hlong by eauto.
        cbn [negb andb] in Hlong. apply Nat.ltb_ge in Hlong. lia.
      * destruct Hdone as (? & ? & ? & ? & ? & ? & ? & ? & Hd).
        destruct Hd as (_ & _ & _ & _ & _ & _ & _ & _ & _ & _ & _ & Hrec & _).
        rewrite Hp in Hpage. by injection Hpage as ->.
    + apply bind_Ok_inv in H as (w4 & [] & Hadd & H).
      unfold ret in H. injection H as <- <- <-.
      pose proof (add_to_log_emits env (page_id page)
                    (if bool_decide (_get_page_title page = [])
                     then Py.lit "タイトル取得失敗" else _get_page_title page)
                    (last_edited_time page) (Py.lit "error: " ++ exn_str err)
                    (set_stdout (fun out => out ++ [MsgError err]) w2))
        as (out & Hout & Herr & Hcount).
      rewrite Hadd in Hout, Hcount. cbn in Hout, Hcount.
      apply add_to_log_Ok in Hadd as (Hrec & _).
      split; [|done].
      rewrite Hout, !count_app, count_cons, <- Hquiet. cbn. lia.
Qed.

Lemma attempt_requests page s e w :
  length (ai_requests (attempt env page s e w).1) <= S (length (ai_requests w)).
Proof.
  pose proof (process_page_requests (page_id page) w) as Hreq.
  unfold attempt, try_except, bind at 1.
  destruct (process_page env (page_id page) w) as [w2 [[]|err|]];
    cbn [fst] in *; [done| |done].
  match goal with
  | |- length (ai_requests (?m ?w0).1) <= _ =>
      assert (preserves ai_requests m) as Hm
  end.
  { preserves_tac. apply add_to_log_preserves_ai. }
  by rewrite Hm.
Qed.

(** The skip lines of a batch are those of its too-short notes, and no
    ledger entry is written for them. *)
Lemma process_pages_skip_lines pages :
  forall s e w w' s' e',
    NoDup (page_id <$> pages) ->
    process_pages env pages s e w = (w', Ok (s', e')) ->
    count is_skipped (stdout w') =
      count is_skipped (stdout w) +
      length (filter (fun p => too_short env w p = true) pages) /\
    (forall q, q ∉ page_id <$> pages ->
       find_page q (db w') = find_page q (db w) /\
       children w' !! q = children w !! q /\
       forall rev, (_is_already_processed q rev w').2 =
                   (_is_already_processed q rev w).2) /\
    (forall p rev, p ∈ pages -> too_short env w p = true ->
       (_is_already_processed (page_id p) rev w').2 =
       (_is_already_processed (page_id p) rev w).2) /\
    length (ai_requests w') +
      length (filter (fun p => too_short env w p = true) pages) <=
    length (ai_requests w) + length pages.
Proof.
  induction pages as [|page pages IH]; intros s e w w' s' e' Hnd Hrun.
  - cbn in Hrun. injection Hrun as <- _ _. cbn.
    split; [lia|]. split; [done|].
    split; [|lia]. intros p rev Hp. by apply elem_of_nil in Hp.
  - rewrite process_pages_cons in Hrun.
    apply bind_Ok_inv in Hrun as (w1 & [s1 e1] & Hat & Hrun). cbn in Hrun.
    rewrite fmap_cons in Hnd. apply NoDup_cons in Hnd as [Hfresh Hnd].
    destruct (IH _ _ _ _ _ _ Hnd Hrun) as (Hlines & Hframe & Hkept & Hreq).
    assert (forall q, q <> page_id page ->
      find_page q (db w1) = find_page q (db w) /\
      children w1 !! q = children w !! q /\
      forall rev, (_is_already_processed q rev w1).2 =
                  (_is_already_processed q rev w).2) as Hstep.
    { intros q Hq. destruct (attempt_frame page s e q Hq) as (Hf1 & Hf2 & Hf3).
      specialize (Hf1 w). specialize (Hf2 w). rewrite Hat in Hf1, Hf2.
      split; [done|]. split; [done|]. intros rev.
      specialize (Hf3 rev w). by rewrite Hat in Hf3. }
    assert (forall p, p ∈ pages -> too_short env w1 p = too_short env w p)
      as Hsame.
    { intros p Hp. assert (page_id p <> page_id page) as Hne.
      { intros Heq. apply Hfresh. rewrite <- Heq.
        apply list_elem_of_fmap. eauto. }
      destruct (Hstep _ Hne) as (Hd & Hc & _). by apply too_short_frame. }
    assert (filter (fun p => too_short env w1 p = true) pages =
            filter (fun p => too_short env w p = true) pages) as Hfilter.
    { apply list_filter_ext_in. intros p Hp. by rewrite Hsame. }
    rewrite Hfilter in Hlines, Hreq.
    destruct (attempt_Ok _ _ _ _ _ _ _ Hat) as [Hshort Hlong].
    pose proof (attempt_requests page s e w) as Hreq1.
    rewrite Hat in Hreq1. cbn [fst] in Hreq1.
    split; [|split; [|split]].
    + rewrite Hlines, filter_cons.
      destruct (too_short env w page) eqn:Hts.
      * destruct Hshort as (-> & _ & _); [done|].
        rewrite decide_True by done. cbn [stdout set_stdout length].
        rewrite count_app. change (count is_skipped [MsgSkipTooShort]) with 1.
        lia.
      * destruct Hlong as [-> _]; [done|]. rewrite decide_False by done. lia.
    + intros q Hq. rewrite fmap_cons in Hq.
      apply not_elem_of_cons in Hq as [Hq1 Hq2].
      destruct (Hframe q Hq2) as (-> & -> & Hl). destruct (Hstep q Hq1) as (-> & -> & Hl1).
      split; [done|]. split; [done|]. intros rev. by rewrite Hl, Hl1.
    + intros p rev Hp Hts. apply elem_of_cons in Hp as [-> | Hp].
      * destruct (Hframe (page_id page) Hfresh) as (_ & _ & ->).
        destruct Hshort as (-> & _ & _); [done|].
        apply is_already_processed_log. done.
      * rewrite (Hkept p rev Hp) by (by rewrite Hsame).
        assert (page_id p <> page_id page) as Hne.
        { intros Heq. apply Hfresh. rewrite <- Heq.
          apply list_elem_of_fmap. eauto. }
        by destruct (Hstep _ Hne) as (_ & _ & ->).
    + rewrite filter_cons. cbn [length].
      destruct (too_short env w page) eqn:Hts.
      * destruct Hshort as (Hw1 & _ & _); [done|]. subst w1.
        rewrite decide_True by done. cbn [length ai_requests set_stdout] in *.
        lia.
      * rewrite decide_False by done. lia.
Qed.

(** Every note of a batch that is not too short ends up in the ledger, at
    the revision under which it was listed. *)
Lemma process_pages_recorded pages :
  forall s e w w' s' e',
    NoDup (page_id <$> pages) ->
    (forall p, p ∈ pages -> find_page (page_id p) (db w) = Some p) ->
    process_pages env pages s e w = (w', Ok (s', e')) ->
    forall p, p ∈ pages -> too_short env w p = false ->
      (_is_already_processed (page_id p) (last_edited_time p) w').2 = Ok true.
Proof.
  induction pages as [|page pages IH]; intros s e w w' s' e' Hnd Hrows Hrun p Hp.
  { by apply elem_of_nil in Hp. }
  rewrite process_pages_cons in Hrun.
  apply bind_Ok_inv in Hrun as (w1 & [s1 e1] & Hat & Hrun). cbn in Hrun.
  rewrite fmap_cons in Hnd. apply NoDup_cons in Hnd as [Hfresh Hnd].
  assert (forall q, q ∈ pages -> page_id q <> page_id page) as Hother.
  { intros q Hq Heq. apply Hfresh. rewrite <- Heq. apply list_elem_of_fmap. eauto. }
  assert (forall q, q <> page_id page ->
    find_page q (db w1) = find_page q (db w) /\
    children w1 !! q = children w !! q) as Hstep.
  { intros q Hq. destruct (attempt_frame page s e q Hq) as (Hf1 & Hf2 & _).
    specialize (Hf1 w). specialize (Hf2 w). by rewrite Hat in Hf1, Hf2. }
  intros Hts. apply elem_of_cons in Hp as [-> | Hp].
  - destruct (process_pages_skip_lines _ _ _ _ _ _ _ Hnd Hrun)
      as (_ & Hframe & _).
    destruct (Hframe (page_id page) Hfresh) as (_ & _ & ->).
    destruct (attempt_Ok _ _ _ _ _ _ _ Hat) as [_ Hlong].
    apply Hlong; [done|]. apply Hrows. by left.
  - apply (IH _ _ _ _ _ _ Hnd) with (p := p) in Hrun; [done| |done|].
    + intros q Hq. destruct (Hstep _ (Hother q Hq)) as [-> _].
      apply Hrows. by right.
    + destruct (Hstep _ (Hother p Hp)) as [Hd Hc].
      by rewrite (too_short_frame _ _ _ Hd Hc).
Qed.
End Batch.

Lemma batch_sublist limit pages : batch limit pages `sublist_of` pages.
Proof.
  unfold batch. destruct limit as [n|]; [|done].
  destruct (n =? 0)%Z; [done|apply slice_to_Z_sublist].
Qed.

Lemma candidate_pages_preserves {F} (f : World -> F) env force :
  (forall g w, f (set_all_pages_cache g w) = f w) ->
  preserves f (candidate_pages env force).
Proof.
  intros Hf. unfold candidate_pages, get_all_pages, get_unprocessed_pages.
  preserves_tac; auto using query_all_preserves, filter_unprocessed_preserves.
  apply preserves_modify. intros w. apply Hf.
Qed.

Lemma candidate_pages_sublist env force w w1 pages :
  candidate_pages env force w = (w1, Ok pages) ->
  pages `sublist_of` db w.
Proof.
  unfold candidate_pages. intros H.
  apply bind_Ok_inv in H as (w2 & all & Hall & H).
  destruct (store_fails env OpQuery []) eqn:Hq.
  { unfold get_all_pages in Hall.
    erewrite bind_Raise in Hall; [done|]. by apply query_all_raises. }
  rewrite get_all_pages_ok in Hall by done. injection Hall as <- <-.
  destruct force.
  - unfold gets in H. by injection H as _ <-.
  - unfold get_unprocessed_pages in H.
    rewrite (bind_Ok _ _ _ _ _ (query_all_ok env _ _ Hq)) in H.
    apply filter_unprocessed_sublist in H as [_ Hsub].
    etransitivity; [exact Hsub|]. apply sublist_filter.
Qed.

Section Run.
Context {U : Py.Unicode} (env : Env).

(** [run] from the listing on, when there is something to do. *)
Lemma run_batch limit force w w1 pages :
  candidate_pages env force w = (w1, Ok pages) ->
  pages <> [] ->
  exists pre,
    (pre = [] \/ exists n, pre = [MsgLimit n]) /\
    run env limit force w =
      bind (process_pages env (batch limit pages) 0 0)
        (fun counts =>
           print (MsgSummary counts.1 counts.2 (length (batch limit pages))))
        (set_stdout (fun out => out ++ pre) w1).
Proof.
  intros Hc Hne. unfold run. rewrite (bind_Ok _ _ _ _ _ Hc).
  destruct pages as [|page pages]; [done|].
  assert (set_stdout (fun out => out ++ []) w1 = w1) as Hnil.
  { destruct w1. unfold set_stdout. cbn. by rewrite app_nil_r. }
  unfold batch. destruct limit as [n|].
  - destruct (n =? 0)%Z.
    + exists []. split; [by left|]. by rewrite Hnil.
    + exists [MsgLimit n]. split; [eauto|]. reflexivity.
  - exists []. split; [by left|]. by rewrite Hnil.
Qed.

Lemma too_short_listed force w w1 pages p :
  candidate_pages env force w = (w1, Ok pages) ->
  forall pre,
    too_short env (set_stdout (fun out => out ++ pre) w1) p = too_short env w p.
Proof.
  intros Hc pre.
  pose proof (candidate_pages_preserves db env force (fun _ _ => eq_refl) w) as Hd.
  pose proof (candidate_pages_preserves children env force (fun _ _ => eq_refl) w)
    as Hch.
  rewrite Hc in Hd, Hch. cbn in Hd, Hch.
  apply too_short_frame; cbn; by rewrite ?Hd, ?Hch.
Qed.

(** C10. A note that is too short is counted as a success. On a ledger of
    entries and a store whose ids are unique, a run with candidates returns
    and ends with the summary line. Its success count is the number of notes
    of the batch that can be fetched and whose extracted body has fewer than
    20 characters, each of which got its skip line, plus the number of
    completion lines (notes enriched, persisted and logged); its error count
    is the number of error lines; and its total is the size of the batch,
    the sum of the three. The backend received at most one request for each
    note completed or failed, none for the skipped ones, and the ledger
    answers for the skipped notes as it did before the run. *)
Theorem run_success_counts_skipped (limit : option Z) (force_reprocess : bool)
    (w w1 : World) (pages : list Page) :
  has_ledger w ->
  NoDup (page_id <$> db w) ->
  candidate_pages env force_reprocess w = (w1, Ok pages) ->
  pages <> [] ->
  let todo := batch limit pages in
  let skipped := filter (fun p => too_short env w p = true) todo in
  exists w' out completed failed,
    run env limit force_reprocess w = (w', Ok tt) /\
    stdout w' =
      stdout w ++ out ++
      [MsgSummary (length skipped + completed) failed (length todo)] /\
    count is_skipped out = length skipped /\
    count is_done out = completed /\
    count is_error out = failed /\
    length skipped + completed + failed = length todo /\
    length (ai_requests w') <= length (ai_requests w) + completed + failed /\
    forall p rev, p ∈ skipped ->
      (_is_already_processed (page_id p) rev w').2 =
      (_is_already_processed (page_id p) rev w).2.
Proof.
  intros Hw Hnd Hc Hne todo skipped.
  destruct (run_batch limit force_reprocess w w1 pages Hc Hne)
    as (pre & Hpre & Hrun).
  pose proof (candidate_pages_preserves processing_log env force_reprocess
                (fun _ _ => eq_refl) w) as Hlog.
  pose proof (candidate_pages_preserves stdout env force_reprocess
                (fun _ _ => eq_refl) w) as Hout.
  rewrite Hc in Hlog, Hout. cbn in Hlog, Hout.
  set (w2 := set_stdout (fun out => out ++ pre) w1) in *.
  assert (has_ledger w2) as Hw2.
  { destruct Hw as [entries Hw]. exists entries. cbn. by rewrite Hlog. }
  destruct (process_pages_returns env todo 0 0 w2 Hw2)
    as (w3 & s & e & Hpp & Hw3 & Hlen).
  fold todo in Hrun. rewrite (bind_Ok _ _ _ _ _ Hpp) in Hrun. cbn in Hrun.
  assert (NoDup (page_id <$> todo)) as Hnd'.
  { eapply sublist_NoDup; [exact Hnd|]. apply fmap_sublist.
    etransitivity; [apply batch_sublist|].
    by eapply candidate_pages_sublist. }
  destruct (process_pages_skip_lines env todo _ _ _ _ _ _ Hnd' Hpp)
    as (Hlines & _ & Hkept & Hreq).
  assert (filter (fun p => too_short env w2 p = true) todo = skipped) as Hskipped.
  { apply list_filter_ext_in. intros p _.
    unfold w2. by rewrite (too_short_listed _ _ _ _ _ Hc). }
  rewrite Hskipped in Hlines, Hreq.
  pose proof (process_pages_counts env todo _ _ _ _ _ _ Hpp)
    as (out & Ho & Hs & He & Hsum).
  assert (count is_skipped out = length skipped) as Hsk.
  { rewrite Ho, count_app in Hlines. lia. }
  assert (count is_skipped pre = 0 /\ count is_done pre = 0 /\
          count is_error pre = 0) as (Hp1 & Hp2 & Hp3).
  { destruct Hpre as [-> | [n ->]]; done. }
  eexists _, (pre ++ out), (count is_done out), (count is_error out).
  split; [exact Hrun|]. cbn [stdout set_stdout].
  split.
  { rewrite Ho. cbn [w2 stdout set_stdout]. rewrite Hout, Hs, He, Hsk.
    by rewrite <- !app_assoc. }
  rewrite !count_app, Hp1, Hp2, Hp3.
  split; [done|]. split; [done|]. split; [done|]. split; [lia|].
  split.
  { pose proof (candidate_pages_preserves ai_requests env force_reprocess
                  (fun _ _ => eq_refl) w) as Hai.
    rewrite Hc in Hai. cbn [fst] in Hai.
    assert (ai_requests w2 = ai_requests w) as Hai2 by exact Hai.
    rewrite Hai2 in Hreq. cbn [ai_requests set_stdout]. lia. }
  intros p rev Hp.
  apply list_elem_of_filter in Hp as [Hts Hp].
  rewrite (is_already_processed_log _ w3) by done.
  rewrite (Hkept p rev Hp) by (unfold w2; by rewrite (too_short_listed _ _ _ _ _ Hc)).
  apply is_already_processed_log. cbn. done.
Qed.

(** X16. The run always completes, and every candidate is attempted. When
    the store answers the listing, its ids are unique, and the log in memory
    is a ledger of entries (as after [__init__] on a missing, unreadable or
    previously written file), [run] returns whatever happens to the single
    notes: no failure of the store, the backend or the archive on a note
    aborts the batch, and the ledger stays a ledger of entries. If there
    are candidates, the last line is the summary, whose total is the size
    of the batch and the sum of its success and error counts. Every note of
    the batch is afterwards either in the ledger, at the revision under
    which it was listed, or one that was skipped as too short. *)
Theorem run_always_completes (limit : option Z) (force_reprocess : bool)
    (entries : gmap str (gmap str JSON)) (w : World) :
  store_fails env OpQuery [] = false ->
  NoDup (page_id <$> db w) ->
  let pages := filter (fun p => force_reprocess ||
                                unprocessed_filter p && stale entries p = true)
                      (db w) in
  exists w',
    run env limit force_reprocess (with_ledger entries w) = (w', Ok tt) /\
    has_ledger w' /\
    (pages <> [] ->
     exists success error,
       last (stdout w') =
         Some (MsgSummary success error (length (batch limit pages))) /\
       success + error = length (batch limit pages)) /\
    (forall p, p ∈ batch limit pages ->
       too_short env w p = true \/
       (_is_already_processed (page_id p) (last_edited_time p) w').2 = Ok true).
Proof.
  intros Hq Hnd pages.
  destruct (candidate_pages_ledger env entries w force_reprocess Hq) as [w1 Hc].
  fold pages in Hc.
  pose proof (candidate_pages_preserves processing_log env force_reprocess
                (fun _ _ => eq_refl) (with_ledger entries w)) as Hlog.
  pose proof (candidate_pages_preserves db env force_reprocess
                (fun _ _ => eq_refl) (with_ledger entries w)) as Hdb.
  rewrite Hc in Hlog, Hdb. cbn in Hlog, Hdb.
  destruct (decide (pages = [])) as [Hnil | Hne].
  { exists (set_stdout (fun out => out ++ [MsgNoTargets]) w1).
    unfold run. rewrite (bind_Ok _ _ _ _ _ Hc), Hnil.
    split; [done|]. split; [exists entries; by rewrite <- Hlog|].
    split; [done|]. intros p Hp.
    eapply sublist_subseteq in Hp; [|apply batch_sublist].
    by apply elem_of_nil in Hp. }
  destruct (run_batch limit force_reprocess _ w1 pages Hc Hne)
    as (pre & Hpre & Hrun).
  set (w2 := set_stdout (fun out => out ++ pre) w1) in *.
  assert (has_ledger w2) as Hw2 by (exists entries; by rewrite <- Hlog).
  destruct (process_pages_returns env (batch limit pages) 0 0 w2 Hw2)
    as (w3 & s & e & Hpp & Hw3 & Hlen).
  rewrite (bind_Ok _ _ _ _ _ Hpp) in Hrun. cbn in Hrun.
  eexists. split; [exact Hrun|].
  split; [destruct Hw3 as [en He]; by exists en|].
  split.
  { intros _. exists s, e. cbn. rewrite last_snoc. split; [done|lia]. }
  assert (batch limit pages `sublist_of` db w) as Hsub.
  { etransitivity; [apply batch_sublist|]. apply sublist_filter. }
  assert (NoDup (page_id <$> batch limit pages)) as Hnd'.
  { eapply sublist_NoDup; [exact Hnd|]. by apply fmap_sublist. }
  intros p Hp.
  destruct (too_short env w p) eqn:Hts; [by left|right].
  rewrite (is_already_processed_log _ w3) by done.
  eapply (process_pages_recorded env); [exact Hnd'| |exact Hpp|exact Hp|].
  - intros q Hq'. cbn [w2 db set_stdout]. rewrite Hdb. cbn.
    apply find_page_NoDup; [done|]. by eapply sublist_subseteq.
  - unfold w2. rewrite (too_short_listed _ _ _ _ _ Hc). exact Hts.
Qed.
End Run.

(** ** More on the matcher, the file name and the content *)

Lemma list_filter_True_Forall {A} (P : A -> Prop) `{!forall x, Decision (P x)}
    (l : list A) :
  Forall P l -> filter P l = l.
Proof.
  induction 1 as [|x l Hx _ IH]; [done|]. by rewrite filter_cons_True, IH.
Qed.

Section Matcher2.
Context {U : Py.Unicode}.

Lemma keyword_matches_Permutation kws1 kws2 text :
  kws1 ≡ₚ kws2 -> keyword_matches kws1 text = keyword_matches kws2 text.
Proof. intros Hp. unfold keyword_matches. by rewrite Hp. Qed.

(** X17. The order of the keywords does not matter: two keyword lists that
    are permutations of each other give the same scores and the same
    result. (A keyword listed twice does count twice.) *)
Theorem find_related_pages_keyword_order (cache : list Page)
    (keywords1 keywords2 : list str) (current_page_id : str) (top_k : Z) :
  keywords1 ≡ₚ keywords2 ->
  (forall page, page_score keywords1 page = page_score keywords2 page) /\
  find_related_pages cache keywords1 current_page_id top_k =
  find_related_pages cache keywords2 current_page_id top_k.
Proof.
  intros Hp.
  assert (forall page, page_score keywords1 page = page_score keywords2 page)
    as Hscore.
  { intros page. unfold page_score.
    by rewrite !(keyword_matches_Permutation keywords1 keywords2). }
  split; [exact Hscore|].
  assert (related_scan cache keywords1 current_page_id =
          related_scan cache keywords2 current_page_id) as Hscan.
  { unfold related_scan. apply list_omap_ext.
    induction cache as [|page cache IH]; constructor; [|exact IH].
    unfold related_entry. by rewrite Hscore. }
  unfold find_related_pages. rewrite Hscan.
  destruct keywords1 as [|k1 l1], keywords2 as [|k2 l2]; try done.
  - by apply Permutation_nil_cons in Hp.
  - symmetry in Hp. by apply Permutation_nil_cons in Hp.
Qed.

(** X18. A larger [top_k] only extends the result: for bounds
    [0 <= k <= k'], the list returned for [k] is the beginning of the list
    returned for [k'], so asking for more never reorders or drops an
    entry. *)
Theorem find_related_pages_top_k_prefix (cache : list Page) (keywords : list str)
    (current_page_id : str) (k k' : Z) :
  (0 <= k)%Z -> (k <= k')%Z ->
  find_related_pages cache keywords current_page_id k `prefix_of`
  find_related_pages cache keywords current_page_id k'.
Proof.
  intros Hk Hk'. unfold find_related_pages.
  destruct keywords as [|kw keywords]; [done|].
  unfold Py.slice_to_Z.
  replace (0 <=? k)%Z with true by (symmetry; apply Z.leb_le; lia).
  replace (0 <=? k')%Z with true by (symmetry; apply Z.leb_le; lia).
  set (l := sort_desc rel_score _).
  replace (take (Z.to_nat k) l) with (take (Z.to_nat k) (take (Z.to_nat k') l)).
  - apply prefix_take.
  - rewrite take_take. f_equal. lia.
Qed.

Lemma safe_title_unfold (title : str) :
  safe_title title =
    filter (fun c => Py.isalnum c || bool_decide (c ∈ [32%N; 45%N; 95%N]) = true)
      (take 50 (map (fun c => if bool_decide (c = 47%N \/ c = 92%N)
                              then 45%N else c) title)).
Proof.
  unfold safe_title, Py.slice_to. do 2 f_equal.
  change (Py.lit "-") with [45%N]. rewrite !replace_char_single.
  rewrite map_map. apply map_ext. intros c.
  destruct (c =? 47)%N eqn:H47.
  - apply N.eqb_eq in H47. by subst c.
  - apply N.eqb_neq in H47. destruct (c =? 92)%N eqn:H92.
    + apply N.eqb_eq in H92. by subst c.
    + apply N.eqb_neq in H92. rewrite bool_decide_eq_false_2; [done|].
      intros [?|?]; done.
Qed.

(** X19. Sanitizing a title is idempotent, and a title of at most 50
    characters that are all alphanumeric, spaces, hyphens or underscores,
    and none of them a slash or backslash, is kept as it is. *)
Theorem safe_title_idempotent (title : str) :
  safe_title (safe_title title) = safe_title title /\
  (length title <= 50 ->
   Forall (fun c => (Py.isalnum c || bool_decide (c ∈ [32%N; 45%N; 95%N])) = true /\
                    c <> 47%N /\ c <> 92%N) title ->
   safe_title title = title).
Proof.
  assert (forall t : str,
    length t <= 50 ->
    Forall (fun c => (Py.isalnum c || bool_decide (c ∈ [32%N; 45%N; 95%N])) = true /\
                     c <> 47%N /\ c <> 92%N) t ->
    safe_title t = t) as Hclean.
  { intros t Hlen Hall. rewrite safe_title_unfold.
    replace (map _ t) with t.
    - rewrite take_ge by done. apply list_filter_True_Forall.
      eapply Forall_impl; [exact Hall|]. by intros c [? _].
    - symmetry. rewrite <- (map_id t) at 2. apply map_ext_Forall.
      eapply Forall_impl; [exact Hall|]. intros c (_ & H47 & H92).
      rewrite bool_decide_eq_false_2; [done|]. by intros [?|?]. }
  split; [|apply Hclean].
  apply Hclean.
  - rewrite safe_title_unfold. etransitivity; [apply length_filter|].
    rewrite length_take. lia.
  - apply Forall_forall. intros c Hc. split.
    + unfold safe_title in Hc. by apply list_elem_of_filter in Hc as [Hc _].
    + unfold safe_title, Py.slice_to in Hc.
      apply list_elem_of_filter in Hc as [_ Hc].
      apply elem_of_take in Hc as (i & Hc & _).
      apply list_elem_of_lookup_2 in Hc.
      split; intros ->; revert Hc.
      * apply replace_char_keeps_absent.
        -- change (Py.lit "-") with [45%N]. by rewrite list_elem_of_singleton.
        -- apply replace_char_removes.
           change (Py.lit "-") with [45%N]. by rewrite list_elem_of_singleton.
      * apply replace_char_removes.
        change (Py.lit "-") with [45%N]. by rewrite list_elem_of_singleton.
Qed.
End Matcher2.

Lemma join_app (sep : str) (l1 l2 : list str) :
  l1 <> [] -> l2 <> [] ->
  Py.join sep (l1 ++ l2) = Py.join sep l1 ++ sep ++ Py.join sep l2.
Proof.
  intros H1 H2. induction l1 as [|a l1 IH]; [done|].
  destruct l1 as [|b l1].
  - cbn. by destruct l2.
  - cbn [app Py.join] in *. rewrite IH by done. by rewrite <- !app_assoc.
Qed.

Section Pipeline2.
Context {U : Py.Unicode} (env : Env).

(** X20. A positive [limit] bounds the batch: when [run] with a limit
    [n > 0] returns and ends with the summary line, the total on that line
    is at most [n], and it is the sum of the success and error counts. *)
Theorem run_respects_limit (n : Z) (force_reprocess : bool) (w : World)
    (success error total : nat) :
  (0 < n)%Z ->
  (run env (Some n) force_reprocess w).2 = Ok tt ->
  last (stdout (run env (Some n) force_reprocess w).1) =
    Some (MsgSummary success error total) ->
  total <= Z.to_nat n /\ success + error = total.
Proof.
  intros Hn. unfold run.
  destruct (candidate_pages env force_reprocess w) as [w1 [pages|e|]] eqn:Hcand.
  2:{ by rewrite (bind_Raise _ _ _ _ _ Hcand). }
  2:{ by rewrite (bind_Diverge _ _ _ _ Hcand). }
  rewrite !(bind_Ok _ _ _ _ _ Hcand).
  destruct pages as [|page pages].
  { intros _. cbn. by rewrite last_snoc. }
  replace (n =? 0)%Z with false by (symmetry; apply Z.eqb_neq; lia).
  unfold bind at 1 4. unfold bind at 1 3. cbn [print modify ret fst snd].
  set (w2 := set_stdout _ w1). set (batch := Py.slice_to_Z n (page :: pages)).
  unfold bind.
  destruct (process_pages env batch 0 0 w2) as [w3 [[s e]| |]] eqn:Hpp;
    [|done..].
  intros _. cbn. rewrite last_snoc. intros [= <- <- <-].
  apply process_pages_counts in Hpp as (out & _ & _ & _ & Hlen).
  split; [|lia].
  subst batch. unfold Py.slice_to_Z.
  replace (0 <=? n)%Z with true by (symmetry; apply Z.leb_le; lia).
  rewrite length_take. lia.
Qed.

(** X22. The content is assembled block by block, in the order of the
    blocks: the content of a note whose blocks are [blocks1] followed by
    [blocks2], both with some text, is the content of the first part, a line
    break, and the content of the second part. *)
Theorem get_page_content_in_order (pid : str) (page : Page)
    (blocks1 blocks2 : list Block) (w : World) :
  store_fails env OpListBlocks pid = false ->
  find_page pid (db w) = Some page ->
  page_blocks w pid = blocks1 ++ blocks2 ->
  omap render_block blocks1 <> [] ->
  omap render_block blocks2 <> [] ->
  get_page_content env pid w =
    (w, Ok (Py.join nl (omap render_block blocks1) ++ nl ++
            Py.join nl (omap render_block blocks2))).
Proof.
  intros Hlist Hpage Hblocks H1 H2.
  rewrite (get_page_content_ok env pid page) by done.
  by rewrite Hblocks, omap_app, join_app.
Qed.
End Pipeline2.


(** ** The further properties on concrete inputs *)

Section Examples2.
Import Scenario.
Local Existing Instance Py.ascii_unicode.

Lemma ledger_write_through_witness :
  let w' := (_add_to_log (env_losing_log DumpFails) (Py.lit "n1") (Py.lit "draft")
               (Py.lit "2024-05-01T08:00:00.000Z") (Py.lit "success")
               after_first_run).1 in
  log_file after_first_run = Parses (processing_log after_first_run) /\
  (_is_already_processed (Py.lit "n1") (Py.lit "2024-05-01T08:00:00.000Z") w').2 =
    Ok true /\
  log_file w' = Unreadable /\
  processing_log (init w').1 = empty_log /\
  stdout w' = stdout after_first_run ++ [MsgLogSaveError].
Proof.
  split; [vm_compute; reflexivity|].
  apply (ledger_write_through (env_losing_log DumpFails) (Py.lit "n1")
           (Py.lit "draft") (Py.lit "2024-05-01T08:00:00.000Z")
           (Py.lit "success") after_first_run).
  vm_compute. reflexivity.
Defined.

Lemma unreadable_log_starts_empty_witness :
  init start = (with_ledger ∅ (set_all_pages_cache (fun _ => []) start), Ok tt) /\
  (forall page_id rev,
     (_is_already_processed page_id rev (init start).1).2 = Ok false) /\
  (forall page_id title rev status,
     (_add_to_log env page_id title rev status (init start).1).2 = Ok tt).
Proof.
  apply (unreadable_log_starts_empty env start). left. reflexivity.
Defined.

Lemma get_all_pages_complete_witness :
  get_all_pages env start = (set_all_pages_cache (fun _ => db start) start,
                             Ok (db start)) /\
  all_pages_cache (get_all_pages env start).1 = db start /\
  forall flt, query_all env flt start =
              (start, Ok (filter (fun p => flt p = true) (db start))).
Proof. apply (get_all_pages_complete env start). reflexivity. Defined.

Lemma run_fails_fast_witness :
  exists w',
    run (env_refusing OpQuery) None false ready =
      (w', Raise (APIError (Py.lit "query failed"))) /\
    db w' = db ready /\ children w' = children ready /\ repo w' = repo ready /\
    ai_requests w' = ai_requests ready /\
    all_pages_cache w' = all_pages_cache ready /\
    processing_log w' = processing_log ready /\ log_file w' = log_file ready.
Proof.
  apply (run_fails_fast (env_refusing OpQuery) None false ready). reflexivity.
Defined.

Lemma update_notion_page_partial_failure_witness :
  exists w' e,
    update_notion_page (env_refusing OpAppend) (Py.lit "n1") (JStr (Py.lit "T"))
      (JList []) one_related start = (w', Raise e) /\
    children w' = children start /\
    db w' = marked_rows (Py.lit "n1") (Py.lit "T") [] (db start) /\
    stdout w' = stdout start ++ [MsgNotionUpdateError e] /\
    forall p, p ∈ db w' -> page_id p = Py.lit "n1" ->
              unprocessed_filter p = false.
Proof.
  apply (update_notion_page_partial_failure (env_refusing OpAppend)
           (Py.lit "n1") (Py.lit "T") (JList []) [] one_related start);
    try reflexivity.
  - eexists. vm_compute. reflexivity.
  - discriminate.
Defined.



Lemma completed_note_not_retried_witness :
  (process_page env (Py.lit "n1") ready).2 = Ok tt /\
  (forall w'' pages,
     candidate_pages env false
       (set_db (map (with_revision (Py.lit "2024-06-01T10:00:00.000Z")))
          (process_page env (Py.lit "n1") ready).1) = (w'', Ok pages) ->
     forall p, p ∈ pages -> page_id p <> Py.lit "n1").
Proof.
  split; [vm_compute; reflexivity|].
  apply (completed_note_not_retried env (Py.lit "n1") ready
           (process_page env (Py.lit "n1") ready).1
           (with_revision (Py.lit "2024-06-01T10:00:00.000Z"))).
  - vm_compute. reflexivity.
  - vm_compute. discriminate.
  - intros p. repeat split.
Defined.


Lemma failed_attempt_leaves_ledger_witness :
  processing_log (process_page (env_refusing OpUpdate) (Py.lit "n1") ready).1 =
    processing_log ready /\
  log_file (process_page (env_refusing OpUpdate) (Py.lit "n1") ready).1 =
    log_file ready.
Proof.
  apply (failed_attempt_leaves_ledger (env_refusing OpUpdate) (Py.lit "n1") ready
           (APIError (Py.lit "update failed"))).
  vm_compute. reflexivity.
Defined.

Lemma skipped_note_stays_candidate_witness :
  (process_page env (Py.lit "n")
     (with_ledger ∅ (single "nineteen characters"))).2 = Ok tt /\
  (candidate_pages env false
     (process_page env (Py.lit "n")
        (with_ledger ∅ (single "nineteen characters"))).1).2 =
  (candidate_pages env false (with_ledger ∅ (single "nineteen characters"))).2.
Proof.
  apply (skipped_note_stays_candidate env (Py.lit "n")
           (note "n" "draft" ["idea"] "2024-05-01T08:00:00.000Z"
              status_unprocessed false)
           ∅ (single "nineteen characters") false);
    [reflexivity|reflexivity|reflexivity|reflexivity|vm_compute; lia].
Defined.

Lemma textless_note_is_skipped_witness :
  process_page env (Py.lit "n") blank =
    (set_stdout (fun out => out ++ [MsgSkipTooShort]) blank, Ok tt).
Proof.
  apply (textless_note_is_skipped env (Py.lit "n")
           (note "n" "draft" [] "2024-05-01T08:00:00.000Z"
              status_unprocessed false) blank);
    [reflexivity|reflexivity|reflexivity|].
  intros b Hb.
  change (page_blocks blank (Py.lit "n"))
    with [{| block_type := divider; rich_text := None; checked := false |}] in Hb.
  apply list_elem_of_singleton in Hb. subst b. right. left. reflexivity.
Defined.

Lemma run_always_completes_witness :
  let pages := filter (fun p => false || unprocessed_filter p && stale ∅ p = true)
                      (db mixed) in
  exists w',
    run env None false (with_ledger ∅ mixed) = (w', Ok tt) /\
    has_ledger w' /\
    (pages <> [] ->
     exists success error,
       last (stdout w') =
         Some (MsgSummary success error (length (batch None pages))) /\
       success + error = length (batch None pages)) /\
    (forall p, p ∈ batch None pages ->
       too_short env mixed p = true \/
       (_is_already_processed (page_id p) (last_edited_time p) w').2 = Ok true).
Proof.
  apply (run_always_completes env None false ∅ mixed).
  - reflexivity.
  - apply (bool_decide_unpack (NoDup _)). vm_compute. exact I.
Defined.

Lemma run_success_counts_skipped_witness :
  let w := with_ledger ∅ mixed in
  let todo := batch None (db mixed) in
  let skipped := filter (fun p => too_short env w p = true) todo in
  length skipped = 1 /\
  exists w' out completed failed,
    run env None false w = (w', Ok tt) /\
    stdout w' =
      stdout w ++ out ++
      [MsgSummary (length skipped + completed) failed (length todo)] /\
    count is_skipped out = length skipped /\
    count is_done out = completed /\
    count is_error out = failed /\
    length skipped + completed + failed = length todo /\
    length (ai_requests w') <= length (ai_requests w) + completed + failed /\
    forall p rev, p ∈ skipped ->
      (_is_already_processed (page_id p) rev w').2 =
      (_is_already_processed (page_id p) rev w).2.
Proof.
  split; [vm_compute; reflexivity|].
  apply (run_success_counts_skipped env None false (with_ledger ∅ mixed)
           (candidate_pages env false (with_ledger ∅ mixed)).1 (db mixed)).
  - exists ∅. reflexivity.
  - apply (bool_decide_unpack (NoDup _)). vm_compute. exact I.
  - vm_compute. reflexivity.
  - discriminate.
Defined.

Lemma find_related_pages_keyword_order_witness :
  (forall page,
     page_score [Py.lit "rust"; Py.lit "cache"] page =
     page_score [Py.lit "cache"; Py.lit "rust"] page) /\
  find_related_pages rows [Py.lit "rust"; Py.lit "cache"] (Py.lit "n1") 5 =
  find_related_pages rows [Py.lit "cache"; Py.lit "rust"] (Py.lit "n1") 5.
Proof.
  apply (find_related_pages_keyword_order rows [Py.lit "rust"; Py.lit "cache"]
           [Py.lit "cache"; Py.lit "rust"] (Py.lit "n1") 5).
  apply Permutation_swap.
Defined.

Lemma find_related_pages_top_k_prefix_witness :
  find_related_pages rows [Py.lit "rust"; Py.lit "cache"] (Py.lit "n1") 1
    `prefix_of`
  find_related_pages rows [Py.lit "rust"; Py.lit "cache"] (Py.lit "n1") 2.
Proof.
  apply (find_related_pages_top_k_prefix rows [Py.lit "rust"; Py.lit "cache"]
           (Py.lit "n1") 1 2); lia.
Defined.

Lemma run_respects_limit_witness :
  last (stdout (run env (Some 1%Z) false (init mixed).1).1) =
    Some (MsgSummary 1 0 1) /\
  1 <= Z.to_nat 1 /\ 1 + 0 = 1.
Proof.
  split; [vm_compute; reflexivity|].
  apply (run_respects_limit env 1 false (init mixed).1 1 0 1).
  - lia.
  - vm_compute. reflexivity.
  - vm_compute. reflexivity.
Defined.

Lemma get_page_content_in_order_witness :
  get_page_content env (Py.lit "n1") linked =
    (linked,
     Ok (Py.join nl (omap render_block [text paragraph "Ownership rules in detail."])
         ++ nl ++
         Py.join nl (omap render_block [text heading_3 "関連メモ (manual)"]))).
Proof.
  apply (get_page_content_in_order env (Py.lit "n1")
           (note "n1" "draft" [] "2024-05-01T08:00:00.000Z"
              status_unprocessed false)
           [text paragraph "Ownership rules in detail."]
           [text heading_3 "関連メモ (manual)"] linked);
    [reflexivity|reflexivity|reflexivity|vm_compute; discriminate
    |vm_compute; discriminate].
Defined.

End Examples2.
